(** * CampusBarter: storage layer and API routes

    Shallow embedding of [server/storage.ts] ([DatabaseStorage]),
    [server/routes.ts] (the Express handlers) and [shared/schema.ts]
    (the Drizzle tables and the zod insert schemas).

    - Every table is a list of rows in heap order; a [select] without
      [orderBy] returns the rows in that order, and [insert] appends.
    - Primary keys are [gen_random_uuid()] strings; they are opaque tokens,
      modelled as [N] values drawn from a counter in the store.
    - A [decimal(10, 2)] column holds a number of cents ([Z]) or NaN;
      Drizzle hands it to the code as a string such as ["10.50"] or
      ["NaN"], and sends the code's values to Postgres as text.
    - JavaScript numbers are IEEE-754 binary64 values: Rocq's primitive
      [float] (whose operations [FloatAxioms] relates to [SpecFloat]). *)

From Stdlib Require Import ZArith NArith List String Ascii Bool Lia.
From Stdlib Require Import Floats Uint63.
Import ListNotations.
Open Scope Z_scope.

Definition id := N.
Bind Scope N_scope with id.

(** ** Rows of [shared/schema.ts] *)

Record user := mkUser { user_id : id }.

(** A [numeric(10, 2)] value: a number of cents, or NaN. *)
Inductive numeric := PgNum (cents : Z) | PgNaN.

Record item := mkItem {
  item_id : id;
  item_userId : id;
  title : string;
  description : string;
  category : string;
  imageUrl : string;
  itemType : string;
  expectedExchange : option string;
  price : option numeric;
  isSold : bool
}.

Record message := mkMessage {
  msg_id : id;
  senderId : id;
  receiverId : id;
  msg_itemId : id;
  messageText : option string;
  fileUrl : option string;
  fileType : option string;
  fileName : option string
}.

Record cart_item := mkCartItem { cart_id : id; cart_userId : id; cart_itemId : id }.

Record wishlist_item :=
  mkWishlistItem { wl_id : id; wl_userId : id; wl_itemId : id }.

Record order := mkOrder { order_id : id; order_userId : id; total : numeric }.

Record order_item :=
  mkOrderItem { oi_id : id; orderId : id; oi_itemId : id; oi_price : numeric }.

Record store := mkStore {
  users : list user;
  items : list item;
  messages : list message;
  cartItems : list cart_item;
  wishlistItems : list wishlist_item;
  orders : list order;
  orderItems : list order_item;
  next_id : N
}.

(** Field updates of the store. *)
Definition set_items (s : store) (l : list item) : store :=
  mkStore (users s) l (messages s) (cartItems s) (wishlistItems s)
          (orders s) (orderItems s) (next_id s).
Definition set_messages (s : store) (l : list message) : store :=
  mkStore (users s) (items s) l (cartItems s) (wishlistItems s)
          (orders s) (orderItems s) (next_id s).
Definition set_cartItems (s : store) (l : list cart_item) : store :=
  mkStore (users s) (items s) (messages s) l (wishlistItems s)
          (orders s) (orderItems s) (next_id s).
Definition set_wishlistItems (s : store) (l : list wishlist_item) : store :=
  mkStore (users s) (items s) (messages s) (cartItems s) l
          (orders s) (orderItems s) (next_id s).
Definition set_orders (s : store) (l : list order) : store :=
  mkStore (users s) (items s) (messages s) (cartItems s) (wishlistItems s)
          l (orderItems s) (next_id s).
Definition set_orderItems (s : store) (l : list order_item) : store :=
  mkStore (users s) (items s) (messages s) (cartItems s) (wishlistItems s)
          (orders s) l (next_id s).

(** [gen_random_uuid()]: a key not handed out before. *)
Definition gen_id (s : store) : id * store :=
  (next_id s,
   mkStore (users s) (items s) (messages s) (cartItems s) (wishlistItems s)
           (orders s) (orderItems s) (N.succ (next_id s))).

(** ** Decimal columns and JavaScript numbers *)

(** The binary64 value of an integer of magnitude below 2^53 (exact). *)
Definition f64_of_Z (z : Z) : float :=
  if z <? 0 then PrimFloat.opp (PrimFloat.of_uint63 (Uint63.of_Z (- z)))
  else PrimFloat.of_uint63 (Uint63.of_Z z).

(** [parseFloat] of the string Drizzle returns for a [decimal(10, 2)]
    holding [cents]: the binary64 value nearest to cents / 100, which is
    the correctly rounded quotient of the two exact operands. *)
Definition parseFloat_decimal (cents : Z) : float :=
  PrimFloat.div (f64_of_Z cents) (f64_of_Z 100).

(** [parseFloat] of the string of a [numeric] value; ["NaN"] gives NaN. *)
Definition parseFloat_numeric (v : numeric) : float :=
  match v with
  | PgNum cents => parseFloat_decimal cents
  | PgNaN => PrimFloat.nan
  end.

(** Postgres [numeric(10, 2)]: at most 8 digits before the point. *)
Definition numeric_10_2_fits (cents : Z) : bool := Z.abs cents <? 10 ^ 10.

(** *** [Number.prototype.toString] *)

(** [c * 10^t] against [b * 2^f], exactly. *)
Definition dec_bin_compare (c t b f : Z) : comparison :=
  Z.compare (c * 10 ^ Z.max t 0 * 2 ^ Z.max (- f) 0)
            (b * 2 ^ Z.max f 0 * 10 ^ Z.max (- t) 0).

Fixpoint digits10_fuel (fuel : nat) (z : Z) : Z :=
  match fuel with
  | O => 0
  | S f => if z <=? 0 then 0 else 1 + digits10_fuel f (z / 10)
  end.

(** The number of decimal digits of [z > 0]. *)
Definition digits10 (z : Z) : Z := digits10_fuel (S (Z.to_nat (Z.log2 z))) z.

Section Shortest.

(** A positive finite binary64 value [m * 2^e], as [Prim2SF] gives it:
    [2^52 <= m < 2^53] for a normal number, [e = -1074] for a subnormal. *)
Variables m e : Z.

(** [c * 10^t] reads back as [m * 2^e]: it lies between the midpoints with
    the two neighbouring doubles (the one below is nearer when [m] is a
    power of two and the number is normal); a midpoint itself rounds to
    the even mantissa. *)
Definition reads_back (c t : Z) : bool :=
  let low := if (m =? 2 ^ 52) && (-1074 <? e) then 4 * m - 1 else 4 * m - 2 in
  let high := 4 * m + 2 in
  let above_low := match dec_bin_compare c t low (e - 2) with
                   | Lt => false | Eq => Z.even m | Gt => true end in
  let below_high := match dec_bin_compare c t high (e - 2) with
                    | Gt => false | Eq => Z.even m | Lt => true end in
  above_low && below_high.

(** [floor (m * 2^e / 10^t)]. *)
Definition floor_scaled (t : Z) : Z :=
  (m * 2 ^ Z.max e 0 * 10 ^ Z.max (- t) 0) / (2 ^ Z.max (- e) 0 * 10 ^ Z.max t 0).

(** The [n] with [10^(n-1) <= m * 2^e < 10^n]. *)
Definition dec_exponent : Z :=
  let n0 := digits10 (m * 2 ^ Z.max e 0) - digits10 (2 ^ Z.max (- e) 0) in
  match dec_bin_compare 1 n0 m e with Gt => n0 | _ => n0 + 1 end.

(** With [k] significant digits: of the two neighbours [lo * 10^t] and
    [hi * 10^t] of the value, the ones that read back; the nearer, and of
    two as near the even one. *)
Definition shortest_at (n k : Z) : option Z :=
  let t := n - k in
  let lo := floor_scaled t in
  let hi := match dec_bin_compare lo t m e with Eq => lo | _ => lo + 1 end in
  match reads_back lo t, reads_back hi t with
  | true, true =>
      match dec_bin_compare (lo + hi) t (2 * m) e with
      | Gt => Some lo
      | Lt => Some hi
      | Eq => Some (if Z.even lo then lo else hi)
      end
  | true, false => Some lo
  | false, true => Some hi
  | false, false => None
  end.

(** The fewest significant digits that read back, from [k] on; 17 always
    do. *)
Fixpoint shortest_from (fuel : nat) (n k : Z) : Z * Z :=
  match fuel with
  | O => (floor_scaled (n - 17), n - 17)
  | S f => match shortest_at n k with
           | Some s => (s, n - k)
           | None => shortest_from f n (k + 1)
           end
  end.

(** [(s, t)] with [s * 10^t] the decimal [toString] prints. *)
Definition shortest : Z * Z := shortest_from 17 dec_exponent 1.

End Shortest.

Fixpoint strip_zeros (fuel : nat) (s t : Z) : Z * Z :=
  match fuel with
  | O => (s, t)
  | S f => if (0 <? s) && (s mod 10 =? 0) then strip_zeros f (s / 10) (t + 1) else (s, t)
  end.

Definition digit_char (d : Z) : ascii := ascii_of_nat (48 + Z.to_nat d).

Fixpoint Z_digits_fuel (fuel : nat) (z : Z) (acc : string) : string :=
  match fuel with
  | O => acc
  | S f => if z <? 10 then String (digit_char z) acc
           else Z_digits_fuel f (z / 10) (String (digit_char (z mod 10)) acc)
  end.

(** The decimal digits of [z >= 0]. *)
Definition Z_digits (z : Z) : string := Z_digits_fuel (S (Z.to_nat (Z.log2 z))) z "".

Fixpoint zeros (n : nat) : string :=
  match n with O => "" | S n' => String "0" (zeros n') end.

(** [Number::toString(x)] (ECMAScript 6.1.6.1.20), choosing, as the
    standard recommends and engines do, the nearest [s], and the even one
    of two. *)
Definition js_number_toString (x : float) : string :=
  match Prim2SF x with
  | S754_nan => "NaN"
  | S754_zero _ => "0"
  | S754_infinity sgn => if sgn then "-Infinity" else "Infinity"
  | S754_finite sgn mant e =>
    let '(s0, t0) := shortest (Z.pos mant) e in
    let '(s, t) := strip_zeros 20 s0 t0 in
    let k := digits10 s in
    let n := t + k in
    let ds := Z_digits s in
    let body :=
      if (k <=? n) && (n <=? 21) then (ds ++ zeros (Z.to_nat (n - k)))%string
      else if (0 <? n) && (n <=? 21) then
        (substring 0 (Z.to_nat n) ds ++ "." ++ substring (Z.to_nat n) (Z.to_nat (k - n)) ds)%string
      else if (-6 <? n) && (n <=? 0) then ("0." ++ zeros (Z.to_nat (- n)) ++ ds)%string
      else
        let e1 := n - 1 in
        let esign := if e1 <? 0 then "-"%string else "+"%string in
        let ex := ("e" ++ esign ++ Z_digits (Z.abs e1))%string in
        if k =? 1 then (ds ++ ex)%string
        else (substring 0 1 ds ++ "." ++ substring 1 (Z.to_nat (k - 1)) ds ++ ex)%string in
    if sgn then ("-" ++ body)%string else body
  end.

(** *** Postgres [numeric_in] for a [numeric(10, 2)] column (PostgreSQL 16) *)

Definition pg_isspace (c : ascii) : bool :=
  let n := nat_of_ascii c in Nat.eqb n 32 || (Nat.leb 9 n && Nat.leb n 13).

Fixpoint skip_spaces (l : list ascii) : list ascii :=
  match l with
  | c :: r => if pg_isspace c then skip_spaces r else l
  | [] => []
  end.

Definition ascii_lower (c : ascii) : ascii :=
  let n := nat_of_ascii c in
  if Nat.leb 65 n && Nat.leb n 90 then ascii_of_nat (n + 32) else c.

(** [pg_strncasecmp(l, p, length p) == 0]: the rest after [p]. *)
Fixpoint strip_prefix_ci (p l : list ascii) : option (list ascii) :=
  match p, l with
  | [], _ => Some l
  | a :: p', c :: l' => if Ascii.eqb (ascii_lower c) a then strip_prefix_ci p' l' else None
  | _ :: _, [] => None
  end.

(** The value of [c] as a digit in [base] (2, 8, 10 or 16). *)
Definition digit_in (base : Z) (c : ascii) : option Z :=
  let n := Z.of_nat (nat_of_ascii c) in
  let v := if (48 <=? n) && (n <=? 57) then n - 48
           else if (97 <=? n) && (n <=? 102) then n - 87
           else if (65 <=? n) && (n <=? 70) then n - 55
           else 16 in
  if v <? base then Some v else None.

Definition digit_val (c : ascii) : option Z := digit_in 10 c.

(** The digit loop of [set_var_from_str]: the digits as one integer, the
    number of them after the point, and what follows; an underscore must
    be followed by a digit, a point by no underscore. *)
Fixpoint scan_decimal (l : list ascii) (have_dp : bool) (d nf : Z)
  : option (Z * Z * list ascii) :=
  match l with
  | [] => Some (d, nf, [])
  | c :: r =>
    match digit_val c with
    | Some v => scan_decimal r have_dp (d * 10 + v) (if have_dp then nf + 1 else nf)
    | None =>
      if Ascii.eqb c "." then
        if have_dp then None
        else match r with
             | "_"%char :: _ => None
             | _ => scan_decimal r true d nf
             end
      else if Ascii.eqb c "_" then
        match r with
        | c' :: _ => if digit_val c' then scan_decimal r have_dp d nf else None
        | [] => None
        end
      else Some (d, nf, l)
    end
  end.

(** The exponent digits; more than [PG_INT32_MAX / 2] is out of range. *)
Fixpoint scan_exponent (l : list ascii) (x : Z) : option (Z * list ascii) :=
  match l with
  | [] => Some (x, [])
  | c :: r =>
    match digit_val c with
    | Some v => let x' := x * 10 + v in
                if 1073741823 <? x' then None else scan_exponent r x'
    | None =>
      if Ascii.eqb c "_" then
        match r with
        | c' :: _ => if digit_val c' then scan_exponent r x else None
        | [] => None
        end
      else Some (x, l)
    end
  end.

(** [set_var_from_str] from a digit or a point: the value is
    [d * 10^q], with what follows. *)
Definition set_var_from_str (l : list ascii) : option (Z * Z * list ascii) :=
  let '(have_dp, l1) := match l with
                        | "."%char :: r => (true, r)
                        | _ => (false, l)
                        end in
  match l1 with
  | c :: _ =>
    if digit_val c then
      match scan_decimal l1 have_dp 0 0 with
      | None => None
      | Some (d, nf, rest) =>
        match rest with
        | x :: r =>
          if Ascii.eqb x "e" || Ascii.eqb x "E" then
            let '(neg, r1) := match r with
                              | "+"%char :: r' => (false, r')
                              | "-"%char :: r' => (true, r')
                              | _ => (false, r)
                              end in
            match r1 with
            | c1 :: _ =>
              if digit_val c1 then
                match scan_exponent r1 0 with
                | None => None
                | Some (x, rest') => Some (d, (if neg then - x else x) - nf, rest')
                end
              else None
            | [] => None
            end
          else Some (d, - nf, rest)
        | [] => Some (d, - nf, [])
        end
      end
    else None
  | [] => None
  end.

(** The digits of a [0x], [0o] or [0b] integer; at least one, an
    underscore followed by a digit. *)
Fixpoint scan_based (base : Z) (l : list ascii) (x : Z) (seen : bool)
  : option (Z * list ascii) :=
  match l with
  | [] => if seen then Some (x, []) else None
  | c :: r =>
    match digit_in base c with
    | Some v => scan_based base r (x * base + v) true
    | None =>
      if Ascii.eqb c "_" then
        match r with
        | c' :: _ => if digit_in base c' then scan_based base r x seen else None
        | [] => None
        end
      else if seen then Some (x, l) else None
    end
  end.

(** [apply_typmod] for [(10, 2)]: [d * 10^q] rounded half away from zero
    to cents; more than 8 digits before the point overflows. *)
Definition round_cents (neg : bool) (d q : Z) : option numeric :=
  let p := q + 2 in
  let mag :=
    if d =? 0 then Some 0
    else if 0 <=? p then (if 10 <? p then None else Some (d * 10 ^ p))
    else if digits10 d + 1 <=? - p then Some 0
    else Some ((2 * d + 10 ^ (- p)) / (2 * 10 ^ (- p))) in
  match mag with
  | None => None
  | Some c => let c := if neg then - c else c in
              if numeric_10_2_fits c then Some (PgNum c) else None
  end.

(** [numeric_in(str, typmod (10, 2))]: [None] is an error. *)
Definition pg_numeric_10_2 (str : string) : option numeric :=
  let l := skip_spaces (list_ascii_of_string str) in
  let '(neg, cp) := match l with
                    | "+"%char :: r => (false, r)
                    | "-"%char :: r => (true, r)
                    | _ => (false, l)
                    end in
  let digit_or_point := match cp with
                        | c :: _ => if digit_val c then true else Ascii.eqb c "."
                        | [] => false
                        end in
  if negb digit_or_point then
    (* NaN (with no sign) or an infinity, which the typmod refuses *)
    match strip_prefix_ci (list_ascii_of_string "nan") l with
    | Some rest => match skip_spaces rest with [] => Some PgNaN | _ => None end
    | None => None
    end
  else
    let parsed :=
      match cp with
      | "0"%char :: b :: r =>
          match ascii_lower b with
          | "x"%char => option_map (fun '(x, rest) => (x, 0, rest)) (scan_based 16 r 0 false)
          | "o"%char => option_map (fun '(x, rest) => (x, 0, rest)) (scan_based 8 r 0 false)
          | "b"%char => option_map (fun '(x, rest) => (x, 0, rest)) (scan_based 2 r 0 false)
          | _ => set_var_from_str cp
          end
      | _ => set_var_from_str cp
      end in
    match parsed with
    | Some (d, q, rest) =>
        match skip_spaces rest with [] => round_cents neg d q | _ => None end
    | None => None
    end.

(** [x.toString()] written into a [numeric(10, 2)] column. *)
Definition numeric_10_2_of_float (x : float) : option numeric :=
  pg_numeric_10_2 (js_number_toString x).

(** ** [DatabaseStorage] reads *)

Definition getItemById (s : store) (i : id) : option item :=
  find (fun it => N.eqb (item_id it) i) (items s).

Definition getUserById (s : store) (i : id) : option user :=
  find (fun u => N.eqb (user_id u) i) (users s).

Definition getMessagesByItemId (s : store) (itemId userId : id) : list message :=
  filter (fun m => N.eqb (msg_itemId m) itemId &&
                   (N.eqb (senderId m) userId || N.eqb (receiverId m) userId))
         (messages s).

(** [select().from(cartItems).leftJoin(items, ...).where(userId)]. *)
Definition cart_rows (s : store) (userId : id) : list (cart_item * option item) :=
  map (fun c => (c, getItemById s (cart_itemId c)))
      (filter (fun c => N.eqb (cart_userId c) userId) (cartItems s)).

(** ** The checkout transaction *)

Inductive tx_error :=
| TxThrow (msg : string)      (* [throw new Error(msg)] in the callback *)
| TxDbError (msg : string).   (* a write refused by the database *)

(** A transaction: state over the store, counting the writes issued, with
    errors. [db_fault n] says that the [n]-th write of the transaction
    fails for a reason outside the program (lost connection, lock
    timeout, ...). *)
Definition tx (A : Type) : Type := store -> nat -> tx_error + (A * store * nat).

Definition tx_ret {A} (a : A) : tx A := fun s n => inr (a, s, n).

Definition tx_bind {A B} (m : tx A) (k : A -> tx B) : tx B :=
  fun s n =>
    match m s n with
    | inl e => inl e
    | inr (a, s', n') => k a s' n'
    end.

Notation "x <- m ;; k" := (tx_bind m (fun x => k))
  (at level 61, m at next level, right associativity).

Definition tx_throw {A} (msg : string) : tx A := fun _ _ => inl (TxThrow msg).

Definition tx_read {A} (f : store -> A) : tx A := fun s n => inr (f s, s, n).

Section Transaction.

Variable db_fault : nat -> bool.

Definition tx_write {A} (w : store -> tx_error + (A * store)) : tx A :=
  fun s n =>
    if db_fault n then inl (TxDbError "write failed")
    else match w s with
         | inl e => inl e
         | inr (a, s') => inr (a, s', S n)
         end.

(** [tx.insert(orders).values({ userId, total: total.toString() })]. *)
Definition insert_order (userId : id) (total : float) : tx order :=
  tx_write (fun s =>
    match numeric_10_2_of_float total with
    | None => inl (TxDbError "numeric field overflow")
    | Some t =>
        let (oid, s1) := gen_id s in
        let o := mkOrder oid userId t in
        inr (o, set_orders s1 (orders s1 ++ [o]))
    end).

(** [tx.insert(orderItems).values({ orderId, itemId, price: row.items!.price! })];
    [price] is [notNull]. *)
Definition insert_order_item (oid : id) (it : item) : tx unit :=
  tx_write (fun s =>
    match price it with
    | None => inl (TxDbError "null value in column price")
    | Some p =>
        let (nid, s1) := gen_id s in
        inr (tt, set_orderItems s1 (orderItems s1 ++ [mkOrderItem nid oid (item_id it) p]))
    end).

Definition mark_sold (i : id) (it : item) : item :=
  if N.eqb (item_id it) i then
    mkItem (item_id it) (item_userId it) (title it) (description it) (category it)
           (imageUrl it) (itemType it) (expectedExchange it) (price it) true
  else it.

(** [tx.update(items).set({ isSold: true }).where(eq(items.id, id))]. *)
Definition set_sold (i : id) : tx unit :=
  tx_write (fun s => inr (tt, set_items s (map (mark_sold i) (items s)))).

(** [tx.delete(cartItems).where(eq(cartItems.userId, userId))]. *)
Definition delete_cart (userId : id) : tx unit :=
  tx_write (fun s =>
    inr (tt, set_cartItems s (filter (fun c => negb (N.eqb (cart_userId c) userId))
                                     (cartItems s)))).

(** [for (const row of validItems) { insert order item; mark sold }]. *)
Fixpoint order_lines (oid : id) (rows : list (cart_item * option item)) : tx unit :=
  match rows with
  | [] => tx_ret tt
  | (_, Some it) :: rest =>
      _ <- insert_order_item oid it ;;
      _ <- set_sold (item_id it) ;;
      order_lines oid rest
  | (_, None) :: rest => tx_throw "Cannot read properties of null"
  end.

End Transaction.

(** [row => row.items && row.items.itemType === 'sell' && !row.items.isSold]. *)
Definition is_valid_row (row : cart_item * option item) : bool :=
  match snd row with
  | Some it => String.eqb (itemType it) "sell" && negb (isSold it)
  | None => false
  end.

(** [validItems.reduce((sum, row) => sum + parseFloat(row.items!.price || "0"), 0)]. *)
Definition row_price (row : cart_item * option item) : float :=
  match snd row with
  | Some it => match price it with
               | Some v => parseFloat_numeric v
               | None => parseFloat_decimal 0
               end
  | None => parseFloat_decimal 0
  end.

Definition checkout_total (validItems : list (cart_item * option item)) : float :=
  fold_left (fun sum row => PrimFloat.add sum (row_price row)) validItems
            (f64_of_Z 0).

Definition checkout_tx (db_fault : nat -> bool) (userId : id) : tx order :=
  userCartItems <- tx_read (fun s => cart_rows s userId) ;;
  if Nat.eqb (List.length userCartItems) 0 then tx_throw "Cart is empty" else
  let validItems := filter is_valid_row userCartItems in
  if Nat.eqb (List.length validItems) 0 then tx_throw "No available items to checkout" else
  let total := checkout_total validItems in
  o <- insert_order db_fault userId total ;;
  _ <- order_lines db_fault (order_id o) validItems ;;
  _ <- delete_cart db_fault userId ;;
  tx_ret o.

(** [db.transaction(cb)]: commit the callback's writes when it returns,
    roll all of them back when it throws. *)
Definition db_transaction {A} (m : tx A) (s : store) : (tx_error + A) * store :=
  match m s O with
  | inl e => (inl e, s)
  | inr (a, s', _) => (inr a, s')
  end.

Definition checkout (db_fault : nat -> bool) (s : store) (userId : id)
  : (tx_error + order) * store :=
  db_transaction (checkout_tx db_fault userId) s.

(** ** Writes outside the transaction *)

Definition createMessage (s : store) (sender receiver itemId : id)
  (text url ftype fname : option string) : message * store :=
  let (mid, s1) := gen_id s in
  let m := mkMessage mid sender receiver itemId text url ftype fname in
  (m, set_messages s1 (messages s1 ++ [m])).

Definition addToCart (s : store) (userId itemId : id) : store :=
  let (cid, s1) := gen_id s in
  set_cartItems s1 (cartItems s1 ++ [mkCartItem cid userId itemId]).

Definition removeFromCart (s : store) (userId itemId : id) : store :=
  set_cartItems s (filter (fun c => negb (N.eqb (cart_userId c) userId &&
                                          N.eqb (cart_itemId c) itemId))
                          (cartItems s)).

Definition addToWishlist (s : store) (userId itemId : id) : store :=
  let (wid, s1) := gen_id s in
  set_wishlistItems s1 (wishlistItems s1 ++ [mkWishlistItem wid userId itemId]).

Definition removeFromWishlist (s : store) (userId itemId : id) : store :=
  set_wishlistItems s (filter (fun w => negb (N.eqb (wl_userId w) userId &&
                                             N.eqb (wl_itemId w) itemId))
                              (wishlistItems s)).

(** ** Request bodies and zod *)

(** A JSON value from [req.body]: a missing key, [null], a string, a
    number, a boolean, or an array or object, with the text node-postgres
    sends for it ([JSON.stringify] of an object, the array literal of an
    array). *)
Inductive jsval :=
| JUndefined
| JNull
| JString (s : string)
| JNumber (x : float)
| JBool (b : bool)
| JComposite (text : string).

(** JavaScript truthiness. *)
Definition js_truthy (v : jsval) : bool :=
  match v with
  | JUndefined | JNull => false
  | JString str => negb (String.eqb str "")
  | JNumber x => negb (PrimFloat.eqb x 0 || PrimFloat.is_nan x)
  | JBool b => b
  | JComposite _ => true
  end.

(** The parameter node-postgres sends for a value ([prepareValue]):
    [NULL] for [null] and [undefined], else [val.toString()], or the
    text of an array or object. Drizzle's [text] and [decimal] columns
    pass the value on unchanged. *)
Definition pg_param (v : jsval) : option string :=
  match v with
  | JUndefined | JNull => None
  | JString str => Some str
  | JNumber x => Some (js_number_toString x)
  | JBool b => Some (if b then "true"%string else "false"%string)
  | JComposite text => Some text
  end.

(** zod's [z.string().nullable().optional()]. *)
Definition zod_opt_string (v : jsval) : option (option string) :=
  match v with
  | JUndefined | JNull => Some None
  | JString str => Some (Some str)
  | JNumber _ | JBool _ | JComposite _ => None
  end.

(** zod's [z.string()]. *)
Definition zod_string (v : jsval) : option string :=
  match v with JString str => Some str | _ => None end.

(** The characters [String.prototype.trim] removes that a one-byte
    character can be: TAB, LF, VT, FF, CR, SPACE and NO-BREAK SPACE. *)
Definition js_whitespace (c : ascii) : bool :=
  let n := nat_of_ascii c in
  (Nat.leb 9 n && Nat.leb n 13) || Nat.eqb n 32 || Nat.eqb n 160.

(** [str.trim().length > 0]. *)
Definition trim_nonempty (str : string) : bool :=
  negb (forallb js_whitespace (list_ascii_of_string str)).

(** [data.x && data.x.trim().length > 0]. *)
Definition present (x : option string) : bool :=
  match x with Some str => trim_nonempty str | None => false end.

Record new_message := mkNewMessage {
  nm_senderId : id; nm_receiverId : id; nm_itemId : id;
  nm_messageText : option string; nm_fileUrl : option string;
  nm_fileType : option string; nm_fileName : option string }.

(** [insertMessageSchema.parse]: the column types, then the [refine]
    asking for a message text or a file URL. *)
Definition insertMessageSchema_parse (itemId receiverId senderId : id)
  (text url ftype fname : jsval) : option new_message :=
  match zod_opt_string text, zod_opt_string url,
        zod_opt_string ftype, zod_opt_string fname with
  | Some t, Some u, Some ft, Some fn =>
      if present t || present u
      then Some (mkNewMessage senderId receiverId itemId t u ft fn)
      else None
  | _, _, _, _ => None
  end.

(** ** Responses *)

Inductive response :=
| Json (status : Z) (msg : string)   (* [res.status(status).json({ message })] *)
| Created_message (m : message)      (* [res.status(201).json(message)] *)
| Created_item (it : item)
| Created_order (o : order)
| Ok_item (it : option item)         (* [res.json(updated)] *)
| No_content                         (* [res.status(204).send()] *)
| Created_entry.                     (* a cart or wishlist row, 201 *)

Definition status (r : response) : Z :=
  match r with
  | Json st _ => st
  | Created_message _ | Created_item _ | Created_order _ | Created_entry => 201
  | Ok_item _ => 200
  | No_content => 204
  end.

(** ** [POST /api/messages] *)

Record send_body := mkSendBody {
  body_itemId : id; body_receiverId : id; body_messageText : jsval }.

(** The tail shared by the permitted branches: [insertMessageSchema.parse]
    then [storage.createMessage]. *)
Definition send_create (s : store) (userId : id) (b : send_body) : response * store :=
  match insertMessageSchema_parse (body_itemId b) (body_receiverId b) userId
          (body_messageText b) JUndefined JUndefined JUndefined with
  | None => (Json 400 "Validation error", s)
  | Some nm =>
      let (m, s') := createMessage s (nm_senderId nm) (nm_receiverId nm)
                       (nm_itemId nm) (nm_messageText nm) (nm_fileUrl nm)
                       (nm_fileType nm) (nm_fileName nm) in
      (Created_message m, s')
  end.

Definition post_messages (s : store) (userId : id) (b : send_body)
  : response * store :=
  match getItemById s (body_itemId b) with
  | None => (Json 404 "Item not found", s)
  | Some item =>
    match getUserById s (body_receiverId b) with
    | None => (Json 404 "Receiver not found", s)
    | Some _ =>
      let isItemOwner := N.eqb (item_userId item) userId in
      let isMessagingOwner := N.eqb (body_receiverId b) (item_userId item) in
      if isMessagingOwner then send_create s userId b
      else if isItemOwner then
        let ownerMessages := getMessagesByItemId s (body_itemId b) userId in
        let buyerInitiatedContact :=
          existsb (fun msg => N.eqb (senderId msg) (body_receiverId b) &&
                              N.eqb (receiverId msg) userId) ownerMessages in
        if negb buyerInitiatedContact
        then (Json 403 "You can only reply to users who have contacted you about this item", s)
        else send_create s userId b
      else (Json 403 "You can only message the item owner", s)
    end
  end.

(** ** [POST /api/messages/upload] *)

(** The file multer accepted ([req.file]); [filename] is the name it
    generated on disk. *)
Record uploaded_file := mkUploadedFile {
  mimetype : string; filename : string; originalname : string }.

Record upload_body := mkUploadBody {
  up_itemId : option id;          (* [None]: missing or empty *)
  up_receiverId : option id;
  up_messageText : option string }.

Definition post_messages_upload (s : store) (userId : id)
  (file : option uploaded_file) (b : upload_body) : response * store :=
  match file with
  | None => (Json 400 "No file uploaded", s)
  | Some f =>
    match up_itemId b, up_receiverId b with
    | Some itemId, Some receiverId0 =>    (* [req.body.receiverId] *)
      match getItemById s itemId with
      | None => (Json 404 "Item not found", s)
      | Some item =>
        match getUserById s receiverId0 with
        | None => (Json 404 "Receiver not found", s)
        | Some _ =>
          let isItemOwner := N.eqb (item_userId item) userId in
          let isMessagingOwner := N.eqb receiverId0 (item_userId item) in
          if negb isMessagingOwner &&
             (negb isItemOwner ||
              negb (existsb (fun msg => N.eqb (senderId msg) receiverId0 &&
                                        N.eqb (receiverId msg) userId)
                            (getMessagesByItemId s itemId userId)))
          then (Json 403 "Not authorized", s)
          else
            let ftype := if String.prefix "image/" (mimetype f)
                         then "image"%string else "document"%string in
            let url := ("/uploads/messages/" ++ filename f)%string in
            let text := match up_messageText b with
                        | Some ""%string | None => None
                        | Some t => Some t
                        end in
            let (m, s') := createMessage s userId receiverId0 itemId text
                             (Some url) (Some ftype) (Some (originalname f)) in
            (Created_message m, s')
        end
      end
    | _, _ => (Json 400 "itemId and receiverId required", s)
    end
  end.

(** ** [POST /api/items] *)

Record item_body := mkItemBody {
  ib_title : jsval; ib_description : jsval; ib_category : jsval;
  ib_imageUrl : jsval; ib_itemType : jsval; ib_expectedExchange : jsval;
  ib_price : jsval }.

(** [insertItemSchema = createInsertSchema(items).omit({ id, createdAt })]:
    one zod type per column and nothing across columns. The object the
    route builds has no [isSold] key. *)
Record new_item := mkNewItem {
  ni_userId : id; ni_title : string; ni_description : string;
  ni_category : string; ni_imageUrl : string; ni_itemType : string;
  ni_expectedExchange : option string; ni_price : option string }.

Definition insertItemSchema_parse (userId : id) (b : item_body) : option new_item :=
  match zod_string (ib_title b), zod_string (ib_description b),
        zod_string (ib_category b), zod_string (ib_imageUrl b),
        zod_string (ib_itemType b), zod_opt_string (ib_expectedExchange b),
        zod_opt_string (ib_price b) with
  | Some t, Some d, Some c, Some u, Some ty, Some ex, Some p =>
      Some (mkNewItem userId t d c u ty ex p)
  | _, _, _, _, _, _, _ => None
  end.

(** [db.insert(items).values(item).returning()]: [isSold] takes its
    default [false]. *)
Definition createItem (s : store) (ni : new_item) : option (item * store) :=
  let pr := match ni_price ni with
            | None => Some None
            | Some str => option_map Some (pg_numeric_10_2 str)
            end in
  match pr with
  | None => None
  | Some p =>
      let (iid, s1) := gen_id s in
      let it := mkItem iid (ni_userId ni) (ni_title ni) (ni_description ni)
                  (ni_category ni) (ni_imageUrl ni) (ni_itemType ni)
                  (ni_expectedExchange ni) p false in
      Some (it, set_items s1 (items s1 ++ [it]))
  end.

Definition post_items (s : store) (userId : id) (b : item_body) : response * store :=
  match insertItemSchema_parse userId b with
  | None => (Json 400 "Validation error", s)
  | Some ni =>
      match createItem s ni with
      | None => (Json 500 "Failed to create item", s)
      | Some (it, s') => (Created_item it, s')
      end
  end.

(** ** [PUT /api/items/:id] *)

(** [.set(updateData)]: a key holding [undefined] is left out; any other
    value is sent as its [pg_param] text, with no validation, and the
    column's input function reads it ([None]: the update fails). *)
Definition col_text (v : jsval) (old : string) : option string :=
  match v with
  | JUndefined => Some old
  | _ => pg_param v                 (* [NULL] in a [notNull] column fails *)
  end.

Definition col_opt_text (v : jsval) (old : option string) : option (option string) :=
  match v with
  | JUndefined => Some old
  | _ => Some (pg_param v)
  end.

Definition col_price (v : jsval) (old : option numeric) : option (option numeric) :=
  match v with
  | JUndefined => Some old
  | _ => match pg_param v with
         | None => Some None
         | Some str => option_map Some (pg_numeric_10_2 str)
         end
  end.

Definition apply_update (b : item_body) (it : item) : option item :=
  match col_text (ib_title b) (title it), col_text (ib_description b) (description it),
        col_text (ib_category b) (category it), col_text (ib_imageUrl b) (imageUrl it),
        col_text (ib_itemType b) (itemType it),
        col_opt_text (ib_expectedExchange b) (expectedExchange it),
        col_price (ib_price b) (price it) with
  | Some t, Some d, Some c, Some u, Some ty, Some ex, Some p =>
      Some (mkItem (item_id it) (item_userId it) t d c u ty ex p (isSold it))
  | _, _, _, _, _, _, _ => None
  end.

Definition all_undefined (b : item_body) : bool :=
  match ib_title b, ib_description b, ib_category b, ib_imageUrl b,
        ib_itemType b, ib_expectedExchange b, ib_price b with
  | JUndefined, JUndefined, JUndefined, JUndefined,
    JUndefined, JUndefined, JUndefined => true
  | _, _, _, _, _, _, _ => false
  end.

Fixpoint update_rows (i : id) (b : item_body) (l : list item) : option (list item) :=
  match l with
  | [] => Some []
  | it :: r =>
      match update_rows i b r with
      | None => None
      | Some r' =>
          if N.eqb (item_id it) i then
            match apply_update b it with
            | Some it' => Some (it' :: r')
            | None => None
            end
          else Some (it :: r')
      end
  end.

(** [db.update(items).set(item).where(eq(items.id, id)).returning()];
    Drizzle throws ("No values to set") when every key is [undefined]. *)
Definition updateItem (s : store) (i : id) (b : item_body) : option (option item * store) :=
  if all_undefined b then None else
  match update_rows i b (items s) with
  | None => None
  | Some l => let s' := set_items s l in Some (getItemById s' i, s')
  end.

Definition put_item (s : store) (userId i : id) (b : item_body) : response * store :=
  match getItemById s i with
  | None => (Json 404 "Item not found", s)
  | Some it =>
      if negb (N.eqb (item_userId it) userId)
      then (Json 403 "Not authorized to update this item", s)
      else match updateItem s i b with
           | None => (Json 500 "Failed to update item", s)
           | Some (updated, s') => (Ok_item updated, s')
           end
  end.

(** ** [DELETE /api/items/:id] *)

(** [db.delete(items).where(eq(items.id, id))]: messages, cart and wishlist
    rows cascade; [order_items.item_id] has no [onDelete], so a sold item
    referenced by an order cannot be deleted. *)
Definition deleteItem (s : store) (i : id) : option store :=
  if existsb (fun oi => N.eqb (oi_itemId oi) i) (orderItems s) then None else
  Some (mkStore (users s)
          (filter (fun it => negb (N.eqb (item_id it) i)) (items s))
          (filter (fun m => negb (N.eqb (msg_itemId m) i)) (messages s))
          (filter (fun c => negb (N.eqb (cart_itemId c) i)) (cartItems s))
          (filter (fun w => negb (N.eqb (wl_itemId w) i)) (wishlistItems s))
          (orders s) (orderItems s) (next_id s)).

Definition delete_item (s : store) (userId i : id) : response * store :=
  match getItemById s i with
  | None => (Json 404 "Item not found", s)
  | Some it =>
      if negb (N.eqb (item_userId it) userId)
      then (Json 403 "Not authorized to delete this item", s)
      else match deleteItem s i with
           | None => (Json 500 "Failed to delete item", s)
           | Some s' => (No_content, s')
           end
  end.

(** ** Cart, wishlist and checkout routes *)

Definition post_cart (s : store) (userId : id) (itemId : option id) : response * store :=
  match itemId with
  | None => (Json 400 "itemId is required", s)
  | Some i =>
      match getItemById s i with
      | None => (Json 404 "Item not found", s)
      | Some _ => (Created_entry, addToCart s userId i)
      end
  end.

Definition post_wishlist (s : store) (userId : id) (itemId : option id) : response * store :=
  match itemId with
  | None => (Json 400 "itemId is required", s)
  | Some i =>
      match getItemById s i with
      | None => (Json 404 "Item not found", s)
      | Some _ => (Created_entry, addToWishlist s userId i)
      end
  end.

Definition tx_error_message (e : tx_error) : string :=
  match e with TxThrow m => m | TxDbError m => m end.

Definition post_checkout (db_fault : nat -> bool) (s : store) (userId : id)
  : response * store :=
  match checkout db_fault s userId with
  | (inr o, s') => (Created_order o, s')
  | (inl e, s') => (Json 500 (tx_error_message e), s')
  end.

(** The authenticated requests that write to the store; [userId] is the
    [req.userId] set by [authMiddleware]. *)
Inductive request :=
| CreateItem (b : item_body)
| UpdateItem (i : id) (b : item_body)
| DeleteItem (i : id)
| SendMessage (b : send_body)
| UploadMessage (file : option uploaded_file) (b : upload_body)
| AddCart (itemId : option id)
| RemoveCart (itemId : id)
| AddWishlist (itemId : option id)
| RemoveWishlist (itemId : id)
| Checkout.

Definition handle (db_fault : nat -> bool) (s : store) (userId : id) (r : request)
  : response * store :=
  match r with
  | CreateItem b => post_items s userId b
  | UpdateItem i b => put_item s userId i b
  | DeleteItem i => delete_item s userId i
  | SendMessage b => post_messages s userId b
  | UploadMessage f b => post_messages_upload s userId f b
  | AddCart i => post_cart s userId i
  | RemoveCart i => (No_content, removeFromCart s userId i)
  | AddWishlist i => post_wishlist s userId i
  | RemoveWishlist i => (No_content, removeFromWishlist s userId i)
  | Checkout => post_checkout db_fault s userId
  end.

(** ** Vocabulary of the properties *)

(** A message on item [i] from [buyer] to [owner] already exists. *)
Definition buyer_initiated (s : store) (i buyer owner : id) : Prop :=
  exists m, In m (messages s) /\ msg_itemId m = i /\
            senderId m = buyer /\ receiverId m = owner.

(** The authorization rule: messaging the owner, or the owner answering a
    user who wrote to them first about the item. *)
Definition send_permitted (s : store) (i sender receiver owner : id) : Prop :=
  receiver = owner \/ (sender = owner /\ buyer_initiated s i receiver owner).

(** The test the two message routes evaluate. *)
Definition route_authorized (s : store) (i sender receiver owner : id) : bool :=
  N.eqb receiver owner ||
  (N.eqb owner sender &&
   existsb (fun msg => N.eqb (senderId msg) receiver && N.eqb (receiverId msg) sender)
           (getMessagesByItemId s i sender)).

(** A message text that is missing, [null], or blank after [trim()]. *)
Definition blank_text (v : jsval) : bool :=
  match v with
  | JUndefined | JNull => true
  | JString str => negb (trim_nonempty str)
  | JNumber _ | JBool _ | JComposite _ => false
  end.

Definition has_content (m : message) : bool :=
  present (messageText m) || present (fileUrl m).

(** Marks left by the checkout loop on the item table. *)
Definition mark_rows (rows : list (cart_item * option item)) (l : list item) : list item :=
  fold_left (fun l row => match snd row with
                          | Some it => map (mark_sold (item_id it)) l
                          | None => l
                          end) rows l.

(** One order line per valid row, in order, with the item's price. *)
Definition line_of (oid : id) (row : cart_item * option item) (oi : order_item) : Prop :=
  exists it, snd row = Some it /\ orderId oi = oid /\
             oi_itemId oi = item_id it /\ price it = Some (oi_price oi).

(** How a request may change an item's [isSold]. *)
Definition sold_step (r : request) (b b' : bool) : Prop :=
  b = b' \/ (r = Checkout /\ b = false /\ b' = true).

Definition no_fault : nat -> bool := fun _ => false.

(** ** Sample stores *)

Definition sell_item (i owner : id) (cents : Z) : item :=
  mkItem i owner "Desk lamp" "Barely used" "Furniture" "/img/lamp.jpg"
         "sell" None (Some (PgNum cents)) false.

(** Users 1, 2 and 3; item 10 belongs to user 1. *)
Definition shop : store :=
  mkStore [mkUser 1; mkUser 2; mkUser 3] [sell_item 10 1 1500] [] [] [] [] [] 100.

Definition text_body (i r : id) (t : string) : send_body :=
  mkSendBody i r (JString t).

Definition barter_item (i owner : id) (wanted : string) : item :=
  mkItem i owner "Road bike" "Needs new tyres" "Sports" "/img/bike.jpg"
         "barter" (Some wanted) None false.

Definition sold_item (i owner : id) (cents : Z) : item :=
  mkItem i owner "Calculator" "Graphing" "Electronics" "/img/calc.jpg"
         "sell" None (Some (PgNum cents)) true.

(** User 2's cart holds a sellable item (20, 15.00), a barter item (21)
    and a sold item (22, 10.00); user 3's cart holds item 20 too. *)
Definition scenario : store :=
  mkStore [mkUser 1; mkUser 2; mkUser 3]
          [sell_item 20 1 1500; barter_item 21 1 "a textbook"; sold_item 22 3 1000]
          []
          [mkCartItem 30 2 20; mkCartItem 31 2 21; mkCartItem 32 2 22; mkCartItem 33 3 20]
          [mkWishlistItem 40 2 21]
          [] [] 100.

(** User 1 has their own listing 10 in their cart. *)
Definition own_cart : store :=
  mkStore [mkUser 1; mkUser 2] [sell_item 10 1 1500] [] [mkCartItem 50 1 10] [] [] [] 100.

(** The sum of the [price] column over order lines, in cents ([None]
    when one of them is NaN). *)
Definition lines_total (l : list order_item) : option Z :=
  fold_left (fun acc oi => match acc, oi_price oi with
                           | Some a, PgNum c => Some (a + c)
                           | _, _ => None
                           end) l (Some 0).

(** The binary64 sum of the line prices, as [checkout] computes it. *)
Definition lines_float_total (l : list order_item) : float :=
  fold_left (fun acc oi => PrimFloat.add acc (parseFloat_numeric (oi_price oi))) l
            (f64_of_Z 0).

(** Items priced "10.50" and "20.25" in user 2's cart. *)
Definition pair_cart : store :=
  mkStore [mkUser 1; mkUser 2] [sell_item 60 1 1050; sell_item 61 1 2025] []
          [mkCartItem 70 2 60; mkCartItem 71 2 61] [] [] [] 100.

(** [n] cart rows of user [u] for item [i], with ids from [k]. *)
Fixpoint cart_run (n : nat) (k u i : id) : list cart_item :=
  match n with
  | O => []
  | S n' => mkCartItem k u i :: cart_run n' (N.succ k) u i
  end.

(** User 2 put the item priced "67108864.00" in the cart once, then the
    one priced "0.07" 750000 times (each [POST /api/cart] adds a row). *)
Definition bulk_cart : store :=
  mkStore [mkUser 1; mkUser 2] [sell_item 80 1 6710886400; sell_item 81 1 7] []
          (mkCartItem 1000 2 80 :: cart_run (N.to_nat 750000) 1001 2 81)
          [] [] [] 2000000.

(** The same with the item priced "0.07" added 699051 times: the
    binary64 sum lies just below 67157797.565 and prints as that. *)
Definition half_cent_cart : store :=
  mkStore [mkUser 1; mkUser 2] [sell_item 80 1 6710886400; sell_item 81 1 7] []
          (mkCartItem 1000 2 80 :: cart_run (N.to_nat 699051) 1001 2 81)
          [] [] [] 2000000.

(** Every order line refers to an existing item that is marked sold. *)
Definition ordered_items_sold (s : store) : bool :=
  forallb (fun oi => match getItemById s (oi_itemId oi) with
                     | Some it => isSold it
                     | None => false
                     end) (orderItems s).

(** User 2 added item 60 to the cart twice. *)
Definition double_cart : store :=
  mkStore [mkUser 1; mkUser 2; mkUser 3] [sell_item 60 1 1050; sell_item 61 1 2025] []
          [mkCartItem 70 2 60; mkCartItem 71 2 60; mkCartItem 72 3 60; mkCartItem 73 3 61]
          [] [] [] 100.

(** ** [GET /api/messages] and [GET /api/messages/:itemId] *)

(** The answer of a read route: an error, or the JSON body with 200. *)
Inductive get_response (A : Type) :=
| GetError (status : Z) (msg : string)
| GetOk (body : A).
Arguments GetError {A} status msg.
Arguments GetOk {A} body.

(** [storage.getUserMessages(userId)]: the messages the user sent or
    received, newest first ([orderBy(desc(messages.createdAt))]; rows are
    created in heap order), each with its sender, its receiver and its
    item. *)
Definition getUserMessages (s : store) (userId : id)
  : list (message * option user * option user * option item) :=
  map (fun m => (m, getUserById s (senderId m), getUserById s (receiverId m),
                 getItemById s (msg_itemId m)))
      (rev (filter (fun m => N.eqb (senderId m) userId || N.eqb (receiverId m) userId)
                   (messages s))).

Definition get_messages (s : store) (userId : id)
  : get_response (list (message * option user * option user * option item)) :=
  GetOk (getUserMessages s userId).

Definition get_item_messages (s : store) (userId itemId : id)
  : get_response (list message) :=
  match getItemById s itemId with
  | None => GetError 404 "Item not found"
  | Some item =>
      let itemMessages := getMessagesByItemId s itemId userId in
      if Nat.eqb (List.length itemMessages) 0 && negb (N.eqb (item_userId item) userId)
      then GetError 403 "Not authorized to view these messages"
      else GetOk itemMessages
  end.

(** ** Accounts: [storage] user functions and the [/api/auth] routes *)

(** A row of [users] with the columns the auth routes read ([createdAt]
    apart). The routes above only need a user's id; this record is the
    full row. *)
Record account := mkAccount {
  acc_id : id; acc_name : string; acc_email : string;
  acc_password : option string; acc_googleId : option string;
  acc_collegeId : string }.

(** The [users] table in heap order, and the next id
    [gen_random_uuid()] hands out. *)
Record auth_store := mkAuthStore { accounts : list account; acc_next : id }.

(** [storage.getUserByEmail]: [select().from(users).where(eq(users.email,
    email))], first row. *)
Definition getUserByEmail (a : auth_store) (email : string) : option account :=
  find (fun x => String.eqb (acc_email x) email) (accounts a).

(** [storage.getUserByGoogleId]: [eq(users.googleId, googleId)]; a [NULL]
    column matches nothing. *)
Definition getUserByGoogleId (a : auth_store) (googleId : string) : option account :=
  find (fun x => match acc_googleId x with
                 | Some g => String.eqb g googleId
                 | None => false
                 end) (accounts a).

(** An [InsertUser]. *)
Record new_user := mkNewUser {
  nu_name : string; nu_email : string; nu_password : option string;
  nu_googleId : option string; nu_collegeId : string }.

(** [storage.createUser]: [insert(users).values(insertUser).returning()];
    the insert throws ([None]) on the [unique()] constraints of [email]
    and of [google_id] (several [NULL]s are allowed). *)
Definition createUser (a : auth_store) (nu : new_user) : option (account * auth_store) :=
  let taken_email := match getUserByEmail a (nu_email nu) with
                     | Some _ => true | None => false end in
  let taken_google := match nu_googleId nu with
                      | Some g => match getUserByGoogleId a g with
                                  | Some _ => true | None => false end
                      | None => false
                      end in
  if taken_email || taken_google then None
  else
    let x := mkAccount (acc_next a) (nu_name nu) (nu_email nu) (nu_password nu)
                       (nu_googleId nu) (nu_collegeId nu) in
    Some (x, mkAuthStore (accounts a ++ [x]) (N.succ (acc_next a))).

(** The body of [POST /api/auth/signup]. *)
Record signup_body := mkSignupBody {
  sb_name : jsval; sb_email : jsval; sb_password : jsval;
  sb_googleId : jsval; sb_collegeId : jsval }.

(** [insertUserSchema = createInsertSchema(users).omit({id, createdAt})]:
    [name], [email] and [collegeId] are [notNull()] text, [password] and
    [googleId] nullable; other keys are stripped. *)
Definition insertUserSchema_parse (b : signup_body) : option new_user :=
  match zod_string (sb_name b), zod_string (sb_email b), zod_opt_string (sb_password b),
        zod_opt_string (sb_googleId b), zod_string (sb_collegeId b) with
  | Some n, Some e, Some p, Some g, Some c => Some (mkNewUser n e p g c)
  | _, _, _, _, _ => None
  end.

(** The answer of an auth route: an error, or a status with the user the
    token is signed for (sent without its [password]). *)
Inductive auth_response :=
| AuthError (status : Z) (msg : string)
| AuthOk (status : Z) (user : account).

Section Auth.

(** [bcrypt.hash(password, 10)] with the salt it draws, and
    [bcrypt.compare(password, hash)]. *)
Variable hash : string -> string -> string.
Variable compare : string -> string -> bool.

(** [POST /api/auth/signup]; [salt] is the salt bcrypt draws. *)
Definition signup (salt : string) (a : auth_store) (b : signup_body)
  : auth_response * auth_store :=
  match insertUserSchema_parse b with
  | None => (AuthError 400 "Validation error", a)
  | Some validatedData =>
    match getUserByEmail a (nu_email validatedData) with
    | Some _ => (AuthError 400 "Email already registered", a)
    | None =>
      match nu_password validatedData with
      | None | Some EmptyString => (AuthError 400 "Password is required", a)
      | Some pw =>
        let hashedPassword := hash salt pw in
        match createUser a (mkNewUser (nu_name validatedData) (nu_email validatedData)
                                      (Some hashedPassword) (nu_googleId validatedData)
                                      (nu_collegeId validatedData)) with
        | None => (AuthError 500 "Failed to create account", a)
        | Some (user, a') => (AuthOk 201 user, a')
        end
      end
    end
  end.

(** [POST /api/auth/login] with the body's [email] and [password]. It
    writes nothing. [getUserByEmail(email)] compares the column with the
    [pg_param] text of [email]; [bcrypt.compare] rejects ("Illegal
    arguments") a password that is not a string, and the route answers
    500. *)
Definition login (a : auth_store) (email password : jsval) : auth_response :=
  if negb (js_truthy email && js_truthy password)
  then AuthError 400 "Email and password are required"
  else
    match pg_param email with
    | None => AuthError 400 "Email and password are required"   (* [null] is not truthy *)
    | Some e =>
      match getUserByEmail a e with
      | None => AuthError 401 "Invalid credentials"
      | Some user =>
        match acc_password user with
        | None | Some EmptyString => AuthError 401 "Invalid credentials"
        | Some h =>
          match password with
          | JString pw => if compare pw h then AuthOk 200 user
                          else AuthError 401 "Invalid credentials"
          | _ => AuthError 500 "Failed to login"
          end
        end
      end
    end.

End Auth.

(** What [ticket.getPayload()] gives: [email], [name] and [sub]. *)
Record google_payload := mkGooglePayload {
  g_email : option string; g_name : option string; g_sub : option string }.

(** [POST /api/auth/google]. [clientId] is [VITE_GOOGLE_CLIENT_ID];
    [verified] is what [verifyIdToken] does with the token: [None] when it
    throws, [Some None] when the ticket has no payload; [college] is the
    random suffix of the generated [collegeId]. *)
Definition google_login (a : auth_store) (clientId : option string)
  (verified : option (option google_payload)) (college : string)
  : auth_response * auth_store :=
  match clientId with
  | None | Some EmptyString =>
      (AuthError 500 "Server configuration error: Missing Google Client ID", a)
  | Some _ =>
    match verified with
    | None => (AuthError 500 "Google login failed", a)
    | Some None => (AuthError 401 "Invalid Google token", a)
    | Some (Some payload) =>
      match g_email payload, g_sub payload with
      | (None | Some EmptyString), _ | _, (None | Some EmptyString) =>
          (AuthError 401 "Invalid Google token payload", a)
      | Some email, Some googleId =>
        match getUserByGoogleId a googleId with
        | Some user => (AuthOk 200 user, a)
        | None =>
          match getUserByEmail a email with
          | Some user => (AuthOk 200 user, a)      (* no link is written *)
          | None =>
            let name := match g_name payload with
                        | None | Some EmptyString => "Google User"%string
                        | Some n => n
                        end in
            match createUser a (mkNewUser name email None (Some googleId)
                                          ("G-" ++ college)) with
            | None => (AuthError 500 "Google login failed", a)
            | Some (user, a') => (AuthOk 200 user, a')
            end
          end
        end
      end
    end
  end.

(** ** [authMiddleware] *)

(** [str.split(' ')]: the pieces between single spaces, empty ones
    included. *)
Fixpoint js_split_space (str : string) : list string :=
  match str with
  | EmptyString => [""%string]
  | String c rest =>
    let pieces := js_split_space rest in
    if Ascii.eqb c " " then ""%string :: pieces
    else match pieces with
         | hd :: tl => String c hd :: tl
         | [] => [String c EmptyString]
         end
  end.

(** What the middleware does: answer 401, or call [next()] with
    [req.userId] set. *)
Inductive mw_result :=
| MwReject (status : Z) (msg : string)
| MwNext (userId : id).

(** [authMiddleware]; [authorization] is [req.headers.authorization] and
    [verify token] the [userId] of [jwt.verify(token, JWT_SECRET)], [None]
    when it throws (bad signature, expired, malformed or missing token).
    The tokens this server signs always carry a [userId]. *)
Definition authMiddleware (verify : string -> option id) (authorization : option string)
  : mw_result :=
  match authorization with
  | None => MwReject 401 "No token provided"
  | Some authHeader =>
    if String.eqb authHeader "" || negb (String.prefix "Bearer " authHeader)
    then MwReject 401 "No token provided"
    else
      match nth_error (js_split_space authHeader) 1 with
      | Some token =>
        match verify token with
        | Some userId => MwNext userId
        | None => MwReject 401 "Invalid or expired token"
        end
      | None => MwReject 401 "Invalid or expired token"   (* [jwt.verify(undefined)] *)
      end
  end.

(** ** [fileFilter] *)

(** The variables of the loop of Node's posix [path.extname]. *)
Record extname_state := mkExtState {
  startDot : Z; startPart : Z; endPos : Z; matchedSlash : bool; preDotState : Z }.

(** One turn of the loop at index [i], reading [code]: [inl] goes on,
    [inr] is the [break]. *)
Definition extname_step (i : Z) (code : ascii) (st : extname_state)
  : extname_state + extname_state :=
  if Ascii.eqb code "/" then
    if negb (matchedSlash st)
    then inr (mkExtState (startDot st) (i + 1) (endPos st) (matchedSlash st) (preDotState st))
    else inl st
  else
    let st1 := if Z.eqb (endPos st) (-1)
               then mkExtState (startDot st) (startPart st) (i + 1) false (preDotState st)
               else st in
    if Ascii.eqb code "." then
      if Z.eqb (startDot st1) (-1)
      then inl (mkExtState i (startPart st1) (endPos st1) (matchedSlash st1) (preDotState st1))
      else if negb (Z.eqb (preDotState st1) 1)
      then inl (mkExtState (startDot st1) (startPart st1) (endPos st1) (matchedSlash st1) 1)
      else inl st1
    else if negb (Z.eqb (startDot st1) (-1))
    then inl (mkExtState (startDot st1) (startPart st1) (endPos st1) (matchedSlash st1) (-1))
    else inl st1.

(** [for (let i = path.length - 1; i >= 0; --i)]: [cs] holds the characters
    still to read, the one at index [length cs - 1] first. *)
Fixpoint extname_loop (cs : list ascii) (st : extname_state) : extname_state :=
  match cs with
  | [] => st
  | code :: rest =>
    match extname_step (Z.of_nat (List.length rest)) code st with
    | inl st' => extname_loop rest st'
    | inr st' => st'
    end
  end.

(** [path.extname(path)]. *)
Definition extname (path : string) : string :=
  let st := extname_loop (rev (list_ascii_of_string path)) (mkExtState (-1) 0 (-1) true 0) in
  if Z.eqb (startDot st) (-1) || Z.eqb (endPos st) (-1) || Z.eqb (preDotState st) 0 ||
     (Z.eqb (preDotState st) 1 && Z.eqb (startDot st) (endPos st - 1) &&
      Z.eqb (startDot st) (startPart st + 1))
  then ""%string
  else substring (Z.to_nat (startDot st)) (Z.to_nat (endPos st - startDot st)) path.

(** [String.prototype.toLowerCase] on a one-byte (Latin-1) character:
    A-Z and the capitals from U+00C0 to U+00DE but U+00D7. *)
Definition js_lower_char (c : ascii) : ascii :=
  let n := nat_of_ascii c in
  if (Nat.leb 65 n && Nat.leb n 90) ||
     (Nat.leb 192 n && Nat.leb n 222 && negb (Nat.eqb n 215))
  then ascii_of_nat (n + 32) else c.

Definition js_toLowerCase (str : string) : string :=
  string_of_list_ascii (map js_lower_char (list_ascii_of_string str)).

(** [needle] occurs in [hay]. *)
Fixpoint contains (needle hay : string) : bool :=
  String.prefix needle hay ||
  match hay with
  | EmptyString => false
  | String _ rest => contains needle rest
  end.

(** [/jpeg|jpg|png|gif|webp|pdf/.test(str)]: the pattern has no anchor, so
    it matches where one of the words occurs. *)
Definition allowedTypes_test (str : string) : bool :=
  existsb (fun w => contains w str)
          ["jpeg"; "jpg"; "png"; "gif"; "webp"; "pdf"]%string.

(** [fileFilter]: [true] is [cb(null, true)]; [false] is the error
    "Only images (JPEG, PNG, GIF, WebP) and PDF files are allowed". *)
Definition fileFilter (file : uploaded_file) : bool :=
  let extname_ok := allowedTypes_test (js_toLowerCase (extname (originalname file))) in
  let mimetype_ok := allowedTypes_test (mimetype file) in
  extname_ok && mimetype_ok.

(** ** Sample accounts *)

(** A stand-in for bcrypt in the examples: the hash is the password behind
    a fixed prefix. *)
Definition toy_hash (salt pw : string) : string := "h:" ++ pw.
Definition toy_compare (pw h : string) : bool := String.eqb h ("h:" ++ pw).

Definition no_accounts : auth_store := mkAuthStore [] 1.

Definition asha_body (googleId : jsval) : signup_body :=
  mkSignupBody (JString "Asha") (JString "asha@college.edu") (JString "secret")
               googleId (JString "C-17").

(** Account 1 has signed up with a password and Google id "g-7". *)
Definition asha_store : auth_store :=
  mkAuthStore [mkAccount 1 "Asha" "asha@college.edu" (Some "h:secret"%string) (Some "g-7"%string) "C-17"] 2.

Definition google_token (email sub : string) : option (option google_payload) :=
  Some (Some (mkGooglePayload (Some email) (Some "Ravi"%string) (Some sub))).

(** An update of the title only. *)
Definition title_body : item_body :=
  mkItemBody (JString "Desk lamp (new)") JUndefined JUndefined JUndefined JUndefined
             JUndefined JUndefined.


(** [{ title: 5 }], [{ price: 12.5 }], [{ price: " 12.50" }] and
    [{ price: "NaN" }]. *)
Definition number_title_body : item_body :=
  mkItemBody (JNumber 5) JUndefined JUndefined JUndefined JUndefined JUndefined JUndefined.

Definition price_body (v : jsval) : item_body :=
  mkItemBody JUndefined JUndefined JUndefined JUndefined JUndefined JUndefined v.

(** * Proofs *)

(** ** Message routes *)

Ltac destruct_create :=
  lazymatch goal with
  | |- context [createMessage ?a ?b ?c ?d ?e ?f ?g ?h] =>
      destruct (createMessage a b c d e f g h)
  end.

Lemma getMessagesByItemId_spec (s : store) (i u : id) (m : message) :
  In m (getMessagesByItemId s i u) <->
  In m (messages s) /\ msg_itemId m = i /\ (senderId m = u \/ receiverId m = u).
Proof.
  unfold getMessagesByItemId. rewrite filter_In.
  rewrite andb_true_iff, orb_true_iff, !N.eqb_eq. tauto.
Qed.

Lemma route_authorized_spec (s : store) (i sender receiver owner : id) :
  route_authorized s i sender receiver owner = true <->
  send_permitted s i sender receiver owner.
Proof.
  unfold route_authorized, send_permitted, buyer_initiated.
  rewrite orb_true_iff, andb_true_iff, N.eqb_eq, N.eqb_eq, existsb_exists.
  split.
  - intros [H | [H [m [Hin Hm]]]]; [now left | right].
    apply andb_true_iff in Hm as [H1 H2]. apply N.eqb_eq in H1, H2.
    apply getMessagesByItemId_spec in Hin as [Hin [Hi _]].
    split; [easy | exists m; subst; auto].
  - intros [H | [H [m (Hin & Hi & Hs & Hr)]]]; [now left | right].
    split; [easy |]. exists m. split.
    + apply getMessagesByItemId_spec. subst. auto.
    + subst. now rewrite !N.eqb_refl.
Qed.

Lemma send_create_status (s : store) (u : id) (b : send_body) :
  status (fst (send_create s u b)) <> 403.
Proof.
  unfold send_create.
  destruct (insertMessageSchema_parse _ _ _ _ _ _ _); [destruct_create |];
    simpl; discriminate.
Qed.

(** The route with its item and receiver found. *)
Lemma post_messages_found (s : store) (u : id) (b : send_body) (it : item) (rc : user) :
  getItemById s (body_itemId b) = Some it ->
  getUserById s (body_receiverId b) = Some rc ->
  post_messages s u b =
  if route_authorized s (body_itemId b) u (body_receiverId b) (item_userId it)
  then send_create s u b
  else (Json 403 (if N.eqb (item_userId it) u
                  then "You can only reply to users who have contacted you about this item"
                  else "You can only message the item owner"), s).
Proof.
  intros Hit Hrc. unfold post_messages, route_authorized. rewrite Hit, Hrc.
  destruct (N.eqb (body_receiverId b) (item_userId it)); simpl; [reflexivity |].
  destruct (N.eqb (item_userId it) u); simpl; [| reflexivity].
  destruct (existsb _ _); reflexivity.
Qed.

Lemma post_messages_upload_found (s : store) (u i r : id) (f : uploaded_file)
  (t : option string) (it : item) (rc : user) :
  getItemById s i = Some it -> getUserById s r = Some rc ->
  status (fst (post_messages_upload s u (Some f) (mkUploadBody (Some i) (Some r) t))) = 403
  <-> route_authorized s i u r (item_userId it) = false.
Proof.
  intros Hit Hrc. unfold post_messages_upload, route_authorized.
  cbn -[createMessage getItemById getUserById getMessagesByItemId].
  rewrite Hit, Hrc.
  destruct (N.eqb r (item_userId it)); cbn -[createMessage].
  - destruct_create. simpl. split; discriminate.
  - destruct (N.eqb (item_userId it) u); cbn -[createMessage].
    + destruct (existsb _ _); cbn -[createMessage].
      * destruct_create. simpl. split; discriminate.
      * tauto.
    + tauto.
Qed.

(** C1: for a send about an existing item to an existing receiver, on
    [POST /api/messages] and on [POST /api/messages/upload] alike, the
    request is refused with 403 exactly when the sender is neither writing
    to the owner nor the owner answering a user who already wrote to them
    about the item. *)
Theorem message_send_authorization (s : store) (sender : id) (b : send_body)
  (it : item) (rc : user)
  (Hit : getItemById s (body_itemId b) = Some it)
  (Hrc : getUserById s (body_receiverId b) = Some rc) :
  (status (fst (post_messages s sender b)) <> 403 <->
   send_permitted s (body_itemId b) sender (body_receiverId b) (item_userId it)) /\
  (forall (f : uploaded_file) (t : option string),
     status (fst (post_messages_upload s sender (Some f)
                    (mkUploadBody (Some (body_itemId b)) (Some (body_receiverId b)) t)))
       <> 403 <->
     send_permitted s (body_itemId b) sender (body_receiverId b) (item_userId it)).
Proof.
  split.
  - rewrite (post_messages_found s sender b it rc Hit Hrc), <- route_authorized_spec.
    destruct (route_authorized _ _ _ _ _).
    + split; [reflexivity | intros _; apply send_create_status].
    + simpl. split; [intros H; now contradiction H | discriminate].
  - intros f t.
    rewrite (post_messages_upload_found s sender _ _ f t it rc Hit Hrc),
            <- route_authorized_spec.
    destruct (route_authorized _ _ _ _ _); split; congruence.
Qed.

Lemma message_send_authorization_witness :
  getItemById shop 10 = Some (sell_item 10 1 1500) /\
  getUserById shop 1 = Some (mkUser 1) /\
  (status (fst (post_messages shop 2 (text_body 10 1 "Is it still available?"))) <> 403 <->
   send_permitted shop 10 2 1 1).
Proof.
  split; [reflexivity |]. split; [reflexivity |].
  exact (proj1 (message_send_authorization shop 2 (text_body 10 1 "Is it still available?")
                  (sell_item 10 1 1500) (mkUser 1) eq_refl eq_refl)).
Defined.

Lemma send_create_store (s : store) (u : id) (b : send_body) :
  snd (send_create s u b) = s \/
  exists m, fst (send_create s u b) = Created_message m /\
            messages (snd (send_create s u b)) = messages s ++ [m] /\
            has_content m = true.
Proof.
  unfold send_create, insertMessageSchema_parse.
  destruct (zod_opt_string (body_messageText b)) as [t |]; [| now left].
  simpl.
  destruct (present t) eqn:Ht; simpl; [| now left].
  right. eexists. split; [reflexivity |]. split; [reflexivity |].
  unfold has_content. simpl. now rewrite Ht.
Qed.

(** C8: an unknown item yields the not-found answer before anything
    about the sender is looked at; a refused authorization yields 403;
    neither writes a message. *)
Theorem message_send_errors (s : store) (sender : id) (b : send_body) :
  (getItemById s (body_itemId b) = None ->
   post_messages s sender b = (Json 404 "Item not found", s)) /\
  (forall (it : item) (rc : user),
     getItemById s (body_itemId b) = Some it ->
     getUserById s (body_receiverId b) = Some rc ->
     ~ send_permitted s (body_itemId b) sender (body_receiverId b) (item_userId it) ->
     status (fst (post_messages s sender b)) = 403 /\ snd (post_messages s sender b) = s) /\
  (forall (r : response) (s' : store),
     post_messages s sender b = (r, s') ->
     status r = 404 \/ status r = 403 -> s' = s /\ messages s' = messages s).
Proof.
  split; [| split].
  - intros H. unfold post_messages. now rewrite H.
  - intros it rc Hit Hrc Hn.
    rewrite (post_messages_found s sender b it rc Hit Hrc).
    destruct (route_authorized _ _ _ _ _) eqn:Ha.
    + apply route_authorized_spec in Ha. contradiction.
    + split; reflexivity.
  - intros r s' Hp Hst.
    assert (Hs : s' = s); [| subst; split; reflexivity].
    unfold post_messages in Hp.
    destruct (getItemById s (body_itemId b)) as [it |]; [| congruence].
    destruct (getUserById s (body_receiverId b)) as [rc |]; [| congruence].
    assert (Hc : forall r' s'', send_create s sender b = (r', s'') ->
                   (status r' = 404 \/ status r' = 403) -> s'' = s).
    { intros r' s'' Hsc Hst'. unfold send_create in Hsc.
      destruct (insertMessageSchema_parse _ _ _ _ _ _ _); [| congruence].
      revert Hsc. destruct_create. intros Hsc. inversion Hsc; subst.
      simpl in Hst'. destruct Hst'; discriminate. }
    destruct (N.eqb (body_receiverId b) (item_userId it)); [now apply (Hc r s') |].
    destruct (N.eqb (item_userId it) sender); [| congruence].
    destruct (negb _); [congruence |]. now apply (Hc r s').
Qed.

Lemma message_send_errors_witness :
  getItemById shop 42 = None /\
  post_messages shop 2 (text_body 42 1 "hello") = (Json 404 "Item not found", shop).
Proof.
  split; [reflexivity |].
  exact (proj1 (message_send_errors shop 2 (text_body 42 1 "hello")) eq_refl).
Defined.

(** C9, as stated, fails: a blank message between two users who are not
    the owner gets the authorization error, not a validation error. *)
Lemma blank_message_refused_by_authorization :
  blank_text (body_messageText (text_body 10 3 "   ")) = true /\
  post_messages shop 2 (text_body 10 3 "   ") =
    (Json 403 "You can only message the item owner", shop) /\
  status (fst (post_messages shop 2 (text_body 10 3 "   "))) <> 400.
Proof. vm_compute. split; [reflexivity | split; [reflexivity | discriminate]]. Qed.

Lemma blank_text_parse (i r u : id) (v : jsval) :
  blank_text v = true ->
  insertMessageSchema_parse i r u v JUndefined JUndefined JUndefined = None.
Proof.
  unfold insertMessageSchema_parse.
  destruct v as [| | str | | |]; simpl; intros H; try reflexivity; try discriminate.
  apply negb_true_iff in H. now rewrite H.
Qed.

(** C9 (amended): every message the two routes create has a non-blank
    text or a file URL (the upload route always stores a file URL, type and
    name); a [POST /api/messages] request whose text is missing, null or
    blank creates no message. It gets 404 "Item not found" for an unknown
    item, 404 "Receiver not found" for an unknown receiver, the 403 of the
    authorization rule when the sender may not write to the receiver, and
    the validation error (400) once item and receiver are found and the
    send is authorized. *)
Theorem message_needs_content :
  (forall (s : store) (u : id) (b : send_body) (r : response) (s' : store),
     post_messages s u b = (r, s') ->
     s' = s \/ exists m, r = Created_message m /\ messages s' = messages s ++ [m] /\
                         has_content m = true) /\
  (forall (s : store) (u : id) (f : option uploaded_file) (b : upload_body)
          (r : response) (s' : store),
     post_messages_upload s u f b = (r, s') ->
     s' = s \/ exists m, r = Created_message m /\ messages s' = messages s ++ [m] /\
                         present (fileUrl m) = true /\ fileType m <> None /\
                         fileName m <> None) /\
  (forall (s : store) (u : id) (b : send_body),
     blank_text (body_messageText b) = true ->
     snd (post_messages s u b) = s /\
     (getItemById s (body_itemId b) = None ->
        fst (post_messages s u b) = Json 404 "Item not found") /\
     (forall (it : item),
        getItemById s (body_itemId b) = Some it ->
        getUserById s (body_receiverId b) = None ->
        fst (post_messages s u b) = Json 404 "Receiver not found") /\
     (forall (it : item) (rc : user),
        getItemById s (body_itemId b) = Some it ->
        getUserById s (body_receiverId b) = Some rc ->
        ~ send_permitted s (body_itemId b) u (body_receiverId b) (item_userId it) ->
        fst (post_messages s u b) =
          Json 403 (if N.eqb (item_userId it) u
                    then "You can only reply to users who have contacted you about this item"
                    else "You can only message the item owner")) /\
     (forall (it : item) (rc : user),
        getItemById s (body_itemId b) = Some it ->
        getUserById s (body_receiverId b) = Some rc ->
        send_permitted s (body_itemId b) u (body_receiverId b) (item_userId it) ->
        fst (post_messages s u b) = Json 400 "Validation error")).
Proof.
  split; [| split].
  - intros s u b r s' Hp.
    assert (Hc : forall r' s'', send_create s u b = (r', s'') ->
              s'' = s \/ exists m, r' = Created_message m /\
                                   messages s'' = messages s ++ [m] /\ has_content m = true).
    { intros r' s'' Hsc. destruct (send_create_store s u b) as [H | [m (H1 & H2 & H3)]];
        rewrite Hsc in *; simpl in *; [now left | right; eauto]. }
    unfold post_messages in Hp.
    destruct (getItemById s (body_itemId b)) as [it |]; [| inversion Hp; now left].
    destruct (getUserById s (body_receiverId b)) as [rc |]; [| inversion Hp; now left].
    destruct (N.eqb (body_receiverId b) (item_userId it)); [now apply Hc |].
    destruct (N.eqb (item_userId it) u); [| inversion Hp; now left].
    destruct (negb _); [inversion Hp; now left | now apply Hc].
  - intros s u f b r s' Hp. unfold post_messages_upload in Hp.
    destruct f as [f |]; [| inversion Hp; now left].
    destruct (up_itemId b) as [i |]; [| inversion Hp; now left].
    destruct (up_receiverId b) as [rv |]; [| inversion Hp; now left].
    destruct (getItemById s i) as [it |]; [| inversion Hp; now left].
    destruct (getUserById s rv) as [rc |]; [| inversion Hp; now left].
    destruct (_ && _); [inversion Hp; now left |].
    right. unfold createMessage, gen_id in Hp. simpl in Hp.
    inversion Hp; subst. eexists. split; [reflexivity |].
    split; [reflexivity |]. simpl.
    split; [reflexivity |]. split; discriminate.
  - intros s u b Hb.
    assert (Hc : send_create s u b = (Json 400 "Validation error", s)).
    { unfold send_create. now rewrite blank_text_parse. }
    split.
    + unfold post_messages.
      destruct (getItemById s (body_itemId b)) as [it |]; [| reflexivity].
      destruct (getUserById s (body_receiverId b)) as [rc |]; [| reflexivity].
      destruct (N.eqb _ _); [now rewrite Hc |].
      destruct (N.eqb _ _); [| reflexivity].
      destruct (negb _); [reflexivity | now rewrite Hc].
    + split; [intros Hn; unfold post_messages; now rewrite Hn |].
      split; [intros it Hit Hn; unfold post_messages; now rewrite Hit, Hn |].
      split.
      * intros it rc Hit Hrc Hperm.
        rewrite (post_messages_found s u b it rc Hit Hrc).
        destruct (route_authorized _ _ _ _ _) eqn:Ha; [| reflexivity].
        apply route_authorized_spec in Ha. contradiction.
      * intros it rc Hit Hrc Hperm.
        rewrite (post_messages_found s u b it rc Hit Hrc).
        apply route_authorized_spec in Hperm. now rewrite Hperm, Hc.
Qed.

Lemma message_needs_content_witness :
  blank_text (body_messageText (text_body 10 1 " ")) = true /\
  fst (post_messages shop 2 (text_body 10 1 " ")) = Json 400 "Validation error" /\
  fst (post_messages shop 2 (text_body 10 7 " ")) = Json 404 "Receiver not found".
Proof.
  split; [reflexivity | split].
  - apply (proj2 (proj2 (proj2 (proj2
             (proj2 (proj2 message_needs_content) shop 2%N (text_body 10 1 " ") eq_refl))))
             (sell_item 10 1 1500) (mkUser 1) eq_refl eq_refl).
    left. reflexivity.
  - exact (proj1 (proj2 (proj2
             (proj2 (proj2 message_needs_content) shop 2%N (text_body 10 7 " ") eq_refl)))
             (sell_item 10 1 1500) eq_refl eq_refl).
Defined.

(** ** The checkout transaction *)

Lemma tx_write_inv {A} (f : nat -> bool) (w : store -> tx_error + (A * store))
  (s : store) (n : nat) (a : A) (s' : store) (n' : nat) :
  tx_write f w s n = inr (a, s', n') -> f n = false /\ w s = inr (a, s') /\ n' = S n.
Proof.
  unfold tx_write. destruct (f n); [discriminate |].
  destruct (w s) as [e | [a0 s0]]; [discriminate |]. intros H; inversion H; auto.
Qed.

Lemma order_lines_ok (f : nat -> bool) (oid : id) (rows : list (cart_item * option item)) :
  forall (s : store) (n : nat) (t : unit) (s' : store) (n' : nat),
  order_lines f oid rows s n = inr (t, s', n') ->
  (exists new, orderItems s' = orderItems s ++ new /\ Forall2 (line_of oid) rows new) /\
  items s' = mark_rows rows (items s) /\
  users s' = users s /\ messages s' = messages s /\ cartItems s' = cartItems s /\
  wishlistItems s' = wishlistItems s /\ orders s' = orders s.
Proof.
  induction rows as [| [c [it |]] rest IH]; intros s n t s' n' H.
  - inversion H; subst. split; [exists []; split; [now rewrite app_nil_r | constructor] |].
    repeat split; reflexivity.
  - simpl in H. unfold tx_bind in H.
    destruct (insert_order_item f oid it s n) as [e | [[t1 s1] n1]] eqn:H1;
      [discriminate |].
    destruct (set_sold f (item_id it) s1 n1) as [e | [[t2 s2] n2]] eqn:H2;
      [discriminate |].
    apply IH in H as ([new [Hn Hf]] & Hi & Hu & Hm & Hc & Hw & Ho).
    apply tx_write_inv in H1 as (_ & H1 & _).
    apply tx_write_inv in H2 as (_ & H2 & _).
    destruct (price it) as [p |] eqn:Hp; [| discriminate].
    inversion H1; subst s1. inversion H2; subst s2. clear H1 H2.
    simpl in *. split.
    + exists (mkOrderItem (next_id s) oid (item_id it) p :: new). split.
      * rewrite Hn, <- app_assoc. reflexivity.
      * constructor; [| exact Hf]. exists it. simpl. auto.
    + repeat split; assumption.
  - discriminate.
Qed.

Lemma order_lines_error (f : nat -> bool) (oid : id) (rows : list (cart_item * option item)) :
  forall (s : store) (n : nat) (e : tx_error),
  order_lines f oid rows s n = inl e ->
  (exists msg, e = TxDbError msg) \/ e = TxThrow "Cannot read properties of null".
Proof.
  induction rows as [| [c [it |]] rest IH]; intros s n e H.
  - discriminate.
  - simpl in H. unfold tx_bind, insert_order_item, set_sold, tx_write in H.
    destruct (f n); [inversion H; left; eauto |].
    destruct (price it); [| inversion H; left; eauto].
    simpl in H. destruct (f (S n)); [inversion H; left; eauto |].
    eapply IH; exact H.
  - inversion H. now right.
Qed.

Lemma cart_rows_nil (s : store) (u : id) :
  cart_rows s u = [] <-> filter (fun c => N.eqb (cart_userId c) u) (cartItems s) = [].
Proof.
  unfold cart_rows. split; intros H.
  - now apply map_eq_nil in H.
  - now rewrite H.
Qed.

Lemma length_zero_iff {A} (l : list A) : Nat.eqb (List.length l) 0 = true <-> l = [].
Proof. destruct l; simpl; split; congruence. Qed.

(** What a committed checkout wrote. *)
Lemma checkout_ok (f : nat -> bool) (s : store) (u : id) (o : order) (s' : store) :
  checkout f s u = (inr o, s') ->
  let valid := filter is_valid_row (cart_rows s u) in
  valid <> [] /\
  Some (total o) = numeric_10_2_of_float (checkout_total valid) /\
  order_userId o = u /\
  orders s' = orders s ++ [o] /\
  (exists new, orderItems s' = orderItems s ++ new /\ Forall2 (line_of (order_id o)) valid new) /\
  items s' = mark_rows valid (items s) /\
  cartItems s' = filter (fun c => negb (N.eqb (cart_userId c) u)) (cartItems s) /\
  wishlistItems s' = wishlistItems s /\ messages s' = messages s /\ users s' = users s.
Proof.
  unfold checkout, db_transaction, checkout_tx, tx_bind, tx_read. cbv zeta.
  destruct (Nat.eqb (List.length (cart_rows s u)) 0); [discriminate |].
  destruct (Nat.eqb (List.length (filter is_valid_row (cart_rows s u))) 0) eqn:Hv;
    [discriminate |].
  set (valid := filter is_valid_row (cart_rows s u)) in *.
  destruct (insert_order f u (checkout_total valid) s O) as [e | [[o1 s1] n1]] eqn:H1;
    [discriminate |].
  destruct (order_lines f (order_id o1) valid s1 n1) as [e | [[t2 s2] n2]] eqn:H2;
    [discriminate |].
  destruct (delete_cart f u s2 n2) as [e | [[t3 s3] n3]] eqn:H3; [discriminate |].
  unfold tx_ret. intros H; inversion H; subst o s'. clear H.
  apply order_lines_ok in H2 as ([new [Hn Hf]] & Hi & Hu & Hm & Hc & Hw & Ho).
  apply tx_write_inv in H1 as (_ & H1 & _).
  apply tx_write_inv in H3 as (_ & H3 & _).
  destruct (numeric_10_2_of_float (checkout_total valid)) as [t |] eqn:Ht; [| discriminate].
  inversion H1; subst. inversion H3; subst. clear H1 H3. simpl in *.
  split; [intros Hnil; rewrite Hnil in Hv; discriminate |].
  split; [reflexivity |]. split; [reflexivity |].
  split; [now rewrite Ho |].
  split; [exists new; split; assumption |].
  split; [exact Hi |].
  split; [now rewrite Hc |].
  repeat split; assumption.
Qed.

(** A checkout that does not commit leaves the store as it was. *)
Lemma checkout_rollback (f : nat -> bool) (s : store) (u : id) (e : tx_error) :
  fst (checkout f s u) = inl e -> snd (checkout f s u) = s.
Proof.
  unfold checkout, db_transaction.
  destruct (checkout_tx f u s O) as [e' | [[o s'] n']]; simpl; congruence.
Qed.

Lemma checkout_outcome (f : nat -> bool) (s : store) (u : id) :
  let valid := filter is_valid_row (cart_rows s u) in
  (cart_rows s u = [] -> fst (checkout f s u) = inl (TxThrow "Cart is empty")) /\
  (cart_rows s u <> [] -> valid = [] ->
   fst (checkout f s u) = inl (TxThrow "No available items to checkout")) /\
  (valid <> [] -> forall e, fst (checkout f s u) = inl e ->
   (exists msg, e = TxDbError msg) \/ e = TxThrow "Cannot read properties of null").
Proof.
  cbv zeta. unfold checkout, db_transaction, checkout_tx, tx_bind, tx_read.
  split; [| split].
  - intros H. rewrite H. reflexivity.
  - intros H Hv. rewrite Hv. simpl.
    destruct (Nat.eqb (List.length (cart_rows s u)) 0) eqn:Hl; [| reflexivity].
    apply length_zero_iff in Hl. contradiction.
  - intros Hv e.
    assert (Hl : forall A (l : list A), l <> [] -> Nat.eqb (List.length l) 0 = false).
    { intros A [| x l] Hne; [contradiction | reflexivity]. }
    rewrite (Hl _ (filter is_valid_row (cart_rows s u)) Hv).
    assert (Hc : cart_rows s u <> []).
    { intros H. apply Hv. rewrite H. reflexivity. }
    rewrite (Hl _ _ Hc).
    set (valid := filter is_valid_row (cart_rows s u)) in *.
    unfold insert_order at 1, tx_write at 1.
    destruct (f O); [simpl; intros H; inversion H; eauto |].
    destruct (numeric_10_2_of_float (checkout_total valid)); [| simpl; intros H; inversion H; eauto].
    cbv beta iota zeta. unfold gen_id at 1. simpl.
    match goal with
    | |- context [order_lines f ?oid valid ?s1 ?n1] =>
        destruct (order_lines f oid valid s1 n1) as [e' | [[t2 s2] n2]] eqn:H2
    end.
    + simpl. intros H. inversion H; subst. eapply order_lines_error. exact H2.
    + unfold delete_cart, tx_write. destruct (f n2); simpl; intros H; inversion H; eauto.
Qed.

(** C4: the two precondition errors are raised exactly on an empty cart
    and on a cart with no valid entry; every failed checkout, a failed
    write included (any [db_fault]), leaves the store unchanged. *)
Theorem checkout_failure_modes (f : nat -> bool) (s : store) (u : id) :
  (fst (checkout f s u) = inl (TxThrow "Cart is empty") <->
   filter (fun c => N.eqb (cart_userId c) u) (cartItems s) = []) /\
  (fst (checkout f s u) = inl (TxThrow "No available items to checkout") <->
   filter (fun c => N.eqb (cart_userId c) u) (cartItems s) <> [] /\
   filter is_valid_row (cart_rows s u) = []) /\
  (forall e, fst (checkout f s u) = inl e -> snd (checkout f s u) = s).
Proof.
  destruct (checkout_outcome f s u) as (Hempty & Hnone & Hwrite). cbv zeta in *.
  rewrite <- cart_rows_nil.
  assert (Hcase : cart_rows s u = [] \/
                  (cart_rows s u <> [] /\ filter is_valid_row (cart_rows s u) = []) \/
                  filter is_valid_row (cart_rows s u) <> []).
  { destruct (cart_rows s u) as [| r rs] eqn:Hc; [now left | right].
    destruct (filter is_valid_row (r :: rs)) eqn:Hf; [left; split | right]; congruence. }
  split; [| split; [| apply checkout_rollback]].
  - split; [| exact Hempty]. intros H.
    destruct Hcase as [Hc | [[Hc Hv] | Hv]]; [exact Hc | |].
    + rewrite (Hnone Hc Hv) in H. inversion H.
    + destruct (Hwrite Hv _ H) as [[m Hm] | Hm]; discriminate.
  - split.
    + intros H. destruct Hcase as [Hc | [[Hc Hv] | Hv]].
      * rewrite (Hempty Hc) in H. inversion H.
      * now split.
      * destruct (Hwrite Hv _ H) as [[m Hm] | Hm]; discriminate.
    + intros [Hc Hv]. exact (Hnone Hc Hv).
Qed.

(** ** The item table under checkout *)

Lemma find_map_id (g : item -> item) (l : list item) (i : id) :
  (forall x, item_id (g x) = item_id x) ->
  find (fun it => N.eqb (item_id it) i) (map g l) =
  option_map g (find (fun it => N.eqb (item_id it) i) l).
Proof.
  intros Hg. induction l as [| x l IH]; simpl; [reflexivity |].
  rewrite Hg. destruct (N.eqb (item_id x) i); [reflexivity | exact IH].
Qed.

Lemma mark_sold_id (i : id) (x : item) : item_id (mark_sold i x) = item_id x.
Proof. unfold mark_sold. destruct (N.eqb (item_id x) i); reflexivity. Qed.

Lemma mark_sold_mono (i : id) (x : item) : isSold x = true -> isSold (mark_sold i x) = true.
Proof. unfold mark_sold. destruct (N.eqb (item_id x) i); auto. Qed.

Lemma mark_rows_cons (row : cart_item * option item) rows (l : list item) :
  mark_rows (row :: rows) l =
  mark_rows rows (match snd row with
                  | Some it => map (mark_sold (item_id it)) l
                  | None => l
                  end).
Proof. reflexivity. Qed.

(** Looking an item up after the checkout loop: the same rows, with
    [isSold] only ever raised. *)
Lemma find_mark_rows (rows : list (cart_item * option item)) :
  forall (l : list item) (i : id),
  (find (fun it => N.eqb (item_id it) i) (mark_rows rows l) = None <->
   find (fun it => N.eqb (item_id it) i) l = None) /\
  (forall x', find (fun it => N.eqb (item_id it) i) (mark_rows rows l) = Some x' ->
   exists x, find (fun it => N.eqb (item_id it) i) l = Some x /\
             (isSold x = true -> isSold x' = true)).
Proof.
  induction rows as [| [c [it |]] rest IH]; intros l i.
  - split; [tauto |]. intros x' H. exists x'. auto.
  - rewrite mark_rows_cons. simpl.
    destruct (IH (map (mark_sold (item_id it)) l) i) as [H1 H2].
    rewrite find_map_id in H1, H2 by apply mark_sold_id.
    split.
    + rewrite H1. destruct (find _ l); simpl; split; congruence.
    + intros x' Hx'. destruct (H2 x' Hx') as [y [Hy Hs]].
      destruct (find _ l) as [x |]; simpl in Hy; [| discriminate].
      inversion Hy; subst. exists x. split; [reflexivity |].
      intros Hx. apply Hs, mark_sold_mono, Hx.
  - rewrite mark_rows_cons. simpl. apply IH.
Qed.

Lemma mark_rows_keep (rows : list (cart_item * option item)) :
  forall (l : list item) (x : item), In x (mark_rows rows l) ->
  exists y, In y l /\ item_id y = item_id x /\ (isSold y = true -> isSold x = true).
Proof.
  induction rows as [| [c [it |]] rest IH]; intros l x Hx.
  - exists x. auto.
  - rewrite mark_rows_cons in Hx. simpl in Hx.
    destruct (IH _ _ Hx) as [y [Hy [Hid Hs]]].
    apply in_map_iff in Hy as [z [Hz Hzl]]. subst y.
    exists z. rewrite mark_sold_id in Hid. split; [exact Hzl |]. split; [exact Hid |].
    intros Hz. apply Hs, mark_sold_mono, Hz.
  - rewrite mark_rows_cons in Hx. simpl in Hx. apply (IH _ _ Hx).
Qed.

Lemma mark_rows_sold (rows : list (cart_item * option item)) :
  forall (l : list item) (c : cart_item) (it : item) (x : item),
  In (c, Some it) rows -> In x (mark_rows rows l) -> item_id x = item_id it ->
  isSold x = true.
Proof.
  induction rows as [| [c0 o0] rest IH]; intros l c it x Hin Hx Hid; [destruct Hin |].
  rewrite mark_rows_cons in Hx. destruct Hin as [Heq | Hin].
  - inversion Heq; subst. simpl in Hx.
    destruct (mark_rows_keep rest _ x Hx) as [y [Hy [Hyid Hs]]].
    apply Hs. apply in_map_iff in Hy as [z [Hz _]]. subst y.
    unfold mark_sold in *. destruct (N.eqb (item_id z) (item_id it)) eqn:E;
      [reflexivity |].
    simpl in Hyid. apply N.eqb_neq in E. congruence.
  - exact (IH _ c it x Hin Hx Hid).
Qed.

Lemma cart_rows_in (s : store) (u : id) (c : cart_item) (it : item) :
  In (c, Some it) (cart_rows s u) ->
  In c (cartItems s) /\ cart_userId c = u /\ getItemById s (cart_itemId c) = Some it.
Proof.
  unfold cart_rows. rewrite in_map_iff. intros [c0 [Heq Hin]].
  inversion Heq; subst. apply filter_In in Hin as [Hin Hu].
  apply N.eqb_eq in Hu. auto.
Qed.

Lemma getItemById_id (s : store) (i : id) (it : item) :
  getItemById s i = Some it -> item_id it = i.
Proof.
  unfold getItemById. intros H. apply find_some in H as [_ H]. now apply N.eqb_eq.
Qed.

(** An item of a valid row is sold once the checkout commits. *)
Lemma checkout_marks_sold (f : nat -> bool) (s : store) (u : id) (o : order) (s' : store)
  (c : cart_item) (it : item) :
  checkout f s u = (inr o, s') ->
  In (c, Some it) (filter is_valid_row (cart_rows s u)) ->
  exists it', getItemById s' (item_id it) = Some it' /\ isSold it' = true.
Proof.
  intros Hc Hin.
  destruct (checkout_ok f s u o s' Hc) as (_ & _ & _ & _ & _ & Hitems & _).
  assert (Hrow := Hin). apply filter_In in Hrow as [Hrow _].
  apply cart_rows_in in Hrow as (_ & _ & Hget).
  assert (Hid := getItemById_id _ _ _ Hget).
  assert (Hs : getItemById s (item_id it) = Some it) by now rewrite Hid.
  unfold getItemById in *. rewrite Hitems.
  destruct (find _ (mark_rows _ _)) as [x |] eqn:Hx.
  - exists x. split; [reflexivity |].
    apply find_some in Hx as [Hx Hxid]. apply N.eqb_eq in Hxid.
    exact (mark_rows_sold _ _ c it x Hin Hx Hxid).
  - apply (proj1 (find_mark_rows _ (items s) (item_id it))) in Hx. congruence.
Qed.

(** C3: a committed checkout creates exactly one order line per valid
    cart entry of the user (item for sale and not yet sold when the
    transaction read it), in order, carrying that item's price as read,
    and marks each of those items sold. *)
Theorem checkout_order_lines (f : nat -> bool) (s : store) (u : id) (o : order) (s' : store) :
  checkout f s u = (inr o, s') ->
  (exists new, orderItems s' = orderItems s ++ new /\
               Forall2 (line_of (order_id o)) (filter is_valid_row (cart_rows s u)) new) /\
  (forall c it, In (c, Some it) (filter is_valid_row (cart_rows s u)) ->
     exists it', getItemById s' (item_id it) = Some it' /\ isSold it' = true).
Proof.
  intros Hc. split.
  - destruct (checkout_ok f s u o s' Hc) as (_ & _ & _ & _ & Hnew & _). exact Hnew.
  - intros c it Hin. exact (checkout_marks_sold f s u o s' c it Hc Hin).
Qed.

Lemma checkout_order_lines_witness :
  checkout no_fault scenario 2 = (inr (mkOrder 100 2 (PgNum 1500)), snd (checkout no_fault scenario 2)) /\
  exists new, orderItems (snd (checkout no_fault scenario 2)) = orderItems scenario ++ new /\
              Forall2 (line_of 100) (filter is_valid_row (cart_rows scenario 2)) new.
Proof.
  assert (H : checkout no_fault scenario 2 =
              (inr (mkOrder 100 2 (PgNum 1500)), snd (checkout no_fault scenario 2)))
    by (vm_compute; reflexivity).
  split; [exact H |].
  exact (proj1 (checkout_order_lines no_fault scenario 2 _ _ H)).
Defined.

(** C5: a committed checkout deletes every cart row of the user, the
    ones left out of the order included, and no other user's cart row or
    any wishlist row. *)
Theorem checkout_clears_cart (f : nat -> bool) (s : store) (u : id) (o : order) (s' : store) :
  checkout f s u = (inr o, s') ->
  filter (fun c => N.eqb (cart_userId c) u) (cartItems s') = [] /\
  (forall v, v <> u ->
     filter (fun c => N.eqb (cart_userId c) v) (cartItems s') =
     filter (fun c => N.eqb (cart_userId c) v) (cartItems s)) /\
  wishlistItems s' = wishlistItems s.
Proof.
  intros Hc.
  destruct (checkout_ok f s u o s' Hc) as (_ & _ & _ & _ & _ & _ & Hcart & Hwl & _).
  rewrite Hcart. clear Hcart Hc. split; [| split; [| exact Hwl]].
  - induction (cartItems s) as [| c l IH]; [reflexivity |]. simpl.
    destruct (N.eqb (cart_userId c) u) eqn:E; simpl; [exact IH |].
    rewrite E. exact IH.
  - intros v Hv. induction (cartItems s) as [| c l IH]; [reflexivity |]. simpl.
    destruct (N.eqb (cart_userId c) u) eqn:E; simpl.
    + apply N.eqb_eq in E. rewrite IH.
      destruct (N.eqb (cart_userId c) v) eqn:E'; [| reflexivity].
      apply N.eqb_eq in E'. congruence.
    + destruct (N.eqb (cart_userId c) v); [now rewrite IH | exact IH].
Qed.

Lemma checkout_clears_cart_witness :
  checkout no_fault scenario 2 = (inr (mkOrder 100 2 (PgNum 1500)), snd (checkout no_fault scenario 2)) /\
  filter (fun c => N.eqb (cart_userId c) 2) (cartItems (snd (checkout no_fault scenario 2))) = [].
Proof.
  assert (H : checkout no_fault scenario 2 =
              (inr (mkOrder 100 2 (PgNum 1500)), snd (checkout no_fault scenario 2)))
    by (vm_compute; reflexivity).
  split; [exact H |].
  exact (proj1 (checkout_clears_cart no_fault scenario 2 _ _ H)).
Defined.

Lemma Forall2_in_left {A B} (R : A -> B -> Prop) (l1 : list A) (l2 : list B) (x : A) :
  Forall2 R l1 l2 -> In x l1 -> exists y, In y l2 /\ R x y.
Proof.
  intros H. induction H as [| a b l1 l2 Hab _ IH]; intros Hin; [destruct Hin |].
  destruct Hin as [-> | Hin]; [exists b; simpl; auto |].
  destruct (IH Hin) as [y [Hy Hr]]. exists y. simpl. auto.
Qed.

(** C10: nothing in the valid-row filter looks at the owner: a user's own
    listing, for sale and unsold, in their own cart, is a valid row, and a
    committed checkout orders it and marks it sold. *)
Theorem checkout_own_listing (f : nat -> bool) (s : store) (u : id)
  (c : cart_item) (it : item)
  (Hc : In c (cartItems s)) (Hu : cart_userId c = u)
  (Hget : getItemById s (cart_itemId c) = Some it)
  (Hown : item_userId it = u) (Hsell : itemType it = "sell"%string)
  (Hunsold : isSold it = false) :
  In (c, Some it) (filter is_valid_row (cart_rows s u)) /\
  (forall o s', checkout f s u = (inr o, s') ->
   exists new oi, orderItems s' = orderItems s ++ new /\ In oi new /\
                  orderId oi = order_id o /\ oi_itemId oi = item_id it /\
                  exists it', getItemById s' (item_id it) = Some it' /\ isSold it' = true).
Proof.
  assert (Hin : In (c, Some it) (filter is_valid_row (cart_rows s u))).
  { apply filter_In. split.
    - unfold cart_rows. apply in_map_iff. exists c. rewrite Hget.
      split; [reflexivity |]. apply filter_In. split; [exact Hc |].
      now apply N.eqb_eq.
    - unfold is_valid_row. simpl. now rewrite Hsell, Hunsold. }
  split; [exact Hin |].
  intros o s' Hco.
  destruct (checkout_ok f s u o s' Hco) as (_ & _ & _ & _ & [new [Hnew Hf]] & _).
  destruct (Forall2_in_left _ _ _ _ Hf Hin) as [oi [Hoi Hline]] .
  destruct Hline as [it0 (Hit0 & Hoid & Hiid & _)]. simpl in Hit0. inversion Hit0; subst it0.
  exists new, oi. repeat split; try assumption.
  exact (checkout_marks_sold f s u o s' c it Hco Hin).
Qed.

Lemma checkout_own_listing_witness :
  checkout no_fault own_cart 1 = (inr (mkOrder 100 1 (PgNum 1500)), snd (checkout no_fault own_cart 1)) /\
  exists new oi, orderItems (snd (checkout no_fault own_cart 1)) = orderItems own_cart ++ new /\
                 In oi new /\ orderId oi = 100%N /\ oi_itemId oi = 10%N /\
                 exists it', getItemById (snd (checkout no_fault own_cart 1)) 10 = Some it' /\
                             isSold it' = true.
Proof.
  assert (H : checkout no_fault own_cart 1 =
              (inr (mkOrder 100 1 (PgNum 1500)), snd (checkout no_fault own_cart 1)))
    by (vm_compute; reflexivity).
  split; [exact H |].
  exact (proj2 (checkout_own_listing no_fault own_cart 1 (mkCartItem 50 1 10) (sell_item 10 1 1500)
                  (or_introl eq_refl) eq_refl eq_refl eq_refl eq_refl eq_refl) _ _ H).
Defined.

(** ** [isSold] across all write routes *)

Lemma find_app_item (l : list item) (x : item) (i : id) :
  find (fun it => N.eqb (item_id it) i) (l ++ [x]) =
  match find (fun it => N.eqb (item_id it) i) l with
  | Some y => Some y
  | None => if N.eqb (item_id x) i then Some x else None
  end.
Proof.
  induction l as [| y l IH]; simpl; [reflexivity |].
  destruct (N.eqb (item_id y) i); [reflexivity | exact IH].
Qed.

Lemma apply_update_rel (b : item_body) (it it' : item) :
  apply_update b it = Some it' -> item_id it = item_id it' /\ isSold it = isSold it'.
Proof.
  unfold apply_update.
  destruct (col_text (ib_title b) (title it)), (col_text (ib_description b) (description it)),
    (col_text (ib_category b) (category it)), (col_text (ib_imageUrl b) (imageUrl it)),
    (col_text (ib_itemType b) (itemType it)),
    (col_opt_text (ib_expectedExchange b) (expectedExchange it)),
    (col_price (ib_price b) (price it)); intros H; try discriminate.
  inversion H. now split.
Qed.

Lemma update_rows_rel (i : id) (b : item_body) (l : list item) :
  forall l', update_rows i b l = Some l' ->
  Forall2 (fun x y => item_id x = item_id y /\ isSold x = isSold y) l l'.
Proof.
  induction l as [| x l IH]; intros l' H; simpl in H.
  - inversion H. constructor.
  - destruct (update_rows i b l) as [r |] eqn:Hr; [| discriminate].
    destruct (N.eqb (item_id x) i).
    + destruct (apply_update b x) as [x' |] eqn:Hx; [| discriminate].
      inversion H. constructor; [now apply apply_update_rel with b | now apply IH].
    + inversion H. constructor; [auto | now apply IH].
Qed.

Lemma find_rel (l l' : list item) (i : id) :
  Forall2 (fun x y => item_id x = item_id y /\ isSold x = isSold y) l l' ->
  match find (fun it => N.eqb (item_id it) i) l,
        find (fun it => N.eqb (item_id it) i) l' with
  | Some x, Some y => isSold x = isSold y
  | None, None => True
  | _, _ => False
  end.
Proof.
  intros H. induction H as [| x y l l' [Hid Hs] _ IH]; simpl; [exact I |].
  rewrite Hid. destruct (N.eqb (item_id y) i); assumption.
Qed.

Lemma find_filter_item (l : list item) (d i : id) :
  find (fun it => N.eqb (item_id it) i) (filter (fun it => negb (N.eqb (item_id it) d)) l) =
  if N.eqb i d then None else find (fun it => N.eqb (item_id it) i) l.
Proof.
  induction l as [| x l IH]; simpl; [now destruct (N.eqb i d) |].
  destruct (N.eqb (item_id x) d) eqn:Ed; simpl.
  - rewrite IH. destruct (N.eqb i d) eqn:Ei; [reflexivity |].
    apply N.eqb_eq in Ed. apply N.eqb_neq in Ei.
    destruct (N.eqb (item_id x) i) eqn:Ex; [apply N.eqb_eq in Ex; congruence | reflexivity].
  - rewrite IH. destruct (N.eqb (item_id x) i) eqn:Ex; [| reflexivity].
    apply N.eqb_eq in Ex. subst i. now rewrite Ed.
Qed.

(** The item table after a request, compared row by row. *)
Definition sold_frame (r : request) (s s' : store) : Prop :=
  forall i it', getItemById s' i = Some it' ->
  match getItemById s i with
  | Some it => sold_step r (isSold it) (isSold it')
  | None => isSold it' = false
  end.

Lemma sold_frame_same (r : request) (s s' : store) :
  items s' = items s -> sold_frame r s s'.
Proof.
  intros H i it'. unfold getItemById. rewrite H. intros ->. now left.
Qed.

Lemma createMessage_items (s : store) (a b c : id) (d e f g : option string) :
  items (snd (createMessage s a b c d e f g)) = items s.
Proof.
  unfold createMessage, gen_id. reflexivity.
Qed.

Ltac create_items :=
  lazymatch goal with
  | |- context [createMessage ?a ?b ?c ?d ?e ?f ?g ?h] =>
      let Hci := fresh "Hci" in
      pose proof (createMessage_items a b c d e f g h) as Hci;
      destruct (createMessage a b c d e f g h); exact Hci
  end.

Lemma send_create_items (s : store) (u : id) (b : send_body) :
  items (snd (send_create s u b)) = items s.
Proof.
  unfold send_create.
  destruct (insertMessageSchema_parse _ _ _ _ _ _ _); [create_items | reflexivity].
Qed.

Lemma post_messages_items (s : store) (u : id) (b : send_body) :
  items (snd (post_messages s u b)) = items s.
Proof.
  unfold post_messages.
  destruct (getItemById _ _); [| reflexivity]. destruct (getUserById _ _); [| reflexivity].
  destruct (N.eqb _ _); [apply send_create_items |]. destruct (N.eqb _ _); [| reflexivity].
  destruct (negb _); [reflexivity | apply send_create_items].
Qed.

Lemma post_messages_upload_items (s : store) (u : id) (f : option uploaded_file)
  (b : upload_body) :
  items (snd (post_messages_upload s u f b)) = items s.
Proof.
  unfold post_messages_upload.
  destruct f; [| reflexivity]. destruct (up_itemId b); [| reflexivity].
  destruct (up_receiverId b); [| reflexivity].
  destruct (getItemById _ _); [| reflexivity]. destruct (getUserById _ _); [| reflexivity].
  destruct (_ && _); [reflexivity | create_items].
Qed.

Lemma post_items_frame (s : store) (u : id) (b : item_body) :
  sold_frame (CreateItem b) s (snd (post_items s u b)).
Proof.
  unfold post_items.
  destruct (insertItemSchema_parse u b) as [ni |]; [| now apply sold_frame_same].
  destruct (createItem s ni) as [[it s'] |] eqn:Hc; [| now apply sold_frame_same].
  unfold createItem, gen_id in Hc. simpl in Hc.
  destruct (match ni_price ni with
            | Some str => option_map Some (pg_numeric_10_2 str)
            | None => Some None end) as [p |]; [| discriminate].
  inversion Hc; subst. clear Hc.
  intros i it'. unfold getItemById. simpl. rewrite find_app_item.
  destruct (find _ (items s)) as [x |].
  - intros [= <-]. now left.
  - destruct (N.eqb _ i); [intros [= <-]; reflexivity | discriminate].
Qed.

Lemma put_item_frame (s : store) (u i : id) (b : item_body) :
  sold_frame (UpdateItem i b) s (snd (put_item s u i b)).
Proof.
  unfold put_item.
  destruct (getItemById s i); [| now apply sold_frame_same].
  destruct (negb _); [now apply sold_frame_same |].
  unfold updateItem.
  destruct (all_undefined b); [now apply sold_frame_same |].
  destruct (update_rows i b (items s)) as [l |] eqn:Hu; [| now apply sold_frame_same].
  simpl. intros j it'. unfold getItemById. simpl.
  pose proof (find_rel _ _ j (update_rows_rel _ _ _ _ Hu)) as Hf.
  destruct (find _ (items s)), (find _ l); try contradiction; try discriminate.
  intros [= <-]. now left.
Qed.

Lemma delete_item_frame (s : store) (u i : id) :
  sold_frame (DeleteItem i) s (snd (delete_item s u i)).
Proof.
  unfold delete_item.
  destruct (getItemById s i); [| now apply sold_frame_same].
  destruct (negb _); [now apply sold_frame_same |].
  unfold deleteItem.
  destruct (existsb _ _); [now apply sold_frame_same |].
  simpl. intros j it'. unfold getItemById. simpl. rewrite find_filter_item.
  destruct (N.eqb j i); [discriminate |].
  intros ->. now left.
Qed.

Lemma checkout_frame (f : nat -> bool) (s : store) (u : id) :
  sold_frame Checkout s (snd (post_checkout f s u)).
Proof.
  unfold post_checkout.
  destruct (checkout f s u) as [[e | o] s'] eqn:Hc.
  - replace s' with s by (pose proof (checkout_rollback f s u e) as H;
                          rewrite Hc in H; symmetry; now apply H).
    now apply sold_frame_same.
  - destruct (checkout_ok f s u o s' Hc) as (_ & _ & _ & _ & _ & Hitems & _).
    simpl. intros i it'. unfold getItemById. rewrite Hitems.
    destruct (find_mark_rows (filter is_valid_row (cart_rows s u)) (items s) i) as [H1 H2].
    intros Hx'. destruct (H2 it' Hx') as (x & Hx & Hmono). rewrite Hx.
    destruct (isSold x), (isSold it'); try (left; reflexivity).
    + discriminate (Hmono eq_refl).
    + right. auto.
Qed.

(** Claim C6: no write route other than [POST /api/checkout] changes an
    item's [isSold] flag, a newly created item starts unsold, and checkout
    only ever raises the flag from [false] to [true], never back. Hence,
    along any sequence of requests, an item is marked sold at most once,
    always by a checkout, and stays sold. *)
Theorem sold_only_by_checkout (f : nat -> bool) (s : store) (u : id) (r : request) :
  forall i it', getItemById (snd (handle f s u r)) i = Some it' ->
  match getItemById s i with
  | Some it => sold_step r (isSold it) (isSold it')
  | None => isSold it' = false
  end.
Proof.
  destruct r as [b | i b | i | b | fl b | oi | i | oi | i |]; simpl.
  - apply post_items_frame.
  - apply put_item_frame.
  - apply delete_item_frame.
  - apply sold_frame_same, post_messages_items.
  - apply sold_frame_same, post_messages_upload_items.
  - apply sold_frame_same. unfold post_cart.
    destruct oi as [j |]; [destruct (getItemById s j) |];
      unfold addToCart, gen_id; reflexivity.
  - apply sold_frame_same. reflexivity.
  - apply sold_frame_same. unfold post_wishlist.
    destruct oi as [j |]; [destruct (getItemById s j) |];
      unfold addToWishlist, gen_id; reflexivity.
  - apply sold_frame_same. reflexivity.
  - apply checkout_frame.
Qed.

(** Item 20 of [scenario] goes from unsold to sold in user 2's checkout. *)
Lemma sold_only_by_checkout_witness :
  getItemById (snd (handle no_fault scenario 2 Checkout)) 20 =
    Some (mkItem 20 1 "Desk lamp" "Barely used" "Furniture" "/img/lamp.jpg"
                 "sell" None (Some (PgNum 1500)) true) /\
  sold_step Checkout false true.
Proof.
  split; [vm_compute; reflexivity |].
  exact (sold_only_by_checkout no_fault scenario 2 Checkout 20
           (mkItem 20 1 "Desk lamp" "Barely used" "Furniture" "/img/lamp.jpg"
                   "sell" None (Some (PgNum 1500)) true)
           ltac:(vm_compute; reflexivity)).
Defined.

(** ** Item creation and the item type *)


(** ** The order total *)

(** A row the loop can write: an item with a price. *)
Definition priced_row (row : cart_item * option item) : Prop :=
  exists it, snd row = Some it /\ price it <> None.

Lemma order_lines_success (oid : id) (rows : list (cart_item * option item)) :
  Forall priced_row rows ->
  forall s n, exists s' n', order_lines no_fault oid rows s n = inr (tt, s', n').
Proof.
  induction 1 as [| [c r] rows [it [Hr Hp]] _ IH]; intros s n; simpl in *.
  - now exists s, n.
  - subst r. unfold tx_bind, insert_order_item, tx_write, no_fault at 1. simpl.
    destruct (price it) as [p |]; [| congruence].
    destruct (gen_id s) as [nid s1].
    unfold set_sold, tx_write. simpl. apply IH.
Qed.

(** With no failing write, a cart with a valid row whose every valid row
    has a price, and a total the column can hold, checks out. *)
Lemma checkout_succeeds (s : store) (u : id) :
  filter is_valid_row (cart_rows s u) <> [] ->
  Forall priced_row (filter is_valid_row (cart_rows s u)) ->
  numeric_10_2_of_float (checkout_total (filter is_valid_row (cart_rows s u))) <> None ->
  exists o s', checkout no_fault s u = (inr o, s').
Proof.
  intros Hv Hp Ht.
  unfold checkout, db_transaction, checkout_tx, tx_bind, tx_read. cbv zeta.
  destruct (Nat.eqb (List.length (cart_rows s u)) 0) eqn:Hl.
  { apply length_zero_iff in Hl. rewrite Hl in Hv. contradiction. }
  destruct (Nat.eqb (List.length (filter is_valid_row (cart_rows s u))) 0) eqn:Hl'.
  { apply length_zero_iff in Hl'. contradiction. }
  unfold insert_order, tx_write, no_fault at 1.
  destruct (numeric_10_2_of_float _) as [t |]; [| congruence].
  destruct (gen_id s) as [oid s1].
  destruct (order_lines_success oid _ Hp (set_orders s1 (orders s1 ++ [mkOrder oid u t])) 1)
    as (s2 & n2 & Hol).
  simpl. rewrite Hol. unfold delete_cart, tx_write, tx_ret. simpl.
  eexists; eexists; reflexivity.
Qed.

Lemma line_of_orderId (oid : id) rows (new : list order_item) :
  Forall2 (line_of oid) rows new ->
  filter (fun oi => N.eqb (orderId oi) oid) new = new.
Proof.
  induction 1 as [| row oi rows new (it & _ & Ho & _) _ IH]; simpl; [reflexivity |].
  rewrite Ho, N.eqb_refl, IH. reflexivity.
Qed.

(** The sum of a row's price, in cents, as the lines record it. *)
Lemma line_of_total (oid : id) rows (new : list order_item) :
  Forall2 (line_of oid) rows new ->
  forall acc, fold_left (fun acc oi => match acc, oi_price oi with
                                       | Some a, PgNum c => Some (a + c)
                                       | _, _ => None
                                       end) new acc =
    fold_left (fun acc row => match acc, snd row with
                              | Some a, Some it => match price it with
                                                   | Some (PgNum c) => Some (a + c)
                                                   | _ => None
                                                   end
                              | _, _ => None
                              end) rows acc.
Proof.
  induction 1 as [| row oi rows new (it & Hr & _ & _ & Hp) _ IH]; intros acc;
    simpl; [reflexivity |].
  rewrite IH, Hr, Hp. destruct acc; reflexivity.
Qed.

Lemma line_of_float_total (oid : id) rows (new : list order_item) :
  Forall2 (line_of oid) rows new ->
  forall acc, fold_left (fun acc oi => PrimFloat.add acc (parseFloat_numeric (oi_price oi))) new acc =
              fold_left (fun sum row => PrimFloat.add sum (row_price row)) rows acc.
Proof.
  induction 1 as [| row oi rows new (it & Hr & _ & _ & Hp) _ IH]; intros acc;
    simpl; [reflexivity |].
  rewrite IH. unfold row_price. rewrite Hr, Hp. reflexivity.
Qed.

(** C2 fails: after user 2's checkout of [bulk_cart] the order's lines add
    up to 6716136400 cents (67161364.00) while its [total] is
    6716136399 cents (67161363.99): the binary64 running sum drifts by
    more than half a cent, [total.toString()] is "67161363.99463558", and
    [numeric(10,2)] rounds that to 67161363.99. *)
Lemma checkout_total_drifts :
  exists o s', checkout no_fault bulk_cart 2 = (inr o, s') /\
    total o = PgNum 6716136399 /\
    lines_total (filter (fun oi => N.eqb (orderId oi) (order_id o)) (orderItems s')) =
      Some 6716136400.
Proof.
  assert (Hvalid : forall row, In row (filter is_valid_row (cart_rows bulk_cart 2)) ->
                   priced_row row).
  { intros [c r] Hin. apply filter_In in Hin as [Hin _].
    unfold cart_rows in Hin. apply in_map_iff in Hin as (c' & [= <- Hr] & Hc).
    change (cartItems bulk_cart) with
      (mkCartItem 1000 2 80 :: cart_run (N.to_nat 750000) 1001 2 81) in Hc.
    apply filter_In in Hc as [Hc _].
    destruct Hc as [<- | Hc].
    - exists (sell_item 80 1 6710886400). split; [| discriminate].
      rewrite <- Hr. reflexivity.
    - assert (Hi : cart_itemId c' = 81%N).
      { revert Hc. generalize 1001%N. generalize (N.to_nat 750000).
        induction n as [| n IHn]; intros k Hc; simpl in Hc; [contradiction |].
        destruct Hc as [<- | Hc]; [reflexivity | exact (IHn _ Hc)]. }
      exists (sell_item 81 1 7). split; [| discriminate].
      rewrite <- Hr, Hi. reflexivity. }
  assert (Ht : numeric_10_2_of_float (checkout_total (filter is_valid_row (cart_rows bulk_cart 2)))
               = Some (PgNum 6716136399)) by (vm_compute; reflexivity).
  destruct (checkout_succeeds bulk_cart 2) as (o & s' & Hc).
  - intros Hnil. rewrite Hnil in Ht. vm_compute in Ht. congruence.
  - apply Forall_forall. exact Hvalid.
  - rewrite Ht. discriminate.
  - exists o, s'. split; [exact Hc |].
    destruct (checkout_ok no_fault bulk_cart 2 o s' Hc)
      as (_ & Htot & _ & _ & (new & Hoi & Hlines) & _).
    split; [congruence |].
    rewrite Hoi. change (orderItems bulk_cart) with (@nil order_item).
    rewrite app_nil_l, (line_of_orderId _ _ _ Hlines).
    unfold lines_total. rewrite (line_of_total _ _ _ Hlines).
    vm_compute. reflexivity.
Qed.

(** C2, amended: a committed checkout adds the order's lines, one per
    valid cart row with the item's price, and the order's [total] is the
    binary64 sum of those prices ([parseFloat] of each, added in cart
    order from 0), printed by [toString] (the shortest decimal that reads
    back as that double) and rounded half away from zero to cents by
    [numeric(10,2)]. It is not the exact decimal sum of the lines in
    general ([checkout_total_drifts]); for "10.50" and "20.25" it is
    "30.75". *)
Theorem checkout_total_float_sum (f : nat -> bool) (s : store) (u : id) (o : order)
  (s' : store) :
  checkout f s u = (inr o, s') ->
  exists new, orderItems s' = orderItems s ++ new /\
    Forall (fun oi => orderId oi = order_id o) new /\
    Some (total o) = numeric_10_2_of_float (lines_float_total new).
Proof.
  intros Hc.
  destruct (checkout_ok f s u o s' Hc) as (_ & Htot & _ & _ & (new & Hoi & Hlines) & _).
  exists new. split; [exact Hoi | split].
  - clear Hoi Htot. induction Hlines as [| row oi rows new (it & _ & Ho & _) _ IH];
      constructor; assumption.
  - rewrite Htot. unfold lines_float_total, checkout_total.
    rewrite (line_of_float_total _ _ _ Hlines). reflexivity.
Qed.

Lemma checkout_total_float_sum_witness :
  checkout no_fault pair_cart 2 =
    (inr (mkOrder 100 2 (PgNum 3075)), snd (checkout no_fault pair_cart 2)) /\
  exists new, orderItems (snd (checkout no_fault pair_cart 2)) = orderItems pair_cart ++ new /\
    Forall (fun oi => orderId oi = order_id (mkOrder 100 2 (PgNum 3075))) new /\
    Some (total (mkOrder 100 2 (PgNum 3075))) = numeric_10_2_of_float (lines_float_total new).
Proof.
  split; [vm_compute; reflexivity |].
  exact (checkout_total_float_sum no_fault pair_cart 2 (mkOrder 100 2 (PgNum 3075))
           (snd (checkout no_fault pair_cart 2)) ltac:(vm_compute; reflexivity)).
Defined.

(** * Further properties of the routes *)

(** ** Cart and wishlist rows *)

Lemma filter_In_neg {A} (p : A -> bool) (l : list A) (x : A) :
  In x (filter (fun y => negb (p y)) l) <-> In x l /\ p x = false.
Proof.
  rewrite filter_In. destruct (p x); simpl; intuition congruence.
Qed.

(** Extra X1: [DELETE /api/cart/:itemId] always answers 204, also when
    the item was not in the cart; afterwards the user has no cart row for
    the item, every other row (of any user) is kept, and no other table
    changes. *)
Theorem remove_cart_rows (f : nat -> bool) (s : store) (u i : id) :
  let (r, s') := handle f s u (RemoveCart i) in
  r = No_content /\
  (forall c, In c (cartItems s') <->
             In c (cartItems s) /\ ~ (cart_userId c = u /\ cart_itemId c = i)) /\
  items s' = items s /\ messages s' = messages s /\
  wishlistItems s' = wishlistItems s /\ orders s' = orders s /\
  orderItems s' = orderItems s /\ users s' = users s.
Proof.
  simpl. split; [reflexivity |]. split; [| repeat split].
  intros c. unfold removeFromCart. simpl. rewrite filter_In_neg.
  destruct (N.eqb (cart_userId c) u) eqn:E1, (N.eqb (cart_itemId c) i) eqn:E2;
    rewrite ?N.eqb_eq, ?N.eqb_neq in *; simpl; intuition congruence.
Qed.

(** Extra X2: the same for [DELETE /api/wishlist/:itemId]. *)
Theorem remove_wishlist_rows (f : nat -> bool) (s : store) (u i : id) :
  let (r, s') := handle f s u (RemoveWishlist i) in
  r = No_content /\
  (forall w, In w (wishlistItems s') <->
             In w (wishlistItems s) /\ ~ (wl_userId w = u /\ wl_itemId w = i)) /\
  items s' = items s /\ messages s' = messages s /\
  cartItems s' = cartItems s /\ orders s' = orders s /\
  orderItems s' = orderItems s /\ users s' = users s.
Proof.
  simpl. split; [reflexivity |]. split; [| repeat split].
  intros w. unfold removeFromWishlist. simpl. rewrite filter_In_neg.
  destruct (N.eqb (wl_userId w) u) eqn:E1, (N.eqb (wl_itemId w) i) eqn:E2;
    rewrite ?N.eqb_eq, ?N.eqb_neq in *; simpl; intuition congruence.
Qed.

(** Extra X3: [POST /api/cart] and [POST /api/wishlist] accept any
    existing item, whether sold, offered for barter, the user's own or
    already in the list, and append exactly one new row for it. *)
Theorem add_entry_unchecked (f : nat -> bool) (s : store) (u i : id) (it : item) :
  getItemById s i = Some it ->
  handle f s u (AddCart (Some i)) =
    (Created_entry, set_cartItems (snd (gen_id s))
                      (cartItems s ++ [mkCartItem (next_id s) u i])) /\
  handle f s u (AddWishlist (Some i)) =
    (Created_entry, set_wishlistItems (snd (gen_id s))
                      (wishlistItems s ++ [mkWishlistItem (next_id s) u i])).
Proof.
  intros H. simpl. unfold post_cart, post_wishlist. rewrite H. split; reflexivity.
Qed.

(** ** Deleting and updating items *)

Lemma existsb_oi_false (l : list order_item) (i : id) :
  existsb (fun oi => N.eqb (oi_itemId oi) i) l = false <->
  (forall oi, In oi l -> oi_itemId oi <> i).
Proof.
  rewrite <- Bool.not_true_iff_false, existsb_exists.
  split.
  - intros H oi Hin Heq. apply H. exists oi. split; [exact Hin |]. now apply N.eqb_eq.
  - intros H [oi [Hin Heq]]. apply N.eqb_eq in Heq. exact (H oi Hin Heq).
Qed.

(** Extra X4: [DELETE /api/items/:id] succeeds (204) exactly when the item
    exists, belongs to the caller and no order line refers to it; a sold
    item that was checked out can never be deleted. A refused request
    leaves the store unchanged. *)
Theorem delete_item_succeeds_iff (s : store) (u i : id) :
  (status (fst (delete_item s u i)) = 204 <->
   exists it, getItemById s i = Some it /\ item_userId it = u /\
              forall oi, In oi (orderItems s) -> oi_itemId oi <> i) /\
  (status (fst (delete_item s u i)) <> 204 -> snd (delete_item s u i) = s).
Proof.
  unfold delete_item, deleteItem.
  destruct (getItemById s i) as [it |] eqn:Hg.
  2:{ simpl. split; [split; [discriminate | intros (it & H & _); discriminate] | auto]. }
  destruct (N.eqb (item_userId it) u) eqn:Eu; simpl.
  2:{ split; [split; [discriminate |] | auto].
      intros (it' & [= <-] & Hu & _). apply N.eqb_neq in Eu. contradiction. }
  destruct (existsb _ (orderItems s)) eqn:Eo; simpl.
  - split; [split; [discriminate |] | auto].
    intros (it' & [= <-] & _ & Ho).
    rewrite (proj2 (existsb_oi_false _ _) Ho) in Eo. discriminate.
  - split; [split; [intros _ | reflexivity] | intros H; contradiction H; reflexivity].
    exists it. split; [reflexivity |]. split; [now apply N.eqb_eq |].
    now apply existsb_oi_false.
Qed.

(** Extra X5: a successful [DELETE /api/items/:id] removes the item with
    every message, cart row and wishlist row that refers to it (the
    [onDelete: 'cascade'] references), keeps every other row, and leaves
    users, orders and order lines as they were. *)
Theorem delete_item_cascade (s : store) (u i : id) (s' : store) :
  delete_item s u i = (No_content, s') ->
  getItemById s' i = None /\
  (forall it, In it (items s') <-> In it (items s) /\ item_id it <> i) /\
  (forall m, In m (messages s') <-> In m (messages s) /\ msg_itemId m <> i) /\
  (forall c, In c (cartItems s') <-> In c (cartItems s) /\ cart_itemId c <> i) /\
  (forall w, In w (wishlistItems s') <-> In w (wishlistItems s) /\ wl_itemId w <> i) /\
  users s' = users s /\ orders s' = orders s /\ orderItems s' = orderItems s.
Proof.
  unfold delete_item, deleteItem.
  destruct (getItemById s i); [| discriminate].
  destruct (negb _); [discriminate |].
  destruct (existsb _ _); [discriminate |].
  intros [= <-]. simpl.
  split; [unfold getItemById; simpl; rewrite find_filter_item, N.eqb_refl; reflexivity |].
  refine (conj _ (conj _ (conj _ (conj _ (conj eq_refl (conj eq_refl eq_refl)))))).
  all: intros x; rewrite filter_In_neg, N.eqb_neq; tauto.
Qed.






Lemma apply_update_owner (b : item_body) (it it' : item) :
  apply_update b it = Some it' -> item_userId it' = item_userId it.
Proof.
  unfold apply_update.
  destruct (col_text (ib_title b) (title it)), (col_text (ib_description b) (description it)),
    (col_text (ib_category b) (category it)), (col_text (ib_imageUrl b) (imageUrl it)),
    (col_text (ib_itemType b) (itemType it)),
    (col_opt_text (ib_expectedExchange b) (expectedExchange it)),
    (col_price (ib_price b) (price it)); intros H; try discriminate.
  inversion H. reflexivity.
Qed.

Lemma update_rows_none (i : id) (b : item_body) (l : list item) :
  update_rows i b l = None <->
  exists x, In x l /\ item_id x = i /\ apply_update b x = None.
Proof.
  induction l as [| x l IH]; simpl.
  - split; [discriminate | intros (x & [] & _)].
  - destruct (update_rows i b l) as [r |] eqn:Hr.
    + destruct (N.eqb (item_id x) i) eqn:Ex.
      * destruct (apply_update b x) as [x' |] eqn:Ha.
        -- split; [discriminate |]. intros (y & [<- | Hy] & Hid & Hn); [congruence |].
           assert (Some r = None) by (apply IH; eauto). discriminate.
        -- split; [intros _ | reflexivity]. exists x. apply N.eqb_eq in Ex. auto.
      * split; [discriminate |]. intros (y & [<- | Hy] & Hid & Hn).
        -- apply N.eqb_neq in Ex. contradiction.
        -- assert (Some r = None) by (apply IH; eauto). discriminate.
    + split; [intros _ | reflexivity].
      destruct (proj1 IH eq_refl) as (y & Hy & Hid & Hn). eauto.
Qed.

Lemma update_rows_find (i : id) (b : item_body) (l : list item) :
  forall l', update_rows i b l = Some l' ->
  forall j, find (fun it => N.eqb (item_id it) j) l' =
            if N.eqb j i then
              match find (fun it => N.eqb (item_id it) i) l with
              | Some x => apply_update b x
              | None => None
              end
            else find (fun it => N.eqb (item_id it) j) l.
Proof.
  induction l as [| x l IH]; intros l' H j; simpl in H.
  - inversion H; subst. simpl. now destruct (N.eqb j i).
  - destruct (update_rows i b l) as [r |] eqn:Hr; [| discriminate].
    specialize (IH r eq_refl j).
    destruct (N.eqb (item_id x) i) eqn:Ex.
    + destruct (apply_update b x) as [x' |] eqn:Ha; [| discriminate].
      inversion H; subst l'. clear H.
      destruct (apply_update_rel _ _ _ Ha) as [Hid _].
      apply N.eqb_eq in Ex. simpl. rewrite <- Hid, Ex, N.eqb_refl.
      destruct (N.eqb_spec i j) as [<- | Hne].
      * rewrite N.eqb_refl. symmetry. exact Ha.
      * rewrite IH, (proj2 (N.eqb_neq j i)) by congruence. reflexivity.
    + inversion H; subst l'. clear H. simpl. rewrite Ex.
      destruct (N.eqb_spec (item_id x) j) as [<- | Hne].
      * rewrite Ex. reflexivity.
      * rewrite IH. destruct (N.eqb j i); reflexivity.
Qed.

(** Extra X6: a successful [PUT /api/items/:id] (200) came from the
    item's owner and returns the updated row, which keeps the item's id,
    owner and [isSold] flag; every other item, and every other table, is
    unchanged. *)
Theorem put_item_keeps (s : store) (u i : id) (b : item_body) (r : option item)
  (s' : store) :
  put_item s u i b = (Ok_item r, s') ->
  exists it it', getItemById s i = Some it /\ item_userId it = u /\
    r = Some it' /\ getItemById s' i = Some it' /\
    item_id it' = i /\ item_userId it' = u /\ isSold it' = isSold it /\
    (forall j, j <> i -> getItemById s' j = getItemById s j) /\
    s' = set_items s (items s').
Proof.
  unfold put_item.
  destruct (getItemById s i) as [it |] eqn:Hg; [| discriminate].
  destruct (N.eqb (item_userId it) u) eqn:Eu; simpl; [| discriminate].
  unfold updateItem.
  destruct (all_undefined b); [discriminate |].
  destruct (update_rows i b (items s)) as [l |] eqn:Hu; [| discriminate].
  intros [= <- <-].
  pose proof (update_rows_find _ _ _ _ Hu) as Hf.
  unfold getItemById in *. simpl. rewrite (Hf i), N.eqb_refl, Hg.
  destruct (apply_update b it) as [it' |] eqn:Ha.
  - destruct (apply_update_rel _ _ _ Ha) as [Hid Hs].
    assert (Hid' : item_id it = i) by (apply find_some in Hg as [_ Hg]; now apply N.eqb_eq).
    exists it, it'.
    assert (Hown := apply_update_owner _ _ _ Ha).
    apply N.eqb_eq in Eu.
    repeat split; try congruence.
    intros j Hj. rewrite (Hf j). apply N.eqb_neq in Hj. now rewrite Hj.
  - exfalso. assert (Hn : update_rows i b (items s) = None).
    { apply update_rows_none. exists it. apply find_some in Hg as [Hin Hid].
      apply N.eqb_eq in Hid. auto. }
    congruence.
Qed.


(** ** Successive checkouts *)

Lemma Forall2_in_right {A B} (R : A -> B -> Prop) (l1 : list A) (l2 : list B) (y : B) :
  Forall2 R l1 l2 -> In y l2 -> exists x, In x l1 /\ R x y.
Proof.
  intros H. induction H as [| a b k1 k2 Hab _ IH]; intros Hy; [destruct Hy |].
  destruct Hy as [Hb | Hy].
  - subst b. exists a. split; [left |]; auto.
  - destruct (IH Hy) as [x [Hx Hr]]. exists x. split; [right |]; auto.
Qed.

(** The order line [oi] of a committed checkout comes from a valid row. *)
Lemma checkout_line_row (f : nat -> bool) (s : store) (u : id) (o : order) (s' : store)
  (new : list order_item) (oi : order_item) :
  Forall2 (line_of (order_id o)) (filter is_valid_row (cart_rows s u)) new ->
  In oi new ->
  exists c it, In (c, Some it) (filter is_valid_row (cart_rows s u)) /\
               oi_itemId oi = item_id it.
Proof.
  intros Hl Hin. destruct (Forall2_in_right _ _ _ _ Hl Hin) as ([c r] & Hr & (it & Hs & _ & Hid & _)).
  simpl in Hs. subst r. eauto.
Qed.

(** Extra X8: right after a committed checkout, the same user's next
    checkout fails with "Cart is empty", whatever the write faults. *)
Theorem checkout_twice_empty (f g : nat -> bool) (s : store) (u : id) (o : order)
  (s' : store) :
  checkout f s u = (inr o, s') ->
  fst (checkout g s' u) = inl (TxThrow "Cart is empty").
Proof.
  intros Hc. destruct (checkout_ok f s u o s' Hc) as (_ & _ & _ & _ & _ & _ & Hcart & _).
  apply (proj1 (checkout_outcome g s' u)).
  apply cart_rows_nil. rewrite Hcart. clear Hcart Hc.
  induction (cartItems s) as [| c l IH]; simpl; [reflexivity |].
  destruct (N.eqb (cart_userId c) u) eqn:E; simpl; [exact IH |].
  rewrite E. exact IH.
Qed.

(** Extra X9: two successive committed checkouts, by the same user or
    by different users, never put the same item in an order: every item
    the first one orders is marked sold, and the second one skips sold
    items. *)
Theorem checkout_no_double_sale (f g : nat -> bool) (s : store) (u v : id)
  (o o' : order) (s' s'' : store) :
  checkout f s u = (inr o, s') -> checkout g s' v = (inr o', s'') ->
  exists new new', orderItems s' = orderItems s ++ new /\
    orderItems s'' = orderItems s' ++ new' /\
    forall oi oi', In oi new -> In oi' new' -> oi_itemId oi <> oi_itemId oi'.
Proof.
  intros H1 H2.
  destruct (checkout_ok f s u o s' H1) as (_ & _ & _ & _ & (new & Hn & Hl) & _).
  destruct (checkout_ok g s' v o' s'' H2) as (_ & _ & _ & _ & (new' & Hn' & Hl') & _).
  exists new, new'. split; [exact Hn | split; [exact Hn' |]].
  intros oi oi' Hin Hin' Heq.
  destruct (checkout_line_row f s u o s' new oi Hl Hin) as (c & it & Hrow & Hid).
  destruct (checkout_line_row g s' v o' s'' new' oi' Hl' Hin') as (c' & it2 & Hrow' & Hid').
  destruct (checkout_marks_sold f s u o s' c it H1 Hrow) as (it1 & Hget1 & Hsold).
  apply filter_In in Hrow' as [Hrow' Hvalid]. unfold is_valid_row in Hvalid. simpl in Hvalid.
  apply cart_rows_in in Hrow' as (_ & _ & Hget2).
  rewrite <- (getItemById_id _ _ _ Hget2) in Hget2.
  rewrite <- Hid', <- Heq, Hid, Hget1 in Hget2. injection Hget2 as ->.
  rewrite Hsold in Hvalid. rewrite andb_false_r in Hvalid. discriminate.
Qed.

Lemma lines_count (oid i : id) rows (new : list order_item) :
  Forall2 (line_of oid) rows new ->
  List.length (filter (fun oi => N.eqb (oi_itemId oi) i) new) =
  List.length (filter (fun row => match snd row with
                                  | Some it => N.eqb (item_id it) i
                                  | None => false end) rows).
Proof.
  induction 1 as [| row oi rows new (it & Hr & _ & Hid & _) _ IH]; simpl; [reflexivity |].
  rewrite Hr, Hid. destruct (N.eqb (item_id it) i); simpl; congruence.
Qed.

Lemma valid_rows_count (s : store) (u i : id) (it : item) (l : list cart_item) :
  getItemById s i = Some it -> itemType it = "sell"%string -> isSold it = false ->
  List.length (filter (fun row => match snd row with
                                  | Some it => N.eqb (item_id it) i
                                  | None => false end)
                 (filter is_valid_row
                    (map (fun c => (c, getItemById s (cart_itemId c)))
                         (filter (fun c => N.eqb (cart_userId c) u) l)))) =
  List.length (filter (fun c => N.eqb (cart_userId c) u && N.eqb (cart_itemId c) i) l).
Proof.
  intros Hg Ht Hs.
  induction l as [| c l IH]; simpl; [reflexivity |].
  destruct (N.eqb (cart_userId c) u); simpl; [| exact IH].
  destruct (N.eqb_spec (cart_itemId c) i) as [Hi | Hi].
  - rewrite Hi, Hg. unfold is_valid_row at 1. simpl. rewrite Ht, Hs. simpl.
    rewrite (getItemById_id _ _ _ Hg), N.eqb_refl. simpl. now rewrite IH.
  - destruct (getItemById s (cart_itemId c)) as [it' |] eqn:Hg'.
    + assert (Hid := getItemById_id _ _ _ Hg').
      unfold is_valid_row at 1. simpl.
      destruct (String.eqb (itemType it') "sell" && negb (isSold it')); simpl; [| exact IH].
      rewrite Hid. apply N.eqb_neq in Hi. rewrite Hi. exact IH.
    + exact IH.
Qed.

(** Extra X10: when an unsold item for sale sits in the user's cart [n]
    times (the cart accepts duplicates), a committed checkout creates [n]
    order lines for it, each at the item's full price. *)
Theorem checkout_counts_cart_rows (f : nat -> bool) (s : store) (u : id) (o : order)
  (s' : store) (i : id) (it : item) :
  checkout f s u = (inr o, s') ->
  getItemById s i = Some it -> itemType it = "sell"%string -> isSold it = false ->
  exists new, orderItems s' = orderItems s ++ new /\
    Forall (fun oi => oi_itemId oi = i -> price it = Some (oi_price oi)) new /\
    List.length (filter (fun oi => N.eqb (oi_itemId oi) i) new) =
    List.length (filter (fun c => N.eqb (cart_userId c) u && N.eqb (cart_itemId c) i)
                        (cartItems s)).
Proof.
  intros Hc Hg Ht Hs.
  destruct (checkout_ok f s u o s' Hc) as (_ & _ & _ & _ & (new & Hn & Hl) & _).
  exists new. split; [exact Hn | split].
  - apply Forall_forall. intros oi Hin Hi.
    destruct (Forall2_in_right _ _ _ _ Hl Hin) as ([c r] & Hrow & (it' & Hr & _ & Hid & Hp)).
    simpl in Hr. subst r.
    apply filter_In in Hrow as [Hrow _]. apply cart_rows_in in Hrow as (_ & _ & Hget).
    rewrite <- (getItemById_id _ _ _ Hget), <- Hid, Hi, Hg in Hget.
    injection Hget as <-. exact Hp.
  - rewrite (lines_count _ _ _ _ Hl). unfold cart_rows.
    exact (valid_rows_count s u i it (cartItems s) Hg Ht Hs).
Qed.

(** ** Order lines refer to sold items *)

Lemma ordered_items_sold_spec (s : store) :
  ordered_items_sold s = true <->
  forall oi, In oi (orderItems s) ->
  exists it, getItemById s (oi_itemId oi) = Some it /\ isSold it = true.
Proof.
  unfold ordered_items_sold. rewrite forallb_forall.
  split; intros H oi Hin; specialize (H oi Hin).
  - destruct (getItemById s (oi_itemId oi)); [eauto | discriminate].
  - destruct H as (it & -> & Hs). exact Hs.
Qed.

(** A step that keeps the order lines and every sold item that exists. *)
Lemma ordered_items_sold_keep (s s' : store) :
  orderItems s' = orderItems s ->
  (forall i it, getItemById s i = Some it -> isSold it = true ->
   (exists oi, In oi (orderItems s) /\ oi_itemId oi = i) ->
   exists it', getItemById s' i = Some it' /\ isSold it' = true) ->
  ordered_items_sold s = true -> ordered_items_sold s' = true.
Proof.
  intros Ho Hk Hs. rewrite ordered_items_sold_spec in *. rewrite Ho.
  intros oi Hin. destruct (Hs oi Hin) as (it & Hg & Hsold). eauto.
Qed.

Lemma ordered_items_sold_same (s s' : store) :
  orderItems s' = orderItems s -> items s' = items s ->
  ordered_items_sold s = true -> ordered_items_sold s' = true.
Proof.
  intros Ho Hi. apply ordered_items_sold_keep; [exact Ho |].
  intros i it Hg Hs _. exists it. unfold getItemById in *. rewrite Hi. auto.
Qed.

Lemma createMessage_orderItems (s : store) (a b c : id) (d e f g : option string) :
  orderItems (snd (createMessage s a b c d e f g)) = orderItems s.
Proof. reflexivity. Qed.

Ltac create_orderItems :=
  lazymatch goal with
  | |- context [createMessage ?a ?b ?c ?d ?e ?f ?g ?h] =>
      let Hco := fresh "Hco" in
      pose proof (createMessage_orderItems a b c d e f g h) as Hco;
      destruct (createMessage a b c d e f g h); exact Hco
  end.

Lemma send_create_orderItems (s : store) (u : id) (b : send_body) :
  orderItems (snd (send_create s u b)) = orderItems s.
Proof.
  unfold send_create.
  destruct (insertMessageSchema_parse _ _ _ _ _ _ _); [create_orderItems | reflexivity].
Qed.

Lemma post_messages_orderItems (s : store) (u : id) (b : send_body) :
  orderItems (snd (post_messages s u b)) = orderItems s.
Proof.
  unfold post_messages.
  destruct (getItemById _ _); [| reflexivity]. destruct (getUserById _ _); [| reflexivity].
  destruct (N.eqb _ _); [apply send_create_orderItems |]. destruct (N.eqb _ _); [| reflexivity].
  destruct (negb _); [reflexivity | apply send_create_orderItems].
Qed.

Lemma post_messages_upload_orderItems (s : store) (u : id) (f : option uploaded_file)
  (b : upload_body) :
  orderItems (snd (post_messages_upload s u f b)) = orderItems s.
Proof.
  unfold post_messages_upload.
  destruct f; [| reflexivity]. destruct (up_itemId b); [| reflexivity].
  destruct (up_receiverId b); [| reflexivity].
  destruct (getItemById _ _); [| reflexivity]. destruct (getUserById _ _); [| reflexivity].
  destruct (_ && _); [reflexivity | create_orderItems].
Qed.

(** Extra X11: every request keeps the invariant that each order line
    refers to an existing item marked sold: checkout marks the items it
    orders, no route clears [isSold], and an item referenced by an order
    line cannot be deleted. *)
Theorem ordered_items_stay_sold (f : nat -> bool) (s : store) (u : id) (r : request) :
  ordered_items_sold s = true ->
  ordered_items_sold (snd (handle f s u r)) = true.
Proof.
  intros Hinv.
  destruct r as [b | i b | i | b | fl b | oi | i | oi | i |]; simpl.
  - (* POST /api/items *)
    unfold post_items.
    destruct (insertItemSchema_parse u b) as [ni |]; [| exact Hinv].
    destruct (createItem s ni) as [[it s'] |] eqn:Hc; [| exact Hinv].
    unfold createItem, gen_id in Hc. simpl in Hc.
    destruct (match ni_price ni with
              | Some str => option_map Some (pg_numeric_10_2 str)
              | None => Some None end) as [p |]; [| discriminate].
    inversion Hc; subst. clear Hc. simpl.
    revert Hinv. apply ordered_items_sold_keep; [reflexivity |].
    intros i it Hg Hs _. exists it. unfold getItemById in *. simpl.
    rewrite find_app_item, Hg. auto.
  - (* PUT /api/items/:id *)
    unfold put_item.
    destruct (getItemById s i); [| exact Hinv].
    destruct (negb _); [exact Hinv |].
    unfold updateItem. destruct (all_undefined b); [exact Hinv |].
    destruct (update_rows i b (items s)) as [l |] eqn:Hu; [| exact Hinv].
    simpl. revert Hinv. apply ordered_items_sold_keep; [reflexivity |].
    intros j it Hg Hs _. unfold getItemById in *. simpl.
    pose proof (find_rel _ _ j (update_rows_rel _ _ _ _ Hu)) as Hf. rewrite Hg in Hf.
    destruct (find _ l) as [it' |]; [| contradiction]. exists it'. split; congruence.
  - (* DELETE /api/items/:id *)
    unfold delete_item.
    destruct (getItemById s i); [| exact Hinv].
    destruct (negb _); [exact Hinv |].
    unfold deleteItem. destruct (existsb _ _) eqn:Eo; [exact Hinv |].
    simpl. revert Hinv. apply ordered_items_sold_keep; [reflexivity |].
    intros j it Hg Hs (oi & Hin & Hoi). unfold getItemById in *. simpl.
    rewrite find_filter_item.
    destruct (N.eqb_spec j i) as [-> | _]; [| eauto].
    exfalso. apply (proj1 (existsb_oi_false _ _) Eo oi Hin Hoi).
  - (* POST /api/messages *)
    apply (ordered_items_sold_same s); [apply post_messages_orderItems | apply post_messages_items |
                                    exact Hinv].
  - (* POST /api/messages/upload *)
    apply (ordered_items_sold_same s); [apply post_messages_upload_orderItems |
                                    apply post_messages_upload_items | exact Hinv].
  - (* POST /api/cart *)
    unfold post_cart. destruct oi as [j |]; [destruct (getItemById s j) |]; exact Hinv.
  - exact Hinv.
  - unfold post_wishlist. destruct oi as [j |]; [destruct (getItemById s j) |]; exact Hinv.
  - exact Hinv.
  - (* POST /api/checkout *)
    unfold post_checkout.
    destruct (checkout f s u) as [[e | o] s'] eqn:Hc.
    + pose proof (checkout_rollback f s u e) as H. rewrite Hc in H.
      simpl in H. rewrite (H eq_refl). exact Hinv.
    + simpl. destruct (checkout_ok f s u o s' Hc)
        as (_ & _ & _ & _ & (new & Hn & Hl) & Hitems & _).
      rewrite ordered_items_sold_spec in *. rewrite Hn.
      intros oi Hin. apply in_app_or in Hin as [Hin | Hin].
      * destruct (Hinv oi Hin) as (it & Hg & Hs).
        unfold getItemById in *. rewrite Hitems.
        destruct (find_mark_rows (filter is_valid_row (cart_rows s u)) (items s) (oi_itemId oi))
          as [H1 H2].
        destruct (find _ (mark_rows _ _)) as [x' |] eqn:Hx.
        -- destruct (H2 x' eq_refl) as (x & Hx0 & Hm). rewrite Hg in Hx0.
           injection Hx0 as <-. eauto.
        -- pose proof (proj1 H1 eq_refl). congruence.
      * destruct (checkout_line_row f s u o s' new oi Hl Hin) as (c & it & Hrow & Hid).
        rewrite Hid. exact (checkout_marks_sold f s u o s' c it Hc Hrow).
Qed.

(** ** Reading messages *)

(** What a successful [POST /api/messages] wrote. *)
Lemma post_messages_created (s : store) (u : id) (b : send_body) (m : message)
  (s' : store) :
  post_messages s u b = (Created_message m, s') ->
  messages s' = messages s ++ [m] /\ senderId m = u /\
  receiverId m = body_receiverId b /\ msg_itemId m = body_itemId b /\
  items s' = items s /\ users s' = users s /\
  getItemById s (body_itemId b) <> None /\ getUserById s (body_receiverId b) <> None.
Proof.
  assert (Hsc : send_create s u b = (Created_message m, s') ->
                messages s' = messages s ++ [m] /\ senderId m = u /\
                receiverId m = body_receiverId b /\ msg_itemId m = body_itemId b /\
                items s' = items s /\ users s' = users s).
  { unfold send_create, insertMessageSchema_parse.
    destruct (zod_opt_string (body_messageText b)) as [t |]; simpl; [| discriminate].
    destruct (present t); simpl; [| discriminate].
    intros [= <- <-]. simpl. repeat split; reflexivity. }
  unfold post_messages.
  destruct (getItemById _ _); [| discriminate]. destruct (getUserById _ _); [| discriminate].
  intros H.
  assert (Hc : send_create s u b = (Created_message m, s')).
  { destruct (N.eqb _ _); [exact H |]. destruct (N.eqb _ _); [| discriminate].
    destruct (negb _); [discriminate | exact H]. }
  apply Hsc in Hc. intuition discriminate.
Qed.

Lemma getUserMessages_in (s : store) (u : id) (m : message) :
  (exists su ru it, In (m, su, ru, it) (getUserMessages s u)) <->
  In m (messages s) /\ (senderId m = u \/ receiverId m = u).
Proof.
  unfold getUserMessages. split.
  - intros (su & ru & it & Hin). apply in_map_iff in Hin as (m' & [= <- _ _ _] & Hin).
    rewrite <- in_rev in Hin. apply filter_In in Hin as [Hin H].
    apply orb_true_iff in H as [H | H]; apply N.eqb_eq in H; auto.
  - intros [Hin H]. do 3 eexists. apply in_map_iff. eexists. split; [reflexivity |].
    rewrite <- in_rev. apply filter_In. split; [exact Hin |].
    destruct H as [H | H]; subst; rewrite N.eqb_refl; [reflexivity | apply orb_true_r].
Qed.

(** Extra X12: the message reads are private and complete.
    [GET /api/messages] lists exactly the messages the user sent or
    received. [GET /api/messages/:itemId] answers 404 for a missing item;
    otherwise it lists exactly the user's messages about the item, and it
    answers 403 only to a user who is not the item's owner and has no
    message about it. *)
Theorem message_reads_private (s : store) (u i : id) :
  (forall m, (exists su ru it, exists l, get_messages s u = GetOk l /\ In (m, su, ru, it) l) <->
             In m (messages s) /\ (senderId m = u \/ receiverId m = u)) /\
  match getItemById s i with
  | None => get_item_messages s u i = GetError 404 "Item not found"
  | Some it =>
      (forall ms, get_item_messages s u i = GetOk ms ->
       forall m, In m ms <->
                 In m (messages s) /\ msg_itemId m = i /\ (senderId m = u \/ receiverId m = u)) /\
      ((exists ms, get_item_messages s u i = GetOk ms) <->
       item_userId it = u \/
       exists m, In m (messages s) /\ msg_itemId m = i /\ (senderId m = u \/ receiverId m = u)) /\
      ((forall ms, get_item_messages s u i <> GetOk ms) ->
       get_item_messages s u i = GetError 403 "Not authorized to view these messages")
  end.
Proof.
  split.
  - intros m. rewrite <- getUserMessages_in. unfold get_messages. split.
    + intros (su & ru & it & l & [= <-] & Hin). eauto.
    + intros (su & ru & it & Hin). eauto 6.
  - unfold get_item_messages. destruct (getItemById s i) as [it |]; [| reflexivity].
    split; [| split].
    + intros ms Hms m.
      destruct (_ && _); [discriminate | injection Hms as <-].
      apply getMessagesByItemId_spec.
    + destruct (Nat.eqb (List.length (getMessagesByItemId s i u)) 0) eqn:Hl;
        destruct (N.eqb_spec (item_userId it) u) as [Hu | Hu]; simpl.
      * split; [auto | intros _; eauto].
      * apply length_zero_iff in Hl. split; [intros (ms & Hms); discriminate |].
        intros [H | (m & Hm)]; [contradiction |].
        apply getMessagesByItemId_spec in Hm. rewrite Hl in Hm. destruct Hm.
      * split; [auto | intros _; eauto].
      * split; [intros _; right | intros _; eauto].
        destruct (getMessagesByItemId s i u) as [| m l] eqn:Hg; [discriminate |].
        exists m. apply getMessagesByItemId_spec. rewrite Hg. left. reflexivity.
    + destruct (_ && _); [reflexivity |].
      intros H. contradiction (H _ eq_refl).
Qed.

Lemma getItemById_items (s s' : store) (i : id) :
  items s' = items s -> getItemById s' i = getItemById s i.
Proof. unfold getItemById. intros ->. reflexivity. Qed.

Lemma getUserById_users (s s' : store) (i : id) :
  users s' = users s -> getUserById s' i = getUserById s i.
Proof. unfold getUserById. intros ->. reflexivity. Qed.

(** A message about an existing item is listed to its sender and its
    receiver. *)
Lemma get_item_messages_lists (s : store) (u : id) (m : message) (it : item) :
  getItemById s (msg_itemId m) = Some it -> In m (messages s) ->
  senderId m = u \/ receiverId m = u ->
  exists ms, get_item_messages s u (msg_itemId m) = GetOk ms /\ In m ms.
Proof.
  intros Hit Hin Hu. unfold get_item_messages. rewrite Hit.
  assert (Hm : In m (getMessagesByItemId s (msg_itemId m) u))
    by (apply getMessagesByItemId_spec; auto).
  destruct (getMessagesByItemId s (msg_itemId m) u) as [| m0 l]; [destruct Hm |].
  simpl. eauto.
Qed.

(** Extra X13: a message just sent with [POST /api/messages] is listed by
    [GET /api/messages/:itemId] to both its sender and its receiver, and
    by [GET /api/messages] to both of them. *)
Theorem sent_message_visible (s : store) (u : id) (b : send_body) (m : message)
  (s' : store) :
  post_messages s u b = (Created_message m, s') ->
  (exists ms, get_item_messages s' u (body_itemId b) = GetOk ms /\ In m ms) /\
  (exists ms, get_item_messages s' (body_receiverId b) (body_itemId b) = GetOk ms /\ In m ms) /\
  (exists su ru it, In (m, su, ru, it) (getUserMessages s' u)) /\
  (exists su ru it, In (m, su, ru, it) (getUserMessages s' (body_receiverId b))).
Proof.
  intros H. apply post_messages_created in H
    as (Hms & Hs & Hr & Hi & Hitems & _ & Hit & _).
  assert (Hin : In m (messages s')) by (rewrite Hms; apply in_or_app; right; left; reflexivity).
  destruct (getItemById s (body_itemId b)) as [it |] eqn:Hg; [| contradiction].
  assert (Hg' : getItemById s' (msg_itemId m) = Some it)
    by (rewrite (getItemById_items s s'), Hi; assumption).
  rewrite <- Hi. refine (conj _ (conj _ (conj _ _))).
  - eapply get_item_messages_lists; eauto.
  - eapply get_item_messages_lists; eauto.
  - apply getUserMessages_in. auto.
  - apply getUserMessages_in. auto.
Qed.

(** Extra X14: once a user has sent the owner of an item a message about
    it, the owner's [POST /api/messages] reply to that user about the item
    is never refused with 403, whatever its text. *)
Theorem first_contact_enables_reply (s : store) (v : id) (b : send_body) (m : message)
  (s' : store) (it : item) (t : jsval) :
  getItemById s (body_itemId b) = Some it ->
  body_receiverId b = item_userId it ->
  getUserById s v <> None ->
  post_messages s v b = (Created_message m, s') ->
  status (fst (post_messages s' (item_userId it) (mkSendBody (body_itemId b) v t))) <> 403.
Proof.
  intros Hit Hown Hv H.
  apply post_messages_created in H as (Hms & Hs & Hr & Hi & Hitems & Husers & _).
  destruct (getUserById s v) as [rc |] eqn:Hu; [| contradiction].
  rewrite (post_messages_found s' (item_userId it) (mkSendBody (body_itemId b) v t) it rc);
    simpl.
  - replace (route_authorized _ _ _ _ _) with true; [apply send_create_status |].
    symmetry. apply route_authorized_spec. right. split; [reflexivity |].
    exists m. rewrite Hms. repeat split; try congruence.
    apply in_or_app. right. left. reflexivity.
  - rewrite (getItemById_items s s'); assumption.
  - rewrite (getUserById_users s s'); assumption.
Qed.

(** ** Accounts *)

Lemma find_app_none {A : Type} (f : A -> bool) (l : list A) (x : A) :
  find f l = None -> find f (l ++ [x]) = if f x then Some x else None.
Proof.
  induction l as [| y l IH]; simpl; [reflexivity |].
  destruct (f y); [discriminate | exact IH].
Qed.

Lemma find_app_some {A : Type} (f : A -> bool) (l : list A) (x y : A) :
  find f l = Some y -> find f (l ++ [x]) = Some y.
Proof.
  induction l as [| z l IH]; simpl; [discriminate |].
  destruct (f z); [exact (fun H => H) | exact IH].
Qed.

Lemma createUser_ok (a a' : auth_store) (nu : new_user) (x : account) :
  createUser a nu = Some (x, a') ->
  x = mkAccount (acc_next a) (nu_name nu) (nu_email nu) (nu_password nu)
                (nu_googleId nu) (nu_collegeId nu) /\
  accounts a' = accounts a ++ [x] /\
  getUserByEmail a (nu_email nu) = None /\
  (forall g, nu_googleId nu = Some g -> getUserByGoogleId a g = None).
Proof.
  unfold createUser.
  destruct (getUserByEmail a (nu_email nu)); simpl; [discriminate |].
  destruct (nu_googleId nu) as [g |] eqn:Hg.
  - destruct (getUserByGoogleId a g) eqn:Hgg; simpl; [discriminate |].
    intros [= <- <-]. simpl. repeat split; try reflexivity.
    intros g' [= <-]. exact Hgg.
  - simpl. intros [= <- <-]. simpl. repeat split; try reflexivity. discriminate.
Qed.

(** The account appended by [createUser] is the one found by its email and
    by its Google id. *)
Lemma createUser_lookup (a a' : auth_store) (nu : new_user) (x : account) :
  createUser a nu = Some (x, a') ->
  getUserByEmail a' (nu_email nu) = Some x /\
  (forall g, nu_googleId nu = Some g -> getUserByGoogleId a' g = Some x).
Proof.
  intros H. pose proof (createUser_ok _ _ _ _ H) as (Hx & Ha & He & Hg).
  unfold getUserByEmail, getUserByGoogleId in *. rewrite Ha. split.
  - rewrite (find_app_none _ _ _ He), Hx. simpl. rewrite String.eqb_refl. reflexivity.
  - intros g Hng. rewrite (find_app_none _ _ _ (Hg g Hng)), Hx. simpl.
    rewrite Hng, String.eqb_refl. reflexivity.
Qed.

Lemma insertUserSchema_parse_ok (b : signup_body) (v : new_user) :
  insertUserSchema_parse b = Some v ->
  sb_email b = JString (nu_email v) /\
  (forall pw, nu_password v = Some pw -> sb_password b = JString pw) /\
  zod_opt_string (sb_googleId b) = Some (nu_googleId v).
Proof.
  unfold insertUserSchema_parse.
  destruct (sb_name b); try discriminate; destruct (sb_email b); try discriminate;
    destruct (sb_collegeId b); try discriminate;
    destruct (sb_password b); try discriminate; destruct (sb_googleId b); try discriminate;
    simpl; intros [= <-]; simpl; repeat split; congruence.
Qed.

(** What a successful signup did. *)
Lemma signup_ok (hash : string -> string -> string) (salt : string) (a a' : auth_store)
  (b : signup_body) (st : Z) (x : account) :
  signup hash salt a b = (AuthOk st x, a') ->
  st = 201 /\
  exists v pw, insertUserSchema_parse b = Some v /\ nu_password v = Some pw /\
               pw <> ""%string /\
               createUser a (mkNewUser (nu_name v) (nu_email v) (Some (hash salt pw))
                                       (nu_googleId v) (nu_collegeId v)) = Some (x, a').
Proof.
  unfold signup. destruct (insertUserSchema_parse b) as [v |]; [| discriminate].
  destruct (getUserByEmail a (nu_email v)); [discriminate |].
  destruct (nu_password v) as [[| c pw] |] eqn:Hp; try discriminate.
  destruct (createUser _ _) as [[y a''] |] eqn:Hc; [| discriminate].
  intros [= <- <- <-]. split; [reflexivity |].
  exists v, (String c pw). repeat split; try assumption; discriminate.
Qed.

Lemma signup_error (hash : string -> string -> string) (salt : string) (a a' : auth_store)
  (b : signup_body) (st : Z) (m : string) :
  signup hash salt a b = (AuthError st m, a') -> a' = a.
Proof.
  unfold signup. destruct (insertUserSchema_parse b) as [v |]; [| congruence].
  destruct (getUserByEmail a (nu_email v)); [congruence |].
  destruct (nu_password v) as [[| c pw] |]; try congruence.
  destruct (createUser _ _) as [[y a''] |]; congruence.
Qed.


Lemma js_truthy_string (str : string) :
  js_truthy (JString str) = true <-> str <> ""%string.
Proof.
  simpl. destruct str; simpl; split; try discriminate; try contradiction; auto.
Qed.

(** What a successful login found. *)
Lemma login_ok (compare : string -> string -> bool) (a : auth_store)
  (e p : jsval) (st : Z) (u : account) :
  login compare a e p = AuthOk st u <->
  st = 200 /\
  exists e' p' h, js_truthy e = true /\ pg_param e = Some e' /\
                  p = JString p' /\ p' <> ""%string /\
                  getUserByEmail a e' = Some u /\ acc_password u = Some h /\
                  h <> ""%string /\ compare p' h = true.
Proof.
  unfold login. split.
  - destruct (js_truthy e) eqn:He; [| discriminate].
    destruct (js_truthy p) eqn:Hp; [| discriminate]. simpl.
    destruct (pg_param e) as [e' |] eqn:Hpe; [| discriminate].
    destruct (getUserByEmail a e') as [x |] eqn:Hx; [| discriminate].
    destruct (acc_password x) as [[| f h] |] eqn:Hh; try discriminate.
    destruct p as [| | p' | | |]; try discriminate.
    destruct (compare p' (String f h)) eqn:Hc; [| discriminate].
    intros [= <- <-]. split; [reflexivity |]. exists e', p', (String f h).
    apply js_truthy_string in Hp.
    repeat split; try assumption; discriminate.
  - intros (-> & e' & p' & h & He & Hpe & -> & Hpne & Hx & Hh & Hne & Hc).
    apply js_truthy_string in Hpne. rewrite He, Hpne. simpl.
    rewrite Hpe, Hx, Hh. destruct h as [| f h]; [contradiction |]. rewrite Hc. reflexivity.
Qed.

(** The found rows are rows of the table. *)
Lemma getUserByEmail_in (a : auth_store) (e : string) (u : account) :
  getUserByEmail a e = Some u -> In u (accounts a) /\ acc_email u = e.
Proof.
  unfold getUserByEmail. intros H. apply find_some in H as [Hin H].
  apply String.eqb_eq in H. auto.
Qed.

Lemma getUserByGoogleId_in (a : auth_store) (g : string) (u : account) :
  getUserByGoogleId a g = Some u -> In u (accounts a) /\ acc_googleId u = Some g.
Proof.
  unfold getUserByGoogleId. intros H. apply find_some in H as [Hin H].
  destruct (acc_googleId u) as [g' |]; [| discriminate].
  apply String.eqb_eq in H. subst. auto.
Qed.

(** What a successful Google sign-in did: it found the account by Google
    id, or by email, or created it. *)
Lemma google_login_ok (a a' : auth_store) (cid : option string)
  (v : option (option google_payload)) (col : string) (st : Z) (u : account) :
  google_login a cid v col = (AuthOk st u, a') ->
  st = 200 /\
  exists c p e g, cid = Some c /\ c <> ""%string /\ v = Some (Some p) /\
    g_email p = Some e /\ e <> ""%string /\ g_sub p = Some g /\ g <> ""%string /\
    ((getUserByGoogleId a g = Some u /\ a' = a) \/
     (getUserByGoogleId a g = None /\ getUserByEmail a e = Some u /\ a' = a) \/
     (getUserByGoogleId a g = None /\ getUserByEmail a e = None /\
      createUser a (mkNewUser (match g_name p with
                               | None | Some EmptyString => "Google User"%string
                               | Some n => n end) e None (Some g) ("G-" ++ col))
      = Some (u, a'))).
Proof.
  unfold google_login.
  destruct cid as [[| c0 c] |]; try discriminate.
  destruct v as [[p |] |]; try discriminate.
  destruct (g_email p) as [[| e0 e] |] eqn:He; try discriminate;
    destruct (g_sub p) as [[| g0 g] |] eqn:Hg; try discriminate.
  intros H. assert (Hst : st = 200).
  { destruct (getUserByGoogleId _ _); [congruence |].
    destruct (getUserByEmail _ _); [congruence |].
    destruct (createUser _ _) as [[? ?] |]; congruence. }
  split; [exact Hst |].
  exists (String c0 c), p, (String e0 e), (String g0 g).
  do 7 (split; [first [reflexivity | assumption | discriminate] |]).
  destruct (getUserByGoogleId _ _) eqn:Hgu; [left; split; congruence | right].
  destruct (getUserByEmail _ _) eqn:Heu; [left; repeat split; congruence | right].
  destruct (createUser _ _) as [[? ?] |] eqn:Hc; [| discriminate].
  injection H as <- <- <-. auto.
Qed.

(** Extra X15: signing up then logging in. With a [bcrypt] whose hashes
    are never empty and whose [compare] accepts a password against its own
    hash, the email and password a successful signup was given log into
    the account it created, unless the email is the empty string, which
    signup accepts and login refuses with 400. *)
Theorem signup_login_roundtrip (hash : string -> string -> string)
  (compare : string -> string -> bool)
  (Hcompare : forall salt pw, compare pw (hash salt pw) = true)
  (Hhash : forall salt pw, hash salt pw <> ""%string)
  (salt : string) (a a' : auth_store) (b : signup_body) (x : account) :
  signup hash salt a b = (AuthOk 201 x, a') ->
  exists e pw, sb_email b = JString e /\ sb_password b = JString pw /\
    login compare a' (JString e) (JString pw) =
    if String.eqb e "" then AuthError 400 "Email and password are required"
    else AuthOk 200 x.
Proof.
  intros H. apply signup_ok in H as (_ & v & pw & Hp & Hpw & Hpne & Hcu).
  apply insertUserSchema_parse_ok in Hp as (He & Hpb & _).
  pose proof (createUser_lookup _ _ _ _ Hcu) as [Hl _].
  pose proof (createUser_ok _ _ _ _ Hcu) as [Hx _]. simpl in Hl, Hx.
  exists (nu_email v), pw. split; [exact He | split; [exact (Hpb pw Hpw) |]].
  destruct (nu_email v) as [| c e] eqn:Hev.
  - unfold login. destruct pw as [| d p]; [contradiction | reflexivity].
  - replace (String.eqb (String c e) "") with false by reflexivity.
    apply login_ok. split; [reflexivity |].
    exists (String c e), pw, (hash salt pw). subst x.
    repeat split; try assumption; try reflexivity; try discriminate; try apply Hcompare.
    simpl. apply Hhash.
Qed.

(** Extra X16: an account that [POST /api/auth/google] creates is appended
    with no password, and [POST /api/auth/login] never logs into it. *)
Theorem google_account_no_password (compare : string -> string -> bool)
  (a a' : auth_store) (cid : option string) (v : option (option google_payload))
  (col : string) (st : Z) (u : account) :
  google_login a cid v col = (AuthOk st u, a') -> ~ In u (accounts a) ->
  accounts a' = accounts a ++ [u] /\ acc_password u = None /\
  (forall e p st', login compare a' e p <> AuthOk st' u).
Proof.
  intros H Hnew. apply google_login_ok in H as (_ & c & p & e & g & _ & _ & _ & _ & _ & _ & _ & H).
  destruct H as [[Hg _] | [[_ [He _]] | (_ & _ & Hc)]].
  - apply getUserByGoogleId_in in Hg as [Hin _]. contradiction.
  - apply getUserByEmail_in in He as [Hin _]. contradiction.
  - apply createUser_ok in Hc as (Hx & Ha & _). simpl in Hx.
    assert (Hpw : acc_password u = None) by (rewrite Hx; reflexivity).
    split; [exact Ha | split; [exact Hpw |]].
    intros e' p' st' Hl. apply login_ok in Hl as (_ & _ & _ & h & _ & _ & _ & _ & _ & Hh & _).
    congruence.
Qed.

(** Extra X17: Google sign-in with an email that is already registered,
    for a Google id no account holds, logs into that account and writes
    nothing: the Google id is not linked, so the next sign-in again goes
    through the email. The account may hold another Google id. *)
Theorem google_email_login_no_link (a : auth_store) (cid e g col : string)
  (n : option string) (u : account) :
  cid <> ""%string -> e <> ""%string -> g <> ""%string ->
  getUserByGoogleId a g = None -> getUserByEmail a e = Some u ->
  google_login a (Some cid) (Some (Some (mkGooglePayload (Some e) n (Some g)))) col =
  (AuthOk 200 u, a).
Proof.
  intros Hc He Hg Hgu Heu.
  destruct cid as [| c0 c]; [contradiction |]. destruct e as [| e0 e]; [contradiction |].
  destruct g as [| g0 g]; [contradiction |].
  unfold google_login. cbn -[getUserByGoogleId getUserByEmail createUser].
  rewrite Hgu, Heu. reflexivity.
Qed.

(** Extra X18: the [googleId] a signup body gives is stored as is, and a
    later Google sign-in whose token carries that id logs into the account
    signup created, whatever the token's email and name. *)
Theorem signup_googleId_claims_google_login (hash : string -> string -> string)
  (salt : string) (a a' : auth_store) (b : signup_body) (x : account)
  (g cid e col : string) (n : option string) :
  signup hash salt a b = (AuthOk 201 x, a') ->
  sb_googleId b = JString g -> g <> ""%string -> cid <> ""%string -> e <> ""%string ->
  google_login a' (Some cid) (Some (Some (mkGooglePayload (Some e) n (Some g)))) col =
  (AuthOk 200 x, a').
Proof.
  intros H Hb Hg Hc He. apply signup_ok in H as (_ & v & pw & Hp & _ & _ & Hcu).
  apply insertUserSchema_parse_ok in Hp as (_ & _ & Hgv). rewrite Hb in Hgv.
  simpl in Hgv. injection Hgv as Hgv.
  pose proof (createUser_lookup _ _ _ _ Hcu) as [_ Hl]. simpl in Hl.
  specialize (Hl g (eq_sym Hgv)).
  destruct cid as [| c0 c]; [contradiction |]. destruct e as [| e0 e]; [contradiction |].
  destruct g as [| g0 g]; [contradiction |].
  unfold google_login. cbn -[getUserByGoogleId getUserByEmail createUser].
  rewrite Hl. reflexivity.
Qed.


(** Extra X20: a successful [POST /api/auth/signup] answers 201 after a
    valid body with a non-empty password and an email no account has, and
    appends exactly one account: the body's name, email, Google id and
    college id with the bcrypt hash of the password. Every refused signup
    leaves the table unchanged. *)
Theorem signup_outcomes (hash : string -> string -> string) (salt : string)
  (a a' : auth_store) (b : signup_body) :
  (forall st x, signup hash salt a b = (AuthOk st x, a') ->
     st = 201 /\
     exists v pw, insertUserSchema_parse b = Some v /\ nu_password v = Some pw /\
       pw <> ""%string /\ getUserByEmail a (nu_email v) = None /\
       accounts a' = accounts a ++ [x] /\
       x = mkAccount (acc_next a) (nu_name v) (nu_email v) (Some (hash salt pw))
                     (nu_googleId v) (nu_collegeId v)) /\
  (forall st m, signup hash salt a b = (AuthError st m, a') -> a' = a).
Proof.
  split; [| intros st m; apply signup_error].
  intros st x H. apply signup_ok in H as (Hst & v & pw & Hp & Hpw & Hne & Hcu).
  split; [exact Hst |]. exists v, pw.
  apply createUser_ok in Hcu as (Hx & Ha & He & _). simpl in Hx, He.
  repeat split; assumption.
Qed.

(** ** Examples of the further properties *)

Lemma add_entry_unchecked_witness :
  getItemById shop 10 = Some (sell_item 10 1 1500) /\
  handle no_fault shop 1 (AddCart (Some 10%N)) =
    (Created_entry, set_cartItems (snd (gen_id shop))
                      (cartItems shop ++ [mkCartItem (next_id shop) 1 10])) /\
  handle no_fault shop 1 (AddWishlist (Some 10%N)) =
    (Created_entry, set_wishlistItems (snd (gen_id shop))
                      (wishlistItems shop ++ [mkWishlistItem (next_id shop) 1 10])).
Proof.
  split; [reflexivity |].
  exact (add_entry_unchecked no_fault shop 1 10 (sell_item 10 1 1500) eq_refl).
Defined.

Lemma delete_item_cascade_witness :
  delete_item scenario 1 21 = (No_content, snd (delete_item scenario 1 21)) /\
  getItemById (snd (delete_item scenario 1 21)) 21 = None /\
  ~ In (mkCartItem 31 2 21) (cartItems (snd (delete_item scenario 1 21))).
Proof.
  assert (H : delete_item scenario 1 21 = (No_content, snd (delete_item scenario 1 21)))
    by (vm_compute; reflexivity).
  destruct (delete_item_cascade scenario 1 21 _ H) as (Hg & _ & _ & Hc & _).
  split; [exact H | split; [exact Hg |]].
  intros Hin. apply Hc in Hin as [_ Hne]. apply Hne. reflexivity.
Defined.

Lemma put_item_keeps_witness :
  put_item shop 1 10 title_body =
    (Ok_item (Some (mkItem 10 1 "Desk lamp (new)" "Barely used" "Furniture" "/img/lamp.jpg"
                           "sell" None (Some (PgNum 1500)) false)),
     snd (put_item shop 1 10 title_body)) /\
  getItemById (snd (put_item shop 1 10 title_body)) 10 =
    Some (mkItem 10 1 "Desk lamp (new)" "Barely used" "Furniture" "/img/lamp.jpg"
                 "sell" None (Some (PgNum 1500)) false).
Proof.
  assert (H : put_item shop 1 10 title_body =
    (Ok_item (Some (mkItem 10 1 "Desk lamp (new)" "Barely used" "Furniture" "/img/lamp.jpg"
                           "sell" None (Some (PgNum 1500)) false)),
     snd (put_item shop 1 10 title_body))) by (vm_compute; reflexivity).
  split; [exact H |].
  destruct (put_item_keeps shop 1 10 title_body _ _ H)
    as (it & it' & _ & _ & Hr & Hg & _). injection Hr as <-. exact Hg.
Defined.


(** What the columns store for a number, a spaced string and "NaN". *)
Lemma put_item_driver_text_examples :
  put_item shop 1 10 number_title_body =
    (Ok_item (Some (mkItem 10 1 "5" "Barely used" "Furniture" "/img/lamp.jpg"
                           "sell" None (Some (PgNum 1500)) false)),
     snd (put_item shop 1 10 number_title_body)) /\
  fst (put_item shop 1 10 (price_body (JNumber 12.5))) =
    Ok_item (Some (mkItem 10 1 "Desk lamp" "Barely used" "Furniture" "/img/lamp.jpg"
                          "sell" None (Some (PgNum 1250)) false)) /\
  fst (put_item shop 1 10 (price_body (JString " 12.50"))) =
    Ok_item (Some (mkItem 10 1 "Desk lamp" "Barely used" "Furniture" "/img/lamp.jpg"
                          "sell" None (Some (PgNum 1250)) false)) /\
  fst (put_item shop 1 10 (price_body (JString "NaN"))) =
    Ok_item (Some (mkItem 10 1 "Desk lamp" "Barely used" "Furniture" "/img/lamp.jpg"
                          "sell" None (Some PgNaN) false)) /\
  fst (put_item shop 1 10 (price_body (JBool true))) = Json 500 "Failed to update item".
Proof. vm_compute. repeat split. Qed.

(** [bcrypt.compare] with a number for the password: 500. *)
Lemma login_number_password_example :
  login toy_compare asha_store (JString "asha@college.edu") (JNumber 123) =
    AuthError 500 "Failed to login" /\
  login toy_compare asha_store (JNumber 0) (JString "secret") =
    AuthError 400 "Email and password are required".
Proof. vm_compute. split; reflexivity. Qed.

(** The sum over [half_cent_cart] prints as "67157797.565", which
    [numeric(10, 2)] rounds up to 67157797.57. *)
Lemma checkout_total_printed_half_cent :
  js_number_toString (checkout_total (filter is_valid_row (cart_rows half_cent_cart 2))) =
    "67157797.565"%string /\
  numeric_10_2_of_float (checkout_total (filter is_valid_row (cart_rows half_cent_cart 2))) =
    Some (PgNum 6715779757).
Proof. vm_compute. split; reflexivity. Qed.

Lemma checkout_twice_empty_witness :
  checkout no_fault scenario 2 = (inr (mkOrder 100 2 (PgNum 1500)), snd (checkout no_fault scenario 2)) /\
  fst (checkout no_fault (snd (checkout no_fault scenario 2)) 2) = inl (TxThrow "Cart is empty").
Proof.
  assert (H : checkout no_fault scenario 2 =
              (inr (mkOrder 100 2 (PgNum 1500)), snd (checkout no_fault scenario 2)))
    by (vm_compute; reflexivity).
  split; [exact H | exact (checkout_twice_empty no_fault no_fault scenario 2 _ _ H)].
Defined.

Lemma checkout_no_double_sale_witness :
  checkout no_fault double_cart 2 =
    (inr (mkOrder 100 2 (PgNum 2100)), snd (checkout no_fault double_cart 2)) /\
  checkout no_fault (snd (checkout no_fault double_cart 2)) 3 =
    (inr (mkOrder 103 3 (PgNum 2025)),
     snd (checkout no_fault (snd (checkout no_fault double_cart 2)) 3)) /\
  exists new new',
    orderItems (snd (checkout no_fault double_cart 2)) = orderItems double_cart ++ new /\
    orderItems (snd (checkout no_fault (snd (checkout no_fault double_cart 2)) 3)) =
      orderItems (snd (checkout no_fault double_cart 2)) ++ new' /\
    forall oi oi', In oi new -> In oi' new' -> oi_itemId oi <> oi_itemId oi'.
Proof.
  assert (H1 : checkout no_fault double_cart 2 =
    (inr (mkOrder 100 2 (PgNum 2100)), snd (checkout no_fault double_cart 2)))
    by (vm_compute; reflexivity).
  assert (H2 : checkout no_fault (snd (checkout no_fault double_cart 2)) 3 =
    (inr (mkOrder 103 3 (PgNum 2025)),
     snd (checkout no_fault (snd (checkout no_fault double_cart 2)) 3)))
    by (vm_compute; reflexivity).
  split; [exact H1 | split; [exact H2 |]].
  exact (checkout_no_double_sale no_fault no_fault double_cart 2 3 _ _ _ _ H1 H2).
Defined.

Lemma checkout_counts_cart_rows_witness :
  checkout no_fault double_cart 2 =
    (inr (mkOrder 100 2 (PgNum 2100)), snd (checkout no_fault double_cart 2)) /\
  exists new, orderItems (snd (checkout no_fault double_cart 2)) = orderItems double_cart ++ new /\
    List.length (filter (fun oi => N.eqb (oi_itemId oi) 60) new) = 2%nat.
Proof.
  assert (H : checkout no_fault double_cart 2 =
    (inr (mkOrder 100 2 (PgNum 2100)), snd (checkout no_fault double_cart 2)))
    by (vm_compute; reflexivity).
  split; [exact H |].
  destruct (checkout_counts_cart_rows no_fault double_cart 2 _ _ 60 (sell_item 60 1 1050)
              H eq_refl eq_refl eq_refl) as (new & Hn & _ & Hl).
  exists new. split; [exact Hn |]. rewrite Hl. reflexivity.
Defined.

Lemma ordered_items_stay_sold_witness :
  ordered_items_sold (snd (handle no_fault scenario 2 Checkout)) = true /\
  ordered_items_sold (snd (handle no_fault (snd (handle no_fault scenario 2 Checkout)) 1
                                  (DeleteItem 20))) = true.
Proof.
  assert (H : ordered_items_sold (snd (handle no_fault scenario 2 Checkout)) = true)
    by (vm_compute; reflexivity).
  split; [exact H | exact (ordered_items_stay_sold no_fault _ 1 (DeleteItem 20) H)].
Defined.

Lemma sent_message_visible_witness :
  post_messages shop 2 (text_body 10 1 "hi") =
    (Created_message (mkMessage 100 2 1 10 (Some "hi"%string) None None None),
     snd (post_messages shop 2 (text_body 10 1 "hi"))) /\
  exists ms, get_item_messages (snd (post_messages shop 2 (text_body 10 1 "hi"))) 1 10 = GetOk ms /\
             In (mkMessage 100 2 1 10 (Some "hi"%string) None None None) ms.
Proof.
  assert (H : post_messages shop 2 (text_body 10 1 "hi") =
    (Created_message (mkMessage 100 2 1 10 (Some "hi"%string) None None None),
     snd (post_messages shop 2 (text_body 10 1 "hi")))) by (vm_compute; reflexivity).
  split; [exact H |].
  exact (proj1 (proj2 (sent_message_visible shop 2 (text_body 10 1 "hi") _ _ H))).
Defined.

Lemma first_contact_enables_reply_witness :
  post_messages shop 2 (text_body 10 1 "hi") =
    (Created_message (mkMessage 100 2 1 10 (Some "hi"%string) None None None),
     snd (post_messages shop 2 (text_body 10 1 "hi"))) /\
  status (fst (post_messages (snd (post_messages shop 2 (text_body 10 1 "hi"))) 1
                             (mkSendBody 10 2 (JString "Yes, it is")))) <> 403.
Proof.
  assert (H : post_messages shop 2 (text_body 10 1 "hi") =
    (Created_message (mkMessage 100 2 1 10 (Some "hi"%string) None None None),
     snd (post_messages shop 2 (text_body 10 1 "hi")))) by (vm_compute; reflexivity).
  split; [exact H |].
  apply (first_contact_enables_reply shop 2 (text_body 10 1 "hi")
           (mkMessage 100 2 1 10 (Some "hi"%string) None None None)
           (snd (post_messages shop 2 (text_body 10 1 "hi"))) (sell_item 10 1 1500)
           (JString "Yes, it is") eq_refl eq_refl); [discriminate | exact H].
Defined.

Lemma signup_login_roundtrip_witness :
  signup toy_hash "salt" no_accounts (asha_body JUndefined) =
    (AuthOk 201 (mkAccount 1 "Asha" "asha@college.edu" (Some "h:secret"%string) None "C-17"),
     snd (signup toy_hash "salt" no_accounts (asha_body JUndefined))) /\
  exists e pw, sb_email (asha_body JUndefined) = JString e /\
    sb_password (asha_body JUndefined) = JString pw /\
    login toy_compare (snd (signup toy_hash "salt" no_accounts (asha_body JUndefined)))
          (JString e) (JString pw) =
    if String.eqb e "" then AuthError 400 "Email and password are required"
    else AuthOk 200 (mkAccount 1 "Asha" "asha@college.edu" (Some "h:secret"%string) None "C-17").
Proof.
  assert (H : signup toy_hash "salt" no_accounts (asha_body JUndefined) =
    (AuthOk 201 (mkAccount 1 "Asha" "asha@college.edu" (Some "h:secret"%string) None "C-17"),
     snd (signup toy_hash "salt" no_accounts (asha_body JUndefined))))
    by (vm_compute; reflexivity).
  split; [exact H |].
  refine (signup_login_roundtrip toy_hash toy_compare _ _ "salt" _ _ _ _ H).
  - intros salt pw. apply String.eqb_refl.
  - intros salt pw. discriminate.
Defined.

Lemma google_account_no_password_witness :
  google_login no_accounts (Some "client"%string) (google_token "ravi@college.edu" "g-42") "X7K" =
    (AuthOk 200 (mkAccount 1 "Ravi" "ravi@college.edu" None (Some "g-42"%string) "G-X7K"),
     snd (google_login no_accounts (Some "client"%string) (google_token "ravi@college.edu" "g-42")
                       "X7K")) /\
  acc_password (mkAccount 1 "Ravi" "ravi@college.edu" None (Some "g-42"%string) "G-X7K") = None.
Proof.
  assert (H : google_login no_accounts (Some "client"%string) (google_token "ravi@college.edu" "g-42")
                "X7K" =
    (AuthOk 200 (mkAccount 1 "Ravi" "ravi@college.edu" None (Some "g-42"%string) "G-X7K"),
     snd (google_login no_accounts (Some "client"%string) (google_token "ravi@college.edu" "g-42")
                       "X7K"))) by (vm_compute; reflexivity).
  split; [exact H |].
  refine (proj1 (proj2 (google_account_no_password toy_compare _ _ _ _ _ _ _ H _))).
  intros [].
Defined.

Lemma google_email_login_no_link_witness :
  google_login asha_store (Some "client"%string)
               (Some (Some (mkGooglePayload (Some "asha@college.edu"%string) None (Some "g-99"%string)))) "X7K" =
  (AuthOk 200 (mkAccount 1 "Asha" "asha@college.edu" (Some "h:secret"%string) (Some "g-7"%string) "C-17"),
   asha_store).
Proof.
  apply google_email_login_no_link; try discriminate; reflexivity.
Defined.

Lemma signup_googleId_claims_google_login_witness :
  signup toy_hash "salt" no_accounts (asha_body (JString "g-42")) =
    (AuthOk 201 (mkAccount 1 "Asha" "asha@college.edu" (Some "h:secret"%string) (Some "g-42"%string) "C-17"),
     snd (signup toy_hash "salt" no_accounts (asha_body (JString "g-42")))) /\
  google_login (snd (signup toy_hash "salt" no_accounts (asha_body (JString "g-42"))))
               (Some "client"%string) (google_token "ravi@college.edu" "g-42") "X7K" =
  (AuthOk 200 (mkAccount 1 "Asha" "asha@college.edu" (Some "h:secret"%string) (Some "g-42"%string) "C-17"),
   snd (signup toy_hash "salt" no_accounts (asha_body (JString "g-42")))).
Proof.
  assert (H : signup toy_hash "salt" no_accounts (asha_body (JString "g-42")) =
    (AuthOk 201 (mkAccount 1 "Asha" "asha@college.edu" (Some "h:secret"%string) (Some "g-42"%string) "C-17"),
     snd (signup toy_hash "salt" no_accounts (asha_body (JString "g-42")))))
    by (vm_compute; reflexivity).
  split; [exact H |].
  apply (signup_googleId_claims_google_login toy_hash "salt" no_accounts _ _ _ "g-42"
           "client" "ravi@college.edu" "X7K" (Some "Ravi"%string) H eq_refl); discriminate.
Defined.

(** ** The authentication middleware *)

Lemma js_split_space_token (tok rest : string) :
  forallb (fun c => negb (Ascii.eqb c " ")) (list_ascii_of_string tok) = true ->
  (rest = ""%string \/ exists r, rest = String " " r) ->
  exists tl, js_split_space (tok ++ rest)%string = tok :: tl.
Proof.
  intros Htok Hrest. induction tok as [| c tok IH]; simpl.
  - destruct Hrest as [-> | (r & ->)]; simpl; eauto.
  - simpl in Htok. apply andb_true_iff in Htok as [Hc Htok].
    destruct (IH Htok) as (tl & ->). apply negb_true_iff in Hc. rewrite Hc. eauto.
Qed.

(** Extra X21: [authMiddleware] takes as token the text between
    "Bearer " and the next space, ignores what follows, and lets the
    request through exactly when [jwt.verify] accepts that token. A
    missing header, or one that does not start with "Bearer " (case
    included), is answered 401 "No token provided". *)
Theorem auth_header_token (verify : string -> option id) (tok rest : string) :
  forallb (fun c => negb (Ascii.eqb c " ")) (list_ascii_of_string tok) = true ->
  (rest = ""%string \/ exists r, rest = String " " r) ->
  authMiddleware verify (Some ("Bearer " ++ tok ++ rest)%string) =
    match verify tok with
    | Some u => MwNext u
    | None => MwReject 401 "Invalid or expired token"
    end /\
  authMiddleware verify None = MwReject 401 "No token provided" /\
  (forall h, String.prefix "Bearer " h = false ->
             authMiddleware verify (Some h) = MwReject 401 "No token provided").
Proof.
  intros Htok Hrest. split; [| split; [reflexivity |]].
  - destruct (js_split_space_token tok rest Htok Hrest) as (tl & Hs).
    unfold authMiddleware. simpl. rewrite Hs. destruct (tok ++ rest)%string; reflexivity.
  - intros h Hh. unfold authMiddleware. rewrite Hh, orb_true_r. reflexivity.
Qed.

(** ** The upload filter *)

Lemma list_ascii_of_string_app (s1 s2 : string) :
  list_ascii_of_string (s1 ++ s2)%string = list_ascii_of_string s1 ++ list_ascii_of_string s2.
Proof. induction s1 as [| c s1 IH]; simpl; [reflexivity | now rewrite IH]. Qed.

Lemma list_ascii_of_string_length (s : string) :
  List.length (list_ascii_of_string s) = String.length s.
Proof. induction s as [| c s IH]; simpl; [reflexivity | now rewrite IH]. Qed.

Lemma string_length_app (s1 s2 : string) :
  String.length (s1 ++ s2)%string = (String.length s1 + String.length s2)%nat.
Proof. induction s1 as [| c s1 IH]; simpl; [reflexivity | now rewrite IH]. Qed.

Lemma substring_all (s : string) : substring 0 (String.length s) s = s.
Proof. induction s as [| c s IH]; simpl; [reflexivity | now rewrite IH]. Qed.

Lemma substring_app (s1 s2 : string) :
  substring (String.length s1) (String.length s2) (s1 ++ s2)%string = s2.
Proof. induction s1 as [| c s1 IH]; simpl; [apply substring_all | exact IH]. Qed.

Definition no_char (x : ascii) (l : list ascii) : bool :=
  forallb (fun c => negb (Ascii.eqb c x)) l.

Lemma no_char_app (x : ascii) (l1 l2 : list ascii) :
  no_char x (l1 ++ l2) = no_char x l1 && no_char x l2.
Proof. unfold no_char. apply forallb_app. Qed.

Lemma no_char_rev (x : ascii) (l : list ascii) : no_char x (rev l) = no_char x l.
Proof.
  induction l as [| c l IH]; simpl; [reflexivity |].
  rewrite no_char_app, IH. simpl. rewrite andb_true_r. apply andb_comm.
Qed.

(** Reading no dot never sets [startDot]. *)
Lemma extname_loop_nodot (cs : list ascii) (st : extname_state) :
  no_char "." cs = true -> startDot st = -1 -> startDot (extname_loop cs st) = -1.
Proof.
  revert st. induction cs as [| c cs IH]; intros st Hcs Hst; [exact Hst |].
  simpl in Hcs. apply andb_true_iff in Hcs as [Hc Hcs]. apply negb_true_iff in Hc.
  simpl. unfold extname_step. rewrite Hc.
  destruct (Ascii.eqb c "/").
  - destruct (negb (matchedSlash st)); [exact Hst | apply IH; assumption].
  - destruct (Z.eqb (endPos st) (-1)); simpl; rewrite Hst; simpl; apply IH; auto.
Qed.

(** Before the first dot is read, [preDotState] stays 0; a last character
    that is a dot does not change it either. *)
Lemma extname_loop_leading_dot (l : list ascii) (x : ascii) (st : extname_state) :
  no_char "." l = true -> startDot st = -1 -> preDotState st = 0 ->
  preDotState (extname_loop (l ++ [x]) st) = 0.
Proof.
  revert st. induction l as [| c l IH]; intros st Hl Hst Hpre.
  - simpl. unfold extname_step.
    destruct (Ascii.eqb x "/"); [destruct (negb (matchedSlash st)); exact Hpre |].
    destruct (Z.eqb (endPos st) (-1)); simpl; rewrite Hst; simpl;
      destruct (Ascii.eqb x "."); simpl; exact Hpre.
  - simpl in Hl. apply andb_true_iff in Hl as [Hc Hl]. apply negb_true_iff in Hc.
    simpl. unfold extname_step. rewrite Hc.
    destruct (Ascii.eqb c "/"); [destruct (negb (matchedSlash st)); [exact Hpre | auto] |].
    destruct (Z.eqb (endPos st) (-1)); simpl; rewrite Hst; simpl; apply IH; auto.
Qed.

(** Reading an extension without dot or slash: the first character read
    sets [endPos], nothing else changes. *)
Lemma extname_loop_ext (l rest : list ascii) (st : extname_state) :
  no_char "." l = true -> no_char "/" l = true ->
  startDot st = -1 -> preDotState st = 0 ->
  extname_loop (l ++ rest) st =
  extname_loop rest
    (match l with
     | [] => st
     | _ => if Z.eqb (endPos st) (-1)
            then mkExtState (-1) (startPart st) (Z.of_nat (List.length l + List.length rest))
                            false 0
            else st
     end).
Proof.
  revert st. induction l as [| c l IH]; intros st Hd Hs Hst Hpre; [reflexivity |].
  simpl in Hd, Hs. apply andb_true_iff in Hd as [Hcd Hd]. apply andb_true_iff in Hs as [Hcs Hs].
  apply negb_true_iff in Hcd, Hcs.
  simpl. unfold extname_step. rewrite Hcd, Hcs.
  destruct (Z.eqb (endPos st) (-1)) eqn:He; simpl.
  - rewrite Hst. simpl. rewrite IH by (simpl; first [assumption | reflexivity]). simpl.
    rewrite length_app.
    assert (Hne : Z.eqb (Z.of_nat (List.length l + List.length rest) + 1) (-1) = false)
      by (apply Z.eqb_neq; lia).
    rewrite Hne. destruct l; rewrite Hpre; f_equal; f_equal; lia.
  - rewrite Hst. simpl. rewrite IH by assumption. destruct l; [reflexivity |].
    rewrite He. reflexivity.
Qed.

(** Reading the part of the name before the dot, without slash, when it
    starts with a character that is not a dot: [preDotState] ends at -1. *)
Lemma extname_loop_base (l : list ascii) (c : ascii) (st : extname_state) :
  no_char "/" l = true -> Ascii.eqb c "/" = false -> Ascii.eqb c "." = false ->
  startDot st <> -1 -> endPos st <> -1 ->
  extname_loop (l ++ [c]) st =
  mkExtState (startDot st) (startPart st) (endPos st) (matchedSlash st) (-1).
Proof.
  revert st. induction l as [| y l IH]; intros st Hl Hcs Hcd Hst He.
  - simpl. unfold extname_step. rewrite Hcs, Hcd.
    apply Z.eqb_neq in He, Hst. rewrite He. simpl. rewrite Hst. reflexivity.
  - simpl in Hl. apply andb_true_iff in Hl as [Hy Hl]. apply negb_true_iff in Hy.
    simpl. unfold extname_step. rewrite Hy.
    pose proof He as He'. apply Z.eqb_neq in He'. rewrite He'.
    pose proof Hst as Hst'. apply Z.eqb_neq in Hst'.
    destruct (Ascii.eqb y "."); rewrite ?Hst'; simpl.
    + destruct (negb (Z.eqb (preDotState st) 1)); rewrite IH by (simpl; first [assumption | reflexivity]);
        reflexivity.
    + rewrite IH by (simpl; first [assumption | reflexivity]). reflexivity.
Qed.

Lemma js_toLowerCase_dot (s : string) :
  js_toLowerCase (String "." s) = String "." (js_toLowerCase s).
Proof. reflexivity. Qed.

Lemma allowedTypes_test_dot (s : string) :
  allowedTypes_test (String "." s) = allowedTypes_test s.
Proof. reflexivity. Qed.

(** [path.extname] of a name [base.ext] whose base starts with a
    character other than a dot, with no slash, and whose [ext] has no dot
    or slash. *)
Lemma extname_base_ext (c : ascii) (b ext : string) :
  Ascii.eqb c "." = false -> Ascii.eqb c "/" = false ->
  no_char "/" (list_ascii_of_string b) = true ->
  no_char "." (list_ascii_of_string ext) = true ->
  no_char "/" (list_ascii_of_string ext) = true ->
  extname (String c b ++ String "." ext)%string = String "." ext.
Proof.
  intros Hcd Hcs Hb Hd Hs.
  set (base := String c b).
  assert (Hbase : list_ascii_of_string base = c :: list_ascii_of_string b) by reflexivity.
  assert (Hpos : Z.of_nat (List.length (rev (list_ascii_of_string b) ++ [c])) =
                 Z.of_nat (String.length base)).
  { rewrite length_app, length_rev, list_ascii_of_string_length. simpl. lia. }
  assert (Hn : Z.of_nat (String.length (base ++ String "." ext)) =
               Z.of_nat (String.length base) + 1 + Z.of_nat (String.length ext)).
  { rewrite string_length_app. cbn [String.length]. lia. }
  assert (Hloop : extname_loop (rev (list_ascii_of_string (base ++ String "." ext)))
                               (mkExtState (-1) 0 (-1) true 0) =
                  mkExtState (Z.of_nat (String.length base)) 0
                             (Z.of_nat (String.length (base ++ String "." ext))) false (-1)).
  { rewrite list_ascii_of_string_app, rev_app_distr, Hbase. simpl (rev (c :: _)).
    simpl (list_ascii_of_string (String "." ext)). simpl (rev ("."%char :: _)).
    rewrite <- app_assoc. rewrite Hn.
    destruct ext as [| e ext'].
    - simpl. unfold extname_step. simpl. rewrite Hpos.
      rewrite extname_loop_base by (simpl; first [rewrite no_char_rev; assumption
                                                  | assumption | lia]).
      all: simpl; f_equal; lia.
    - rewrite extname_loop_ext
        by (rewrite ?no_char_rev; first [assumption | reflexivity]).
      assert (Hl : rev (list_ascii_of_string (String e ext')) <> []).
      { simpl. intros H. apply (f_equal (@List.length ascii)) in H.
        rewrite length_app in H. simpl in H. lia. }
      destruct (rev (list_ascii_of_string (String e ext'))) as [| x l] eqn:Hr;
        [contradiction |].
      apply (f_equal (@List.length ascii)) in Hr.
      rewrite length_rev, list_ascii_of_string_length in Hr. simpl in Hr.
      simpl. unfold extname_step. simpl.
      rewrite extname_loop_base
        by (cbn [startDot endPos]; first [rewrite no_char_rev; assumption | assumption | lia]).
      rewrite Hpos. subst base. simpl String.length in *.
      cbn [startDot startPart endPos matchedSlash]. rewrite ?Zpos_P_of_succ_nat. f_equal; lia. }
  unfold extname. rewrite Hloop. cbn [startDot endPos preDotState startPart].
  rewrite Hn.
  replace (Z.of_nat (String.length base) =? -1) with false
    by (symmetry; apply Z.eqb_neq; lia).
  replace (Z.of_nat (String.length base) + 1 + Z.of_nat (String.length ext) =? -1) with false
    by (symmetry; apply Z.eqb_neq; lia).
  change (Z.eqb (-1) 0) with false. change (Z.eqb (-1) 1) with false. cbn [orb andb].
  rewrite Nat2Z.id.
  replace (Z.to_nat (Z.of_nat (String.length base) + 1 + Z.of_nat (String.length ext) -
                     Z.of_nat (String.length base)))
    with (String.length (String "." ext)) by (cbn [String.length]; lia).
  apply substring_app.
Qed.

Lemma fileFilter_extname_empty (f : uploaded_file) :
  extname (originalname f) = ""%string -> fileFilter f = false.
Proof. intros H. unfold fileFilter. rewrite H. reflexivity. Qed.

(** Extra X22: for an uploaded name [base.ext] whose base starts with a
    character other than a dot and has no slash, and whose [ext] has no dot
    or slash, [fileFilter] accepts exactly when one of the words jpeg, jpg,
    png, gif, webp, pdf occurs in the lowercased [ext] and one occurs in the
    mimetype as given: the extension test ignores case and takes any
    extension that contains a word (such as "pdfx"); the mimetype test is
    case-sensitive. *)
Theorem fileFilter_by_extension (c : ascii) (b ext mime fn : string) :
  Ascii.eqb c "." = false -> Ascii.eqb c "/" = false ->
  no_char "/" (list_ascii_of_string b) = true ->
  no_char "." (list_ascii_of_string ext) = true ->
  no_char "/" (list_ascii_of_string ext) = true ->
  fileFilter (mkUploadedFile mime fn (String c b ++ String "." ext)%string) =
  allowedTypes_test (js_toLowerCase ext) && allowedTypes_test mime.
Proof.
  intros Hcd Hcs Hb Hd Hs. unfold fileFilter. cbn [originalname mimetype].
  rewrite extname_base_ext by assumption.
  rewrite js_toLowerCase_dot, allowedTypes_test_dot. reflexivity.
Qed.

(** Extra X23: [fileFilter] refuses every name without an extension: a
    name with no dot, or a name whose only dot is its first character (such
    as ".png"), is refused whatever its mimetype. *)
Theorem fileFilter_no_extension (name mime fn : string) :
  (no_char "." (list_ascii_of_string name) = true \/
   exists b, name = String "." b /\ no_char "." (list_ascii_of_string b) = true) ->
  fileFilter (mkUploadedFile mime fn name) = false.
Proof.
  intros H. apply fileFilter_extname_empty. cbn [originalname]. unfold extname.
  destruct H as [H | (b & -> & H)].
  - rewrite extname_loop_nodot by (rewrite ?no_char_rev; first [assumption | reflexivity]).
    reflexivity.
  - simpl (list_ascii_of_string (String "." b)). simpl (rev ("."%char :: _)).
    rewrite extname_loop_leading_dot
      by (rewrite ?no_char_rev; first [assumption | reflexivity]).
    rewrite Z.eqb_refl, !orb_true_r. reflexivity.
Qed.

Lemma auth_header_token_witness :
  forallb (fun c => negb (Ascii.eqb c " ")) (list_ascii_of_string "abc") = true /\
  authMiddleware (fun t => if String.eqb t "abc" then Some 7%N else None)
                 (Some ("Bearer " ++ "abc" ++ " trailing")%string) = MwNext 7.
Proof.
  split; [reflexivity |].
  refine (proj1 (auth_header_token (fun t => if String.eqb t "abc" then Some 7%N else None)
                   "abc" " trailing" eq_refl _)).
  right. exists "trailing"%string. reflexivity.
Defined.

Lemma fileFilter_by_extension_witness :
  fileFilter (mkUploadedFile "image/png" "f" (String "P" "hoto" ++ String "." "PNG")%string) =
    true /\
  fileFilter (mkUploadedFile "application/pdf" "f" (String "n" "otes" ++ String "." "pdfx")%string) =
    true.
Proof.
  split.
  - rewrite (fileFilter_by_extension "P" "hoto" "PNG" "image/png" "f"); reflexivity.
  - rewrite (fileFilter_by_extension "n" "otes" "pdfx" "application/pdf" "f"); reflexivity.
Defined.

Lemma fileFilter_no_extension_witness :
  fileFilter (mkUploadedFile "image/png" "f" ".png") = false.
Proof.
  apply fileFilter_no_extension. right. exists "png"%string. split; reflexivity.
Defined.
